(** * Barricade: classification, disposition, forensic scan and sentry

    A shallow embedding of the core of the Barricade endpoint triage
    application:

    - [ThreatDetector]: src/services/threatDetector.ts
    - [Main]: the IPC handlers of src/electron/main.cjs
      (quarantine, vault, restore, shred, listing, deep scan)
    - [Sentry]: the proactive sentry timer and the notification handler
      of src/App.tsx

    Conventions.  A JavaScript string is a Rocq [string], one [ascii] per
    code unit, so the model covers names and paths whose code units lie in
    the Latin-1 range.  A JavaScript number holding a count, a size or a
    time stamp is a [Z]; the entropy of the deep scan is a binary64
    [float], as in JavaScript.  A Node [Buffer] is a [list byte]. *)

From Stdlib Require Import ZArith Ascii String List Bool Lia.
From Stdlib Require Import Strings.Byte DecimalString Floats Uint63.
From stdpp Require Import base option list gmap strings.

#[local] Open Scope Z_scope.
#[local] Open Scope string_scope.

(** ** JavaScript string primitives *)

Module JS.

(** [String.prototype.toLowerCase] on one code unit of the Latin-1 range:
    A-Z, and the accented capitals U+00C0..U+00DE except the
    multiplication sign U+00D7, move 32 places up. *)
Definition lowerChar (c : ascii) : ascii :=
  let n := nat_of_ascii c in
  if ((65 <=? n)%nat && (n <=? 90)%nat)
     || ((192 <=? n)%nat && (n <=? 222)%nat && negb (n =? 215)%nat)
  then ascii_of_nat (n + 32) else c.

Fixpoint toLowerCase (s : string) : string :=
  match s with
  | EmptyString => EmptyString
  | String c s' => String (lowerChar c) (toLowerCase s')
  end.

(** [s.startsWith(p)] *)
Fixpoint startsWith (s p : string) : bool :=
  match p, s with
  | EmptyString, _ => true
  | String a p', String b s' => Ascii.eqb a b && startsWith s' p'
  | String _ _, EmptyString => false
  end.

(** [s.includes(sub)]: [sub] starts at some position of [s]. *)
Fixpoint includes (s sub : string) : bool :=
  startsWith s sub
  || match s with
     | EmptyString => false
     | String _ s' => includes s' sub
     end.

(** [s.endsWith(suf)]: some suffix of [s] is [suf]. *)
Fixpoint endsWith (s suf : string) : bool :=
  String.eqb s suf
  || match s with
     | EmptyString => false
     | String _ s' => endsWith s' suf
     end.

(** [arr.includes(x)] on an array of strings. *)
Definition arrayIncludes (arr : list string) (x : string) : bool :=
  existsb (String.eqb x) arr.

(** The decimal text of an integer, as a template literal prints it. *)
Definition numberToString (z : Z) : string :=
  NilZero.string_of_int (Z.to_int z).

(** JavaScript truthiness of an optional string: [undefined] and the empty
    string are falsy. *)
Definition truthy (o : option string) : bool :=
  match o with
  | Some (String _ _) => true
  | _ => false
  end.

End JS.

(** ** Regular expressions, as far as the detector's literals use them

    Every pattern of the source carries the [i] flag and no other.  Without
    the [u] flag an ASCII letter of a pattern matches exactly its two ASCII
    cases.  [$] only occurs at the end of an alternative, so a pattern is a
    list of alternatives, each a body and a flag telling whether [$]
    closes it. *)

Module Regex.

Inductive re : Type :=
| Nul                   (* matches nothing *)
| Eps                   (* the empty word *)
| Lit (c : ascii)       (* a literal character, case-insensitive *)
| Dot                   (* [.]: any character but a line terminator *)
| Any                   (* any character at all *)
| Cat (r s : re)
| Alt (r s : re)
| Star (r : re).

Definition asciiFold (c : ascii) : ascii :=
  let n := nat_of_ascii c in
  if (65 <=? n)%nat && (n <=? 90)%nat then ascii_of_nat (n + 32) else c.

Definition isLineTerminator (c : ascii) : bool :=
  (nat_of_ascii c =? 10)%nat || (nat_of_ascii c =? 13)%nat.

Fixpoint nullable (r : re) : bool :=
  match r with
  | Nul | Lit _ | Dot | Any => false
  | Eps | Star _ => true
  | Cat r s => nullable r && nullable s
  | Alt r s => nullable r || nullable s
  end.

Definition cat (r s : re) : re :=
  match r, s with
  | Nul, _ | _, Nul => Nul
  | Eps, _ => s
  | _, Eps => r
  | _, _ => Cat r s
  end.

Definition alt (r s : re) : re :=
  match r, s with
  | Nul, _ => s
  | _, Nul => r
  | _, _ => Alt r s
  end.

(** Brzozowski derivative: what is left of [r] after reading [c]. *)
Fixpoint deriv (c : ascii) (r : re) : re :=
  match r with
  | Nul | Eps => Nul
  | Lit a => if Ascii.eqb (asciiFold a) (asciiFold c) then Eps else Nul
  | Dot => if isLineTerminator c then Nul else Eps
  | Any => Eps
  | Cat r s =>
      if nullable r then alt (cat (deriv c r) s) (deriv c s)
      else cat (deriv c r) s
  | Alt r s => alt (deriv c r) (deriv c s)
  | Star r => cat (deriv c r) (Star r)
  end.

(** The whole of [s] matches [r]. *)
Fixpoint fullMatch (r : re) (s : string) : bool :=
  match s with
  | EmptyString => nullable r
  | String c s' => fullMatch (deriv c r) s'
  end.

Fixpoint lit (s : string) : re :=
  match s with
  | EmptyString => Eps
  | String c s' => Cat (Lit c) (lit s')
  end.

Definition opt (r : re) : re := Alt r Eps.

Record alternative : Type := mkAlt { body : re; dollar : bool }.

Definition pattern : Type := list alternative.

(** An alternative without [$], and one closed by [$]. *)
Definition free (r : re) : alternative := mkAlt r false.
Definition atEnd (r : re) : alternative := mkAlt r true.

(** [/a|b|c/i] for plain words. *)
Definition words (ws : list string) : pattern :=
  map (fun w => free (lit w)) ws.

(** [pattern.test(s)]: some alternative matches somewhere in [s]; one that
    ends in [$] has to reach the end of [s]. *)
Definition testAlt (a : alternative) (s : string) : bool :=
  fullMatch
    (Cat (Star Any) (Cat (body a) (if dollar a then Eps else Star Any))) s.

Definition test (p : pattern) (s : string) : bool :=
  existsb (fun a => testAlt a s) p.

End Regex.

(** ** Threat detection service (src/services/threatDetector.ts) *)

Module ThreatDetector.

Import Regex.

Inductive ThreatLevel : Type := safe | suspicious | malicious.
Inductive PrivacyLevel : Type := public | sensitive | critical.

#[global] Instance ThreatLevel_eq_dec : EqDecision ThreatLevel.
Proof. solve_decision. Defined.
#[global] Instance PrivacyLevel_eq_dec : EqDecision PrivacyLevel.
Proof. solve_decision. Defined.

(** [interface FileItem].  [folder] is declared as the enum [FolderType];
    at run time it is the string the scanner's [getFolderType] produced,
    which may also be ['Pictures'] or ['Other']. *)
Record FileItem : Type := mkFileItem {
  id : string;
  name : string;
  size : Z;
  type : string;
  extension : string;
  lastModified : string;
  folder : string;
  path : string;
  category : option string;
  version : option string;
  lastOpened : option string;
  threatLevel : option ThreatLevel;
  threatType : option string;
  privacyLevel : option PrivacyLevel;
  tags : option (list string)
}.

(** [a; b; c] read one after the other. *)
Definition seqs (rs : list re) : re := foldr Cat Eps rs.

Definition SUSPICIOUS_PATTERNS : list pattern :=
  [ words ["crack"; "keygen"; "patch"; "activator"; "loader"];
    words ["hack"; "cheat"; "exploit"; "bypass"];
    [atEnd (lit ".exe.txt"); atEnd (lit ".pdf.exe"); atEnd (lit ".doc.exe")];
    [atEnd (lit ".scr"); atEnd (lit ".pif"); atEnd (lit ".com")];
    [atEnd (seqs [lit "temp"; Star Dot; lit ".exe"])];
    [free (seqs [lit "setup"; Star Dot; lit "crack"])] ].

Definition MALICIOUS_PATTERNS : list pattern :=
  [ words ["trojan"; "malware"; "virus"; "ransomware"; "worm"];
    words ["cryptolocker"; "wannacry"; "petya"; "locky"];
    words ["keylog"; "spyware"; "adware"; "rootkit"];
    words ["fakealert"; "rogue"; "scareware"] ].

Definition PRIVACY_CRITICAL_PATTERNS : list pattern :=
  [ words ["password"; "passwd"; "credential"; "secret"];
    words ["apikey"; "api_key"; "api-key"; "token"];
    [atEnd (lit ".kdbx"); atEnd (lit ".key"); free (lit "id_rsa");
     atEnd (lit ".pem")];
    [free (lit "bank"); free (lit "ssn");
     free (seqs [lit "social"; opt Dot; lit "security"]);
     free (lit "taxreturn")];
    [free (seqs [lit "credit"; opt Dot; lit "card"]); free (lit "cvv");
     free (seqs [lit "pin"; opt Dot; lit "code"])];
    [free (seqs [lit "private"; opt Dot; lit "key"]);
     free (seqs [lit "secret"; opt Dot; lit "key"])] ].

Definition PRIVACY_SENSITIVE_PATTERNS : list pattern :=
  [ words ["medical"; "health"; "insurance"; "hipaa"];
    words ["legal"; "contract"; "agreement"; "nda"];
    words ["payroll"; "salary"; "compensation"; "w2"; "1099"];
    words ["invoice"; "receipt"; "statement"];
    words ["personal"; "private"; "confidential"];
    words ["backup"; "export"; "dump"] ].

Definition SUSPICIOUS_LOCATIONS : list pattern :=
  [ [atEnd (seqs [lit "\AppData\Local\Temp\"; Star Dot; lit ".exe"])];
    [atEnd (seqs [lit "\Temp\"; Star Dot; lit ".exe"])];
    [atEnd (seqs [lit "\ProgramData\"; Star Dot; lit ".exe"])];
    [atEnd (seqs [lit "\Users\Public\"; Star Dot; lit ".exe"])] ].

(** [for (const pattern of ps) if (pattern.test(s)) return ...] *)
Definition anyTest (ps : list pattern) (s : string) : bool :=
  existsb (fun p => test p s) ps.

Definition analyzeThreatLevel (file : FileItem) : ThreatLevel :=
  let fullPath := path file in          (* path || '' *)
  if anyTest MALICIOUS_PATTERNS (name file) then malicious
  else if String.eqb (extension file) ".exe"
          && anyTest SUSPICIOUS_LOCATIONS fullPath then suspicious
  else if anyTest SUSPICIOUS_PATTERNS (name file) then suspicious
  else if JS.arrayIncludes
            [".exe"; ".msi"; ".bat"; ".cmd"; ".ps1"; ".vbs"; ".js"]
            (JS.toLowerCase (extension file))
          && JS.includes (JS.toLowerCase fullPath) "download" then suspicious
  else safe.

Definition analyzePrivacyLevel (file : FileItem) : PrivacyLevel :=
  let lname := JS.toLowerCase (name file) in
  if anyTest PRIVACY_CRITICAL_PATTERNS (name file) then critical
  else if JS.arrayIncludes
            [".pem"; ".key"; ".pfx"; ".p12"; ".kdbx"; ".keychain"]
            (JS.toLowerCase (extension file)) then critical
  else if anyTest PRIVACY_SENSITIVE_PATTERNS (name file) then sensitive
  else if JS.arrayIncludes [".pdf"; ".doc"; ".docx"; ".xls"; ".xlsx"]
            (JS.toLowerCase (extension file))
          && (JS.includes lname "tax" || JS.includes lname "financial"
              || JS.includes lname "statement") then sensitive
  else public.

(** [if (c) tags.push(t)] *)
Definition pushIf (c : bool) (t : string) (ts : list string) : list string :=
  if c then ts ++ [t] else ts.

Definition generateFileTags (file : FileItem) : list string :=
  let nm := name file in
  let ext := JS.toLowerCase (extension file) in
  let tags0 : list string := [] in
  let tags1 := pushIf (1024 * 1024 * 100 <? size file)%Z "Large File" tags0 in
  let tags2 := pushIf (1024 * 1024 * 1000 <? size file)%Z "Very Large" tags1 in
  let tags3 := pushIf (test (words ["password"; "credential"]) nm)
                 "Contains Credentials" tags2 in
  let tags4 := pushIf (test (words ["bank"; "financial"]) nm)
                 "Financial Data" tags3 in
  let tags5 := pushIf (test [free (lit "screenshot");
                             free (seqs [lit "screen"; opt Dot; lit "cap"])] nm)
                 "Screenshot" tags4 in
  let tags6 := pushIf (test [free (lit "backup"); atEnd (lit "bak")] nm)
                 "Backup File" tags5 in
  let tags7 := pushIf (JS.arrayIncludes [".exe"; ".msi"] ext)
                 "Executable" tags6 in
  let tags8 := pushIf (JS.arrayIncludes [".zip"; ".rar"; ".7z"; ".tar"; ".gz"] ext)
                 "Archive" tags7 in
  let tags9 := pushIf (test (words ["crack"; "keygen"; "patch"]) nm)
                 "Potential Piracy Tool" tags8 in
  pushIf (test [atEnd (seqs [lit ".exe."; Star Dot])] nm)
    "Double Extension" tags9.

Definition getThreatType (file : FileItem) : option string :=
  let fullPath := path file in
  if anyTest MALICIOUS_PATTERNS (name file)
  then Some "Malware:Generic/Suspicious"
  else if test (words ["crack"; "keygen"]) (name file)
  then Some "PUP:Win32/Keygen"
  else if test (words [".exe."]) (name file)
  then Some "Trojan:Generic/DoubleExt"
  else if JS.includes (JS.toLowerCase fullPath) "temp"
          && JS.endsWith (name file) ".exe"
  then Some "Suspicious:Temp/Executable"
  else None.

(** [{ ...file, threatLevel: ..., privacyLevel: ..., threatType: ...,
      tags: ... }] *)
Definition analyzeFile (file : FileItem) : FileItem :=
  {| id := id file;
     name := name file;
     size := size file;
     type := type file;
     extension := extension file;
     lastModified := lastModified file;
     folder := folder file;
     path := path file;
     category := category file;
     version := version file;
     lastOpened := lastOpened file;
     threatLevel := Some (analyzeThreatLevel file);
     threatType := getThreatType file;
     privacyLevel := Some (analyzePrivacyLevel file);
     tags := Some (generateFileTags file) |}.

Definition analyzeFiles (files : list FileItem) : list FileItem :=
  map analyzeFile files.

Inductive Status : Type := alert | warning | protected.

Record SecuritySummary : Type := mkSummary {
  totalFiles : Z;
  maliciousCount : Z;
  suspiciousCount : Z;
  criticalPrivacyCount : Z;
  sensitivePrivacyCount : Z;
  integrityScore : Z;
  status : Status
}.

(** [files.filter(pred).length] *)
Definition filterLength (pred : FileItem -> bool) (files : list FileItem) : Z :=
  Z.of_nat (length (List.filter pred files)).

Definition getSecuritySummary (files : list FileItem) : SecuritySummary :=
  let malicious := filterLength
        (fun f => bool_decide (threatLevel f = Some malicious)) files in
  let suspicious := filterLength
        (fun f => bool_decide (threatLevel f = Some suspicious)) files in
  let critical := filterLength
        (fun f => bool_decide (privacyLevel f = Some critical)) files in
  let sensitive := filterLength
        (fun f => bool_decide (privacyLevel f = Some sensitive)) files in
  let score := 100 in
  let score := score - malicious * 25 in
  let score := score - suspicious * 5 in
  let score := score - critical * 10 in
  let score := score - sensitive * 2 in
  {| totalFiles := Z.of_nat (length files);
     maliciousCount := malicious;
     suspiciousCount := suspicious;
     criticalPrivacyCount := critical;
     sensitivePrivacyCount := sensitive;
     integrityScore := Z.max 0 (Z.min 100 score);
     status := if (0 <? malicious)%Z then alert
               else if (0 <? suspicious)%Z then warning
               else protected |}.

End ThreatDetector.

(** ** node:path, POSIX flavour *)

Module Path.

Definition isSlash (c : ascii) : bool := Ascii.eqb c "/".

Fixpoint hasSlash (s : string) : bool :=
  match s with
  | EmptyString => false
  | String c s' => isSlash c || hasSlash s'
  end.

Fixpoint stripTrailingSlashes (s : string) : string :=
  match s with
  | EmptyString => EmptyString
  | String c s' =>
      match stripTrailingSlashes s' with
      | EmptyString => if isSlash c then EmptyString else String c EmptyString
      | r => String c r
      end
  end.

Fixpoint afterLastSlash (s : string) : string :=
  match s with
  | EmptyString => EmptyString
  | String c s' =>
      if isSlash c || hasSlash s' then afterLastSlash s' else String c s'
  end.

(** [path.basename(p)]: trailing separators are ignored, the last segment
    is returned. *)
Definition basename (p : string) : string :=
  afterLastSlash (stripTrailingSlashes p).

(** The suffix of [s] that starts at its last dot. *)
Fixpoint fromLastDot (s : string) : option string :=
  match s with
  | EmptyString => None
  | String c s' =>
      match fromLastDot s' with
      | Some e => Some e
      | None => if Ascii.eqb c "." then Some s else None
      end
  end.

(** [path.extname(p)]: from the last dot of the base name on; empty when
    there is no dot, when the only dot opens the name, and for [..]. *)
Definition extname (p : string) : string :=
  match basename p with
  | EmptyString => EmptyString
  | String c b' =>
      if String.eqb (String c b') ".." then EmptyString
      else default EmptyString (fromLastDot b')
  end.

(** [path.join(dir, segment)] for a normalised [dir] and a single segment
    other than [.] and [..], which is all the handlers pass: the two joined
    by one separator. *)
Definition join (dir segment : string) : string :=
  dir ++ "/" ++ segment.

End Path.

(** ** JSON values *)

Module Json.

#[local] Set Warnings "-register-all".

Inductive t : Type :=
| JNull
| JBool (b : bool)
| JNumber (x : float)
| JString (s : string)
| JArray (items : list t)
| JObject (fields : list (string * t)).

Fixpoint assoc (k : string) (fields : list (string * t)) : option t :=
  match fields with
  | [] => None
  | (k', v) :: rest => if String.eqb k k' then Some v else assoc k rest
  end.

(** [obj[k] = v] on the own properties of an object: an existing key keeps
    its place, a new one goes last. *)
Fixpoint setField (k : string) (v : t) (fields : list (string * t))
  : list (string * t) :=
  match fields with
  | [] => [(k, v)]
  | (k', v') :: rest =>
      if String.eqb k k' then (k, v) :: rest
      else (k', v') :: setField k v rest
  end.

Definition indexed (items : list t) : list (string * t) :=
  imap (fun i v => (JS.numberToString (Z.of_nat i), v)) items.

Fixpoint chars (s : string) : list t :=
  match s with
  | EmptyString => []
  | String c s' => JString (String c EmptyString) :: chars s'
  end.

(** The own enumerable properties that [{...v}] copies. *)
Definition spread (v : t) : list (string * t) :=
  match v with
  | JObject fields => fields
  | JArray items => indexed items
  | JString s => indexed (chars s)
  | JNull | JBool _ | JNumber _ => []
  end.

End Json.

(** ** The main process (src/electron/main.cjs)

    The disk maps a path to what is there: a regular file with its bytes,
    or a directory.  Every call of a primitive of [fs] or [crypto] is
    recorded, in order, in the log of the world it runs in; a call that
    throws is recorded too and leaves the disk as it was.  Paths are
    absolute and normalised; the root is always there and is not on the
    map.  The model has no permission, device or quota errors: a primitive
    throws only for the reasons written out below.  The clock stands still
    while a handler runs. *)

Module Main.

Inductive Node : Type :=
| File (content : list byte)
| Directory.

Inductive Event : Type :=
| EvExists (p : string)
| EvMkdir (p : string)
| EvHash (p : string)
| EvRename (from to : string)
| EvWriteFile (p : string) (data : list byte)
| EvReadFile (p : string)
| EvUnlink (p : string)
| EvStat (p : string)
| EvReaddir (p : string)
| EvRandomBytes (n : Z).

Inductive Error : Type :=
| ENOENT (p : string)          (* no such file or directory *)
| EISDIR (p : string)          (* illegal operation on a directory *)
| ENOTDIR (p : string)
| EEXIST (p : string)
| EINVAL (p : string)          (* a directory moved into itself *)
| ENOTEMPTY (p : string)
| RangeError                   (* [crypto.randomBytes] of too many bytes *)
| SyntaxError                  (* [JSON.parse] *)
| TypeError                    (* a property of [null], a path that is no string *)
| Message (m : string).

Record World : Type := mkWorld {
  disk : gmap string Node;
  log : list Event;
  clock : Z;                    (* what [Date.now()] reads *)
  rngPos : nat                  (* how much of the random source is used up *)
}.

Inductive Result (A : Type) : Type :=
| Ok (a : A)
| Throw (e : Error).
Arguments Ok {A} a.
Arguments Throw {A} e.

(** A computation of the main process: it may throw, and it changes the
    world. *)
Definition M (A : Type) : Type := World → Result A * World.

#[global] Instance M_ret : MRet M := λ A a w, (Ok a, w).
#[global] Instance M_bind : MBind M := λ A B k m w,
  match m w with
  | (Ok a, w') => k a w'
  | (Throw e, w') => (Throw e, w')
  end.

Definition throw {A} (e : Error) : M A := λ w, (Throw e, w).

(** The world after one more recorded call, and the world with another
    disk. *)
Definition logged (w : World) (e : Event) : World :=
  mkWorld (disk w) (log w ++ [e]) (clock w) (rngPos w).

Definition setDisk (d : gmap string Node) (w : World) : World :=
  mkWorld d (log w) (clock w) (rngPos w).

Definition record (e : Event) : M unit := λ w, (Ok (), logged w e).

Definition getDisk : M (gmap string Node) := λ w, (Ok (disk w), w).

Definition putDisk (d : gmap string Node) : M unit := λ w, (Ok (), setDisk d w).

(** [Date.now()] *)
Definition Date_now : M Z := λ w, (Ok (clock w), w).

Definition isDir (d : gmap string Node) (p : string) : bool :=
  match d !! p with
  | Some Directory => true
  | _ => false
  end.

(** The error of a primitive that needs a regular file at [p] and finds
    none. *)
Definition noFile (d : gmap string Node) (p : string) : Error :=
  if isDir d p then EISDIR p else ENOENT p.

(** [fs.existsSync(p)] never throws. *)
Definition existsSync (p : string) : M bool :=
  _ ← record (EvExists p);
  d ← getDisk;
  mret (bool_decide (is_Some (d !! p))).

Definition isFile (d : gmap string Node) (p : string) : bool :=
  match d !! p with
  | Some (File _) => true
  | _ => false
  end.

(** The directories above the path [pre ++ s], from the top down, those
    that end within [s]. *)
Fixpoint ancestorsFrom (pre s : string) : list string :=
  match s with
  | EmptyString => []
  | String c s' =>
      ((if Path.isSlash c && negb (String.eqb pre "") then [pre] else [])
       ++ ancestorsFrom (pre ++ String c "") s')%list
  end.

(** The directories above [p], from the top down, the root apart:
    [/home] and [/home/ana] for [/home/ana/notes]. *)
Definition ancestors (p : string) : list string := ancestorsFrom "" p.

(** The directory that holds [p]; none for a path right under the root. *)
Definition parentOf (p : string) : option string := last (ancestors p).

(** The directories above [p] and [p] itself. *)
Definition lineage (p : string) : list string := (ancestors p ++ [p])%list.

(** The disk with a directory at every path of [qs]. *)
Definition withDirs (qs : list string) (d : gmap string Node)
  : gmap string Node :=
  foldr (λ q acc, <[q := Directory]> acc) d qs.

(** Why the entry [p] cannot be reached through its directory: the
    directory is missing or is a regular file. *)
Definition parentError (d : gmap string Node) (p : string) : option Error :=
  match parentOf p with
  | None => None
  | Some q =>
      match d !! q with
      | Some Directory => None
      | Some (File _) => Some (ENOTDIR p)
      | None => Some (ENOENT p)
      end
  end.

(** [fs.mkdirSync(p, { recursive: true })]: nothing to do for a directory
    that is there; a regular file at [p] or above it makes it throw;
    otherwise [p] and every directory above it that is missing are
    created. *)
Definition mkdirSync (p : string) : M unit :=
  _ ← record (EvMkdir p);
  d ← getDisk;
  match d !! p with
  | Some (File _) => throw (EEXIST p)
  | Some Directory => mret ()
  | None =>
      if existsb (isFile d) (ancestors p) then throw (ENOTDIR p)
      else putDisk (withDirs (lineage p) d)
  end.

(** What is left of [s] after the prefix [pre]. *)
Fixpoint dropPrefix (pre s : string) : option string :=
  match pre, s with
  | EmptyString, _ => Some s
  | String a pre', String b s' =>
      if Ascii.eqb a b then dropPrefix pre' s' else None
  | String _ _, EmptyString => None
  end.

(** [p] lies below the directory [dir]; [p] is [dir] or lies below it. *)
Definition under (dir p : string) : bool := JS.startsWith p (dir ++ "/").

Definition within (dir p : string) : bool := String.eqb p dir || under dir p.

(** The entries of the directory [from] and of everything below it, each
    under the path it has when [from] has become [to]. *)
Definition moved (from to : string) (d : gmap string Node)
  : list (string * Node) :=
  omap (λ entry : string * Node,
          if within from entry.1
          then (λ rest, (to ++ rest, entry.2)) <$> dropPrefix from entry.1
          else None)
       (map_to_list d).

(** The disk after the directory [from] has become [to]. *)
Definition moveTree (from to : string) (d : gmap string Node)
  : gmap string Node :=
  list_to_map (moved from to d)
  ∪ filter (λ entry : string * Node, within from entry.1 = false) d.

(** [fs.renameSync(from, to)].  Both paths are reached through their
    directories.  A regular file replaces a regular file at [to] and
    cannot replace a directory; a directory moves with everything below
    it, it replaces an empty directory at [to], cannot replace a regular
    file or a directory that is not empty, and cannot move below
    itself. *)
Definition renameSync (from to : string) : M unit :=
  _ ← record (EvRename from to);
  d ← getDisk;
  match d !! from with
  | None => throw (ENOENT from)
  | Some node =>
      match parentError d from, parentError d to with
      | Some e, _ => throw e
      | None, Some e => throw e
      | None, None =>
          match node with
          | File content =>
              if isDir d to then throw (EISDIR to)
              else putDisk (<[to := File content]> (delete from d))
          | Directory =>
              if String.eqb from to then mret ()
              else if isFile d to then throw (ENOTDIR to)
              else if under from to then throw (EINVAL to)
              else if existsb (under to) ((map_to_list d).*1)
                   then throw (ENOTEMPTY to)
                   else putDisk (moveTree from to d)
          end
      end
  end.

(** [fs.writeFileSync(p, data)] replaces the regular file at [p]; where
    nothing is, it creates the file, for which the directory has to be
    there. *)
Definition writeFileSync (p : string) (data : list byte) : M unit :=
  _ ← record (EvWriteFile p data);
  d ← getDisk;
  match d !! p with
  | Some Directory => throw (EISDIR p)
  | Some (File _) => putDisk (<[p := File data]> d)
  | None =>
      match parentError d p with
      | Some e => throw e
      | None => putDisk (<[p := File data]> d)
      end
  end.

(** [fs.readFileSync(p)] *)
Definition readFileSync (p : string) : M (list byte) :=
  _ ← record (EvReadFile p);
  d ← getDisk;
  match d !! p with
  | Some (File content) => mret content
  | _ => throw (noFile d p)
  end.

(** [fs.unlinkSync(p)] *)
Definition unlinkSync (p : string) : M unit :=
  _ ← record (EvUnlink p);
  d ← getDisk;
  match d !! p with
  | Some (File _) => putDisk (delete p d)
  | _ => throw (noFile d p)
  end.

(** The name of the path [k] as an entry of the directory [dir]. *)
Definition entryName (dir k : string) : option string :=
  match dropPrefix (dir ++ "/") k with
  | Some (String c n) =>
      if Path.hasSlash (String c n) then None else Some (String c n)
  | _ => None
  end.

(** [fs.readdirSync(dir)]: the names of the files and directories right
    under [dir]. *)
Definition readdirSync (dir : string) : M (list string) :=
  _ ← record (EvReaddir dir);
  d ← getDisk;
  match d !! dir with
  | Some Directory => mret (omap (entryName dir) ((map_to_list d).*1))
  | Some (File _) => throw (ENOTDIR dir)
  | None => throw (ENOENT dir)
  end.

(** [fs.statSync(p).size]; [dirSize] is what the platform reports for a
    directory. *)
Definition statSize (dirSize : Z) (p : string) : M Z :=
  _ ← record (EvStat p);
  d ← getDisk;
  match d !! p with
  | Some (File content) => mret (Z.of_nat (length content))
  | Some Directory => mret dirSize
  | None => throw (ENOENT p)
  end.

(** The next [n] bytes of the random source. *)
Definition draw (randomSource : nat → byte) (n : nat) : M (list byte) := λ w,
  (Ok (map randomSource (seq (rngPos w) n)),
   mkWorld (disk w) (log w) (clock w) (rngPos w + n)).

(** [crypto.randomBytes(size)]; [randomSource] gives the bytes it hands
    out, in the order it does.  Node refuses a size above [2**31 - 1]. *)
Definition randomBytes (randomSource : nat → byte) (size : Z)
  : M (list byte) :=
  _ ← record (EvRandomBytes size);
  if (size <? 0)%Z || (2 ^ 31 - 1 <? size)%Z then throw RangeError
  else draw randomSource (Z.to_nat size).

(** [getFileHash(filePath)]: the stream reads the file to its end and the
    promise resolves to the digest; a path that cannot be opened as a file
    rejects it.  [sha256] is SHA-256 in hexadecimal. *)
Definition getFileHash (sha256 : list byte → string) (filePath : string)
  : M string :=
  _ ← record (EvHash filePath);
  d ← getDisk;
  match d !! filePath with
  | Some (File content) => mret (sha256 content)
  | _ => throw (noFile d filePath)
  end.

Inductive Response (A : Type) : Type :=
| Success (a : A)             (* [{ success: true, ... }] *)
| Failure (error : Error).    (* [{ success: false, error: err.message }] *)
Arguments Success {A} a.
Arguments Failure {A} error.

Section Handlers.

(** [app.getPath('userData')] *)
Variable userData : string.
Variable sha256 : list byte → string.
Variable randomSource : nat → byte.
Variable dirSize : Z.
(** [new Date(t).toISOString()] *)
Variable toISOString : Z → string.
(** [JSON.stringify(v, null, 2)] written out as UTF-8, and [JSON.parse] of
    a file read as UTF-8; [None] is a thrown [SyntaxError]. *)
Variable JSON_stringify : Json.t → list byte.
Variable JSON_parse : list byte → option Json.t.

(** The two managed holding areas.  [fs:quarantine], [fs:restore] and
    [fs:list-quarantine] are repeated in the source as [fs:vault],
    [fs:unvault] and [fs:list-vault] with these names changed and nothing
    else. *)
Inductive Kind : Type := Quarantine | Vault.

Definition holdingDirName (k : Kind) : string :=
  match k with Quarantine => "Quarantine" | Vault => "Vault" end.
Definition storedSuffix (k : Kind) : string :=
  match k with Quarantine => ".quarantined" | Vault => ".vault" end.
Definition stampKey (k : Kind) : string :=
  match k with Quarantine => "quarantinedAt" | Vault => "vaultedAt" end.
Definition storedPathKey (k : Kind) : string :=
  match k with Quarantine => "quarantinedPath" | Vault => "vaultedPath" end.

(** [getQuarantineDir()] and [getVaultDir()] *)
Definition getHoldingDir (k : Kind) : M string :=
  let holdingDir := Path.join userData (holdingDirName k) in
  there ← existsSync holdingDir;
  _ ← (if there : bool then mret () else mkdirSync holdingDir);
  mret holdingDir.

Definition getQuarantineDir : M string := getHoldingDir Quarantine.
Definition getVaultDir : M string := getHoldingDir Vault.

(** The metadata object as [JSON.stringify] sees it: a [reason] that is
    [undefined] is left out. *)
Definition metadataObject (k : Kind) (filePath fileName stamp : string)
    (reason : option string) (digest : string) : Json.t :=
  Json.JObject
    ([("originalPath", Json.JString filePath);
      ("originalName", Json.JString fileName);
      (stampKey k, Json.JString stamp)]
     ++ match reason with
        | Some r => [("reason", Json.JString r)]
        | None => []
        end
     ++ [("sha256", Json.JString digest)])%list.

(** The body of the [try] block of [fs:quarantine] and [fs:vault]. *)
Definition place (k : Kind) (filePath : string) (reason : option string)
  : M string :=
  holdingDir ← getHoldingDir k;
  let fileName := Path.basename filePath in
  timestamp ← Date_now;
  let storedName := JS.numberToString timestamp ++ "_" ++ fileName ++ storedSuffix k in
  let storedPath := Path.join holdingDir storedName in
  stampTime ← Date_now;
  digest ← getFileHash sha256 filePath;
  let metadata :=
    metadataObject k filePath fileName (toISOString stampTime) reason digest in
  _ ← renameSync filePath storedPath;
  let metadataPath := storedPath ++ ".meta.json" in
  _ ← writeFileSync metadataPath (JSON_stringify metadata);
  mret storedPath.

(** [try { ... } catch (err) { return { success: false, ... } }] *)
Definition tryCatch {A} (m : M A) (w : World) : Response A * World :=
  match m w with
  | (Ok a, w') => (Success a, w')
  | (Throw e, w') => (Failure e, w')
  end.

Definition fs_quarantine (filePath : string) (reason : option string)
  : World → Response string * World :=
  tryCatch (place Quarantine filePath reason).

Definition fs_vault (filePath : string) (reason : option string)
  : World → Response string * World :=
  tryCatch (place Vault filePath reason).

(** [JSON.parse(text)] *)
Definition parseJSON (text : list byte) : M Json.t :=
  match JSON_parse text with
  | Some v => mret v
  | None => throw SyntaxError
  end.

(** [metadata.originalPath] handed to [fs.renameSync]: reading a property
    of [null] throws, and so does a path that is not a string. *)
Definition originalPathOf (metadata : Json.t) : M string :=
  match metadata with
  | Json.JObject fields =>
      match Json.assoc "originalPath" fields with
      | Some (Json.JString p) => mret p
      | _ => throw TypeError
      end
  | _ => throw TypeError
  end.

(** The body of the [try] block of [fs:restore] and [fs:unvault]. *)
Definition restoreFrom (storedPath : string) : M string :=
  let metadataPath := storedPath ++ ".meta.json" in
  text ← readFileSync metadataPath;
  metadata ← parseJSON text;
  originalPath ← originalPathOf metadata;
  _ ← renameSync storedPath originalPath;
  _ ← unlinkSync metadataPath;
  mret originalPath.

Definition fs_restore (quarantinedPath : string)
  : World → Response string * World :=
  tryCatch (restoreFrom quarantinedPath).

Definition fs_unvault (vaultedPath : string)
  : World → Response string * World :=
  tryCatch (restoreFrom vaultedPath).

(** [for (const x of xs) body] *)
Fixpoint forEach {A} (xs : list A) (body : A → M unit) : M unit :=
  match xs with
  | [] => mret ()
  | x :: rest => _ ← body x; forEach rest body
  end.

(** The body of the [try] block of [fs:shred]: the loop runs for [pass]
    0, 1 and 2. *)
Definition shred (filePath : string) : M unit :=
  size ← statSize dirSize filePath;
  _ ← forEach [0; 1; 2] (λ pass : Z,
        randomData ← randomBytes randomSource size;
        writeFileSync filePath randomData);
  unlinkSync filePath.

Definition fs_shred (filePath : string) : World → Response unit * World :=
  tryCatch (shred filePath).

(** One round of the loop of [fs:list-quarantine] and [fs:list-vault]. *)
Definition listStep (k : Kind) (holdingDir : string)
    (listed : list (list (string * Json.t))) (file : string)
  : M (list (list (string * Json.t))) :=
  if JS.endsWith file ".meta.json" then mret listed
  else if negb (JS.endsWith file (storedSuffix k)) then mret listed
  else
    let metadataPath := Path.join holdingDir (file ++ ".meta.json") in
    there ← existsSync metadataPath;
    if there : bool then
      text ← readFileSync metadataPath;
      metadata ← parseJSON text;
      mret (listed ++ [Json.setField (storedPathKey k)
                         (Json.JString (Path.join holdingDir file))
                         (Json.spread metadata)])%list
    else mret listed.

Fixpoint foldM {A B} (f : B → A → M B) (acc : B) (xs : list A) : M B :=
  match xs with
  | [] => mret acc
  | x :: rest => acc' ← f acc x; foldM f acc' rest
  end.

Definition listHolding (k : Kind) : M (list (list (string * Json.t))) :=
  holdingDir ← getHoldingDir k;
  names ← readdirSync holdingDir;
  foldM (listStep k holdingDir) [] names.

(** [try { ... } catch (err) { return []; }] *)
Definition orEmpty {A} (m : M (list A)) (w : World) : list A * World :=
  match m w with
  | (Ok l, w') => (l, w')
  | (Throw _, w') => ([], w')
  end.

Definition fs_list_quarantine : World → list (list (string * Json.t)) * World :=
  orEmpty (listHolding Quarantine).

Definition fs_list_vault : World → list (list (string * Json.t)) * World :=
  orEmpty (listHolding Vault).

End Handlers.

(** *** Deep scan *)

(** [buffer] starts with [needle]. *)
Fixpoint startsWithBytes (needle buffer : list byte) : bool :=
  match needle, buffer with
  | [], _ => true
  | a :: needle', b :: buffer' => Byte.eqb a b && startsWithBytes needle' buffer'
  | _ :: _, [] => false
  end.

(** [needle] occurs in [buffer]. *)
Fixpoint includesBytes (buffer needle : list byte) : bool :=
  startsWithBytes needle buffer
  || match buffer with
     | [] => false
     | _ :: buffer' => includesBytes buffer' needle
     end.

(** [buffer.toString('utf8').includes(s)] for an ASCII string [s].  A byte
    below 128 always decodes to the character of that code and every other
    byte to a character above 127, so [s] occurs in the decoded text
    exactly where its bytes occur in the buffer. *)
Definition textIncludes (buffer : list byte) (s : string) : bool :=
  includesBytes buffer (list_byte_of_string s).

(** Walk through [buffer] from position [i]; [found] is the last position
    seen so far at which [needle] starts. *)
Fixpoint lastIndexFrom (needle buffer : list byte) (i found : Z) : Z :=
  let found' := if startsWithBytes needle buffer then i else found in
  match buffer with
  | [] => found'
  | _ :: buffer' => lastIndexFrom needle buffer' (i + 1) found'
  end.

(** [buffer.lastIndexOf(needle)], [-1] when [needle] does not occur. *)
Definition lastIndexOf (buffer needle : list byte) : Z :=
  lastIndexFrom needle buffer 0 (-1).

(** [counts[buffer[i]]++] for every [i], from [new Array(256).fill(0)]. *)
Definition byteCounts (buffer : list byte) : list Z :=
  foldl (λ counts b, alter Z.succ (Byte.to_nat b) counts)
        (replicate 256 0) buffer.

Definition numberOfZ (z : Z) : float :=
  PrimFloat.of_uint63 (Uint63.of_Z z).

Definition dquote : string := String (ascii_of_nat 34) EmptyString.

Definition suspiciousStrings : list string :=
  ["powershell"; "cmd.exe"; "http://"; "https://"; "/tmp/"; "eval("; "base64"].

Section DeepScan.

(** [Math.log2] *)
Variable Math_log2 : float → float.
(** [x.toFixed(2)] *)
Variable toFixed2 : float → string.
Variable dirSize : Z.
Variable toISOString : Z → string.

(** The entropy loop.  Next to the running sum it keeps the divisor of
    every division it carries out. *)
Definition entropyStep (len : Z) (acc : float * list Z) (count : Z)
  : float * list Z :=
  if (0 <? count)%Z then
    let p := PrimFloat.div (numberOfZ count) (numberOfZ len) in
    (PrimFloat.sub (fst acc) (PrimFloat.mul p (Math_log2 p)),
     (snd acc ++ [len])%list)
  else acc.

Definition entropyLoop (buffer : list byte) : float * list Z :=
  foldl (entropyStep (Z.of_nat (length buffer))) (0%float, []) (byteCounts buffer).

Definition entropyOf (buffer : list byte) : float := fst (entropyLoop buffer).

(** The state of the scan: [findings] and [threatLevel]. *)
Definition Verdict : Type := (list string * ThreatDetector.ThreatLevel)%type.

Definition flag (finding : string) (level : ThreatDetector.ThreatLevel)
    (v : Verdict) : Verdict :=
  ((fst v ++ [finding])%list, level).

Definition checkEntropy (entropy : float) (v : Verdict) : Verdict :=
  if PrimFloat.ltb 7.5%float entropy
  then flag "Abnormal High Entropy: Potential encrypted payload detected."
         ThreatDetector.suspicious v
  else v.

Definition checkJpeg (ext : string) (buffer : list byte) (v : Verdict) : Verdict :=
  if String.eqb ext ".jpg" || String.eqb ext ".jpeg" then
    let eofIndex := lastIndexOf buffer [xff; xd9] in
    let len := Z.of_nat (length buffer) in
    if negb (eofIndex =? -1)%Z && (eofIndex <? len - 2)%Z
    then flag ("Steganography Marker: " ++ JS.numberToString (len - eofIndex - 2)
               ++ " bytes of hidden data found after image end.")
           ThreatDetector.malicious v
    else v
  else v.

Definition checkPng (ext : string) (buffer : list byte) (v : Verdict) : Verdict :=
  if String.eqb ext ".png" then
    let eofIndex := lastIndexOf buffer (list_byte_of_string "IEND") in
    let len := Z.of_nat (length buffer) in
    if negb (eofIndex =? -1)%Z && (eofIndex <? len - 8)%Z
    then flag "Steganography Marker: Data detected after IEND chunk."
           ThreatDetector.malicious v
    else v
  else v.

Definition checkStrings (buffer : list byte) (v : Verdict) : Verdict :=
  foldl (λ v s,
           if textIncludes buffer s
           then flag ("Malicious Marker: Suspicious string " ++ dquote ++ s
                      ++ dquote ++ " found in binary.")
                  ThreatDetector.malicious v
           else v)
        v suspiciousStrings.

(** Everything [fs:deep-scan] works out from the extension and the bytes. *)
Definition analyse (ext : string) (buffer : list byte) : Verdict :=
  checkStrings buffer
    (checkPng ext buffer
       (checkJpeg ext buffer
          (checkEntropy (entropyOf buffer) ([], ThreatDetector.safe)))).

Record ScanReport : Type := mkScanReport {
  findings : list string;
  threatLevel : ThreatDetector.ThreatLevel;
  entropy : string;
  timestamp : string
}.

(** The body of the [try] block of [fs:deep-scan]; it returns early with
    its own failure objects. *)
Definition deepScan (filePath : string) : M (Response ScanReport) :=
  there ← existsSync filePath;
  if negb there then mret (Failure (Message "File not found"))
  else
    size ← statSize dirSize filePath;
    if (10 * 1024 * 1024 <? size)%Z
    then mret (Failure (Message "File too large for deep scan"))
    else
      buffer ← readFileSync filePath;
      let ext := JS.toLowerCase (Path.extname filePath) in
      let verdict := analyse ext buffer in
      now ← Date_now;
      mret (Success {| findings := fst verdict;
                       threatLevel := snd verdict;
                       entropy := toFixed2 (entropyOf buffer);
                       timestamp := toISOString now |}).

Definition fs_deep_scan (filePath : string)
  : World → Response ScanReport * World := λ w,
  match deepScan filePath w with
  | (Ok r, w') => (r, w')
  | (Throw e, w') => (Failure e, w')
  end.

End DeepScan.

End Main.

(** ** The proactive sentry and the notification handler (src/App.tsx) *)

Module Sentry.

(** [enum FolderType] *)
Module FolderType.
Definition DOWNLOADS : string := "Downloads".
Definition SCREENSHOTS : string := "Screenshots".
Definition DOCUMENTS : string := "Documents".
Definition DESKTOP : string := "Desktop".
Definition RECYCLE_BIN : string := "Recycle Bin".
Definition APPLICATIONS : string := "Applications".
Definition QUARANTINE : string := "Quarantine".
Definition VAULT : string := "Vault".
End FolderType.

(** [interface Notification]; [type] is one of ['SCREENSHOTS'],
    ['STORAGE'] and ['SECURITY']. *)
Record Notification : Type := mkNotification {
  id : string;
  title : string;
  message : string;
  type : string;
  actionPrompt : option string
}.

(** The fields of [interface AppSettings] the sentry reads. *)
Record AppSettings : Type := mkAppSettings {
  enableNativeNotifications : bool;
  enableProactiveSentry : bool;
  sentryScanInterval : Z
}.

(** The React state the sentry and the handler share: the notifications on
    show, the snooze map, the folder on preview and the prompts handed to
    [handleSendMessage]. *)
Record AppState : Type := mkAppState {
  notifications : list Notification;
  snoozeMap : gmap string Z;
  activePreview : string;
  sentMessages : list string
}.

(** [30 * 60 * 1000], the 30 minute snooze *)
Definition SNOOZE_DURATION : Z := 30 * 60 * 1000.

(** [(snoozeMapRef.current[type] || 0) + SNOOZE_DURATION > now] *)
Definition snoozed (m : gmap string Z) (type : string) (now : Z) : bool :=
  (now <? default 0 (m !! type) + SNOOZE_DURATION)%Z.

(** [arr.slice(-3)] *)
Definition lastThree {A} (l : list A) : list A := drop (length l - 3) l.

Definition screenshotNote (count now : Z) : Notification :=
  {| id := "ss-" ++ JS.numberToString now;
     title := "Screenshot Accumulation";
     message := "I noticed you have " ++ JS.numberToString count
       ++ " screenshots. Would you like me to identify those you might want to discard?";
     type := "SCREENSHOTS";
     actionPrompt := Some ("Barricade, I have too many screenshots ("
       ++ JS.numberToString count
       ++ "). Help me audit and delete the ones I don't need.") |}.

Definition downloadNote (now : Z) : Notification :=
  {| id := "dl-" ++ JS.numberToString now;
     title := "Clutter Detected";
     message := "Your Downloads sector is becoming unorganized. Shall I perform a Smart Organize protocol?";
     type := "STORAGE";
     actionPrompt := Some "Barricade, my Downloads are a mess. Please perform a Smart Organize and tidy them up for me." |}.

(** What one run of the interval callback does: the notifications it made,
    the calls of [showNativeNotification], and the state it leaves. *)
Record Tick : Type := mkTick {
  newNotes : list Notification;
  nativeCalls : list (string * string * string);
  after : AppState
}.

(** The callback of [sentryInterval]; [currentFiles] is what
    [scanUserDirectories()] returned and [now] what [Date.now()] read. *)
Definition sentryTick (settings : AppSettings)
    (currentFiles : list ThreatDetector.FileItem) (now : Z) (st : AppState)
  : Tick :=
  if negb (enableProactiveSentry settings) then mkTick [] [] st
  else
    let screenshots := List.filter
          (λ f, String.eqb (ThreatDetector.folder f) FolderType.SCREENSHOTS)
          currentFiles in
    let unorganizedDownloads := List.filter
          (λ f, String.eqb (ThreatDetector.folder f) FolderType.DOWNLOADS)
          currentFiles in
    let notes0 : list Notification := [] in
    let ssSnoozed := snoozed (snoozeMap st) "SCREENSHOTS" now in
    let notes1 :=
      if (15 <? Z.of_nat (length screenshots))%Z && negb ssSnoozed
      then (notes0 ++ [screenshotNote (Z.of_nat (length screenshots)) now])%list
      else notes0 in
    let dlSnoozed := snoozed (snoozeMap st) "STORAGE" now in
    let notes2 :=
      if (10 <? Z.of_nat (length unorganizedDownloads))%Z && negb dlSnoozed
      then (notes1 ++ [downloadNote now])%list
      else notes1 in
    if (0 <? Z.of_nat (length notes2))%Z then
      mkTick notes2
        (if enableNativeNotifications settings
         then map (λ note, (title note, message note, id note)) notes2
         else [])
        (mkAppState (lastThree (notifications st ++ notes2)%list)
           (snoozeMap st) (activePreview st) (sentMessages st))
    else mkTick notes2 [] st.

(** [handleNotificationAction(id, snooze)]; [now] is what [Date.now()]
    reads. *)
Definition handleNotificationAction (noteId : string) (snooze : bool)
    (now : Z) (st : AppState) : AppState :=
  let note := List.find (λ n, String.eqb (id n) noteId) (notifications st) in
  let st1 :=
    match note with
    | Some note =>
        if snooze then
          mkAppState (notifications st) (<[type note := now]> (snoozeMap st))
            (activePreview st) (sentMessages st)
        else
          match actionPrompt note with
          | Some prompt =>
              if JS.truthy (Some prompt) then
                let preview :=
                  if String.eqb (type note) "STORAGE" then FolderType.DOWNLOADS
                  else if String.eqb (type note) "SCREENSHOTS"
                       then FolderType.SCREENSHOTS
                       else activePreview st in
                mkAppState (notifications st)
                  (<[type note := now]> (snoozeMap st))
                  preview (sentMessages st ++ [prompt])%list
              else st
          | None => st
          end
    | None => st
    end in
  mkAppState
    (List.filter (λ n, negb (String.eqb (id n) noteId)) (notifications st1))
    (snoozeMap st1) (activePreview st1) (sentMessages st1).

End Sentry.

(** * Reference notions the properties are stated with *)

Module Spec.

(** [clamp(x, lo, hi)] *)
Definition clamp (x lo hi : Z) : Z :=
  if (x <? lo)%Z then lo else if (hi <? x)%Z then hi else x.

(** How many items of [l] satisfy [p], counted one by one. *)
Fixpoint countWhere {A} (p : A → bool) (l : list A) : Z :=
  match l with
  | [] => 0
  | x :: l' => (if p x then 1 else 0) + countWhere p l'
  end.

Definition isThreat (lvl : ThreatDetector.ThreatLevel)
    (f : ThreatDetector.FileItem) : bool :=
  bool_decide (ThreatDetector.threatLevel f = Some lvl).

Definition isPrivacy (lvl : ThreatDetector.PrivacyLevel)
    (f : ThreatDetector.FileItem) : bool :=
  bool_decide (ThreatDetector.privacyLevel f = Some lvl).

(** [g] is [f] in every field that is not a result of the analysis. *)
Definition sameOutsideAnalysis (f g : ThreatDetector.FileItem) : Prop :=
  ThreatDetector.id g = ThreatDetector.id f
  ∧ ThreatDetector.name g = ThreatDetector.name f
  ∧ ThreatDetector.path g = ThreatDetector.path f
  ∧ ThreatDetector.size g = ThreatDetector.size f
  ∧ ThreatDetector.extension g = ThreatDetector.extension f
  ∧ ThreatDetector.type g = ThreatDetector.type f
  ∧ ThreatDetector.lastModified g = ThreatDetector.lastModified f
  ∧ ThreatDetector.folder g = ThreatDetector.folder f
  ∧ ThreatDetector.category g = ThreatDetector.category f
  ∧ ThreatDetector.version g = ThreatDetector.version f
  ∧ ThreatDetector.lastOpened g = ThreatDetector.lastOpened f.

(** The bytes of the regular file at [p], if there is one. *)
Definition fileAt (d : gmap string Main.Node) (p : string)
  : option (list byte) :=
  match d !! p with
  | Some (Main.File content) => Some content
  | _ => None
  end.

(** The holding directory of a kind, the place a file is stored at when it
    is put there at time [now], and the side record of a stored file. *)
Definition holdingDir (userData : string) (k : Main.Kind) : string :=
  Path.join userData (Main.holdingDirName k).

Definition storedName (k : Main.Kind) (now : Z) (filePath : string) : string :=
  JS.numberToString now ++ "_" ++ Path.basename filePath ++ Main.storedSuffix k.

Definition storedPathFor (userData : string) (k : Main.Kind) (now : Z)
    (filePath : string) : string :=
  Path.join (holdingDir userData k) (storedName k now filePath).

Definition metadataPathOf (storedPath : string) : string :=
  storedPath ++ ".meta.json".

(** A regular file above [hd] keeps a missing [hd] from being made. *)
Definition blocked (d : gmap string Main.Node) (hd : string) : bool :=
  negb (bool_decide (is_Some (d !! hd)))
  && existsb (Main.isFile d) (Main.ancestors hd).

(** The world [getQuarantineDir()] or [getVaultDir()] leaves, also when it
    throws. *)
Definition afterHoldingDir (hd : string) (w : Main.World) : Main.World :=
  let w1 := Main.logged w (Main.EvExists hd) in
  if bool_decide (is_Some (Main.disk w !! hd)) then w1
  else if existsb (Main.isFile (Main.disk w)) (Main.ancestors hd)
       then Main.logged w1 (Main.EvMkdir hd)
       else Main.setDisk (Main.withDirs (Main.lineage hd) (Main.disk w))
              (Main.logged w1 (Main.EvMkdir hd)).

(** A call that moves a file or writes one. *)
Definition isMoveOrWrite (e : Main.Event) : bool :=
  match e with
  | Main.EvRename _ _ | Main.EvWriteFile _ _ => true
  | _ => false
  end.

(** In the run [tr] the digest of [p] was asked for before anything was
    moved or written. *)
Definition digestFirst (p : string) (tr : list Main.Event) : Prop :=
  ∀ pre e post,
    tr = (pre ++ e :: post)%list → isMoveOrWrite e = true →
    In (Main.EvHash p) pre.

(** A call that belongs to an overwrite pass of the shredder. *)
Definition isOverwrite (e : Main.Event) : bool :=
  match e with
  | Main.EvRandomBytes _ | Main.EvWriteFile _ _ => true
  | _ => false
  end.

(** The run [tr] went straight to the unlink, without an overwrite pass. *)
Definition skipsOverwriteLoop (tr : list Main.Event) : Prop :=
  Forall (λ e, isOverwrite e = false) tr.

(** [entry] of a listing of the holding directory [hd] on disk [d] stands
    for a stored file that is there together with its side record. *)
Definition surfaced (JSON_parse : list byte → option Json.t) (k : Main.Kind)
    (hd : string) (d : gmap string Main.Node)
    (entry : list (string * Json.t)) : Prop :=
  ∃ file text metadata,
    is_Some (d !! Path.join hd file)
    ∧ JS.endsWith file (Main.storedSuffix k) = true
    ∧ d !! Path.join hd (file ++ ".meta.json") = Some (Main.File text)
    ∧ JSON_parse text = Some metadata
    ∧ entry = Json.setField (Main.storedPathKey k)
                (Json.JString (Path.join hd file)) (Json.spread metadata).

(** The notifications of one type among [notes]. *)
Definition ofType (ty : string) (notes : list Sentry.Notification)
  : list Sentry.Notification :=
  List.filter (λ n, String.eqb (Sentry.type n) ty) notes.

(** The files the scanner filed under Screenshots. *)
Definition screenshotsOf (files : list ThreatDetector.FileItem)
  : list ThreatDetector.FileItem :=
  List.filter (λ f, String.eqb (ThreatDetector.folder f) "Screenshots") files.

(** The finding of the deep scan that names [n] bytes behind the end of a
    JPEG image. *)
Definition stegFinding (n : Z) : string :=
  "Steganography Marker: " ++ JS.numberToString n
  ++ " bytes of hidden data found after image end.".

End Spec.

(** * Sample inputs *)

Module Sample.

Definition wannacry : ThreatDetector.FileItem :=
  {| ThreatDetector.id := "f-1";
     ThreatDetector.name := "WannaCry_notes.txt";
     ThreatDetector.size := 2048;
     ThreatDetector.type := "Document";
     ThreatDetector.extension := ".txt";
     ThreatDetector.lastModified := "2024-05-01T10:00:00.000Z";
     ThreatDetector.folder := "Documents";
     ThreatDetector.path := "/home/ana/Documents/WannaCry_notes.txt";
     ThreatDetector.category := None;
     ThreatDetector.version := None;
     ThreatDetector.lastOpened := None;
     ThreatDetector.threatLevel := Some ThreatDetector.safe;
     ThreatDetector.threatType := None;
     ThreatDetector.privacyLevel := Some ThreatDetector.public;
     ThreatDetector.tags := Some [] |}.

(** Stand-ins for the platform: the profile directory, a digest that tells
    all contents apart, a random source, a clock format and a codec for
    objects whose values are strings. *)
Definition userData : string := "/home/ana/.config/Barricade".

Definition digest (content : list byte) : string :=
  "sha256-" ++ string_of_list_byte content.

Definition randomSource (n : nat) : byte := if Nat.even n then x5a else xa5.

Definition dirSize : Z := 4096.

Definition isoTime (t : Z) : string := "t" ++ JS.numberToString t.

Fixpoint bitsOf (p : positive) : list byte :=
  match p with
  | xH => []
  | xO q => x30 :: bitsOf q
  | xI q => x31 :: bitsOf q
  end.

Fixpoint ofBits (bs : list byte) : option positive :=
  match bs with
  | [] => Some xH
  | b :: rest =>
      match ofBits rest with
      | Some q =>
          if Byte.eqb b x30 then Some (xO q)
          else if Byte.eqb b x31 then Some (xI q)
          else None
      | None => None
      end
  end.

Definition stringFields (v : Json.t) : list (string * string) :=
  match v with
  | Json.JObject fields =>
      omap (λ kv, match snd kv with
                  | Json.JString s => Some (fst kv, s)
                  | _ => None
                  end) fields
  | _ => []
  end.

Definition stringify (v : Json.t) : list byte :=
  bitsOf (encode (stringFields v)).

Definition parse (text : list byte) : option Json.t :=
  match ofBits text with
  | Some p =>
      match decode p with
      | Some fields =>
          Some (Json.JObject (map (λ kv : string * string,
                                     (fst kv, Json.JString (snd kv))) fields))
      | None => None
      end
  | None => None
  end.

Definition home : gmap string Main.Node :=
  {[ "/home" := Main.Directory;
     "/home/ana" := Main.Directory;
     "/home/ana/report.pdf" := Main.File (list_byte_of_string "%PDF-1.7 report");
     "/home/ana/empty.log" := Main.File [] ]}.

Definition world0 : Main.World := Main.mkWorld home [] 1700000000000 0.

Definition vaultDir : string := "/home/ana/.config/Barricade/Vault".

Definition taxesRecord : Json.t :=
  Main.metadataObject Main.Vault "/home/ana/taxes.xlsx" "taxes.xlsx"
    "t1700000000000" (Some "tax documents")
    (digest (list_byte_of_string "PK taxes")).

(** A vault with one stored file that has its side record and one that has
    lost it. *)
Definition vaulted : gmap string Main.Node :=
  {[ "/home" := Main.Directory;
     "/home/ana" := Main.Directory;
     "/home/ana/.config" := Main.Directory;
     "/home/ana/.config/Barricade" := Main.Directory;
     vaultDir := Main.Directory;
     vaultDir ++ "/1700000000000_taxes.xlsx.vault"
       := Main.File (list_byte_of_string "PK taxes");
     vaultDir ++ "/1700000000000_taxes.xlsx.vault.meta.json"
       := Main.File (stringify taxesRecord);
     vaultDir ++ "/1700000000500_orphan.txt.vault"
       := Main.File (list_byte_of_string "left alone") ]}.

Definition world1 : Main.World := Main.mkWorld vaulted [] 1700000001000 0.

(** Stand-ins for [Math.log2] and for [toFixed(2)]. *)
Definition log2 (x : float) : float := PrimFloat.sub x 1%float.

Definition fixed2 (x : float) : string :=
  if PrimFloat.eqb x 0%float then "0.00" else "n.nn".

(** A picture whose end marker is followed by 37 bytes, the last two of
    which are an end marker again. *)
Definition markerInTail : list byte :=
  ([xff; xd8; xff; xd9] ++ repeat x41 35 ++ [xff; xd9])%list.

(** A picture whose last end marker is followed by 37 bytes. *)
Definition trailer : list byte :=
  ([xff; xd8; xff; xd9] ++ repeat x41 37)%list.

Definition pictures : gmap string Main.Node :=
  {[ "/home" := Main.Directory;
     "/home/ana" := Main.Directory;
     "/home/ana/Pictures" := Main.Directory;
     "/home/ana/Pictures/beach.JPG" := Main.File trailer;
     "/home/ana/Pictures/hill.jpg" := Main.File markerInTail ]}.

Definition world2 : Main.World := Main.mkWorld pictures [] 1700000002000 0.

Definition settings : Sentry.AppSettings :=
  {| Sentry.enableNativeNotifications := true;
     Sentry.enableProactiveSentry := true;
     Sentry.sentryScanInterval := 1 |}.

Definition screenshot : ThreatDetector.FileItem :=
  {| ThreatDetector.id := "f-2";
     ThreatDetector.name := "Screenshot 2024-05-01.png";
     ThreatDetector.size := 350000;
     ThreatDetector.type := "Image";
     ThreatDetector.extension := ".png";
     ThreatDetector.lastModified := "2024-05-01T10:00:00.000Z";
     ThreatDetector.folder := "Screenshots";
     ThreatDetector.path := "/home/ana/Pictures/Screenshots/Screenshot 2024-05-01.png";
     ThreatDetector.category := None;
     ThreatDetector.version := None;
     ThreatDetector.lastOpened := None;
     ThreatDetector.threatLevel := Some ThreatDetector.safe;
     ThreatDetector.threatType := None;
     ThreatDetector.privacyLevel := Some ThreatDetector.public;
     ThreatDetector.tags := Some ["Screenshot"] |}.

Definition sixteenScreenshots : list ThreatDetector.FileItem :=
  repeat screenshot 16.

(** The application with nothing on show and nothing snoozed. *)
Definition idle : Sentry.AppState :=
  {| Sentry.notifications := [];
     Sentry.snoozeMap := ∅;
     Sentry.activePreview := "none";
     Sentry.sentMessages := [] |}.

Definition setupCrack : ThreatDetector.FileItem :=
  {| ThreatDetector.id := "f-3";
     ThreatDetector.name := "setup_crack.exe";
     ThreatDetector.size := 5242880;
     ThreatDetector.type := "Executable";
     ThreatDetector.extension := ".exe";
     ThreatDetector.lastModified := "2024-05-02T08:30:00.000Z";
     ThreatDetector.folder := "Downloads";
     ThreatDetector.path := "/home/ana/Downloads/setup_crack.exe";
     ThreatDetector.category := None;
     ThreatDetector.version := None;
     ThreatDetector.lastOpened := None;
     ThreatDetector.threatLevel := Some ThreatDetector.safe;
     ThreatDetector.threatType := None;
     ThreatDetector.privacyLevel := Some ThreatDetector.public;
     ThreatDetector.tags := Some [] |}.

End Sample.

(** * Further reference notions *)

Module Notions.

(** The ASCII letters of [s] in lower case, every other character as it
    is. *)
Fixpoint asciiLower (s : string) : string :=
  match s with
  | EmptyString => EmptyString
  | String c s' => String (Regex.asciiFold c) (asciiLower s')
  end.

(** Every tag [generateFileTags] can give, in the order it gives them. *)
Definition allTags : list string :=
  ["Large File"; "Very Large"; "Contains Credentials"; "Financial Data";
   "Screenshot"; "Backup File"; "Executable"; "Archive";
   "Potential Piracy Tool"; "Double Extension"].

End Notions.

Module More.

(** [Sample.wannacry] under a name in capitals. *)
Definition shouting : ThreatDetector.FileItem :=
  {| ThreatDetector.id := "f-5";
     ThreatDetector.name := "WANNACRY_NOTES.TXT";
     ThreatDetector.size := 2048;
     ThreatDetector.type := "Document";
     ThreatDetector.extension := ".txt";
     ThreatDetector.lastModified := "2024-05-01T10:00:00.000Z";
     ThreatDetector.folder := "Documents";
     ThreatDetector.path := "/home/ana/Documents/WannaCry_notes.txt";
     ThreatDetector.category := None;
     ThreatDetector.version := None;
     ThreatDetector.lastOpened := None;
     ThreatDetector.threatLevel := None;
     ThreatDetector.threatType := None;
     ThreatDetector.privacyLevel := None;
     ThreatDetector.tags := None |}.

End More.

(** ** The preload bridge (the script that exposes [barricadeFS]) and the
    renderer's file system service (src/services/fileSystemService.ts) *)

Module Service.

(** What the service asks of [window]: [!!window.barricadePlatform?.isElectron]
    and whether [window.barricadeFS] is there. *)
Record Window : Type := mkWindow {
  isElectron : bool;
  hasBarricadeFS : bool
}.

Section Service.

Variable userData : string.
Variable sha256 : list byte → string.
Variable toISOString : Z → string.
Variable JSON_stringify : Json.t → list byte.

(** [quarantine: (filePath, reason) =>
      ipcRenderer.invoke('fs:quarantine', filePath, reason)] *)
Definition bridge_quarantine (filePath : string) (reason : option string)
  : Main.World → Main.Response string * Main.World :=
  Main.fs_quarantine userData sha256 toISOString JSON_stringify filePath reason.

(** [vault: (fileIds) => ipcRenderer.invoke('fs:vault', fileIds)]: the
    function has one parameter, what else it is called with is dropped, and
    the handler's [reason] is [undefined]. *)
Definition bridge_vault (fileIds : string)
  : Main.World → Main.Response string * Main.World :=
  Main.fs_vault userData sha256 toISOString JSON_stringify fileIds None.

(** [result.success] of a handler's answer *)
Definition succeeded {A} (r : Main.Response A) : bool :=
  match r with
  | Main.Success _ => true
  | Main.Failure _ => false
  end.

(** [quarantineFile(filePath, reason)] *)
Definition quarantineFile (window : Window) (filePath reason : string)
  : Main.World → bool * Main.World := λ w,
  if negb (isElectron window) || negb (hasBarricadeFS window) then (false, w)
  else
    let answer := bridge_quarantine filePath (Some reason) w in
    (succeeded (fst answer), snd answer).

(** [vaultFile(filePath, reason)]: it calls
    [window.barricadeFS.vault(filePath, reason)]. *)
Definition vaultFile (window : Window) (filePath reason : string)
  : Main.World → bool * Main.World := λ w,
  if negb (isElectron window) || negb (hasBarricadeFS window) then (false, w)
  else
    let answer := bridge_vault filePath w in
    (succeeded (fst answer), snd answer).

End Service.

End Service.

Module Notions2.

(** The last character of a string. *)
Fixpoint lastChar (s : string) : option ascii :=
  match s with
  | EmptyString => None
  | String c EmptyString => Some c
  | String _ s' => lastChar s'
  end.

(** A name a directory entry can have: not empty and without separator. *)
Definition isSegment (n : string) : Prop :=
  n ≠ "" ∧ Path.hasSlash n = false.

(** Whatever is on disk [d] where the holding directory [hd] would have a
    side record is a regular file that [JSON_parse] reads. *)
Definition recordsReadable (JSON_parse : list byte → option Json.t)
    (hd : string) (d : gmap string Main.Node) : Prop :=
  ∀ n, match d !! Path.join hd (n ++ ".meta.json") with
       | Some (Main.File text) => is_Some (JSON_parse text)
       | Some Main.Directory => False
       | None => True
       end.

(** The same as a check of the disk, path by path. *)
Definition recordSound (JSON_parse : list byte → option Json.t)
    (hd : string) (entry : string * Main.Node) : bool :=
  if JS.startsWith entry.1 (hd ++ "/") && JS.endsWith entry.1 ".meta.json"
  then match entry.2 with
       | Main.File text => bool_decide (is_Some (JSON_parse text))
       | Main.Directory => false
       end
  else true.

Definition sideRecordsSound (JSON_parse : list byte → option Json.t)
    (hd : string) (d : gmap string Main.Node) : bool :=
  forallb (recordSound JSON_parse hd) (map_to_list d).

(** The entry a listing makes for the stored file [file]. *)
Definition entryFor (k : Main.Kind) (hd file : string) (metadata : Json.t)
  : list (string * Json.t) :=
  Json.setField (Main.storedPathKey k) (Json.JString (Path.join hd file))
    (Json.spread metadata).

End Notions2.

Module More2.

(** The vault of [Sample.vaulted] after a new file has appeared where the
    stored one came from. *)
Definition occupied : gmap string Main.Node :=
  <["/home/ana/taxes.xlsx" := Main.File (list_byte_of_string "newer sheet")]>
    Sample.vaulted.

Definition world3 : Main.World := Main.mkWorld occupied [] 1700000003000 0.

(** The vault of [Sample.vaulted] with a stored file whose side record is
    not JSON. *)
Definition spoiled : gmap string Main.Node :=
  <[Sample.vaultDir ++ "/1700000000700_notes.txt.vault.meta.json"
      := Main.File (list_byte_of_string "{ not json")]>
    (<[Sample.vaultDir ++ "/1700000000700_notes.txt.vault"
         := Main.File (list_byte_of_string "notes")]> Sample.vaulted).

Definition world4 : Main.World := Main.mkWorld spoiled [] 1700000004000 0.

(** A vault in which every stored file has a sound side record. *)
Definition tidy : gmap string Main.Node :=
  delete (Sample.vaultDir ++ "/1700000000500_orphan.txt.vault") Sample.vaulted.

Definition world5 : Main.World := Main.mkWorld tidy [] 1700000005000 0.

Definition desktop : Service.Window :=
  {| Service.isElectron := true; Service.hasBarricadeFS := true |}.

End More2.

(** ** Notions and samples for the deep scan *)

Module ForensicNotions.

(** A call that only looks at the disk. *)
Definition isLook (e : Main.Event) : bool :=
  match e with
  | Main.EvExists _ | Main.EvStat _ | Main.EvReadFile _ => true
  | _ => false
  end.

(** The findings of [fs:deep-scan]. *)
Definition entropyFinding : string :=
  "Abnormal High Entropy: Potential encrypted payload detected.".

Definition pngFinding : string :=
  "Steganography Marker: Data detected after IEND chunk.".

Definition markerFinding (s : string) : string :=
  "Malicious Marker: Suspicious string " ++ Main.dquote ++ s ++ Main.dquote
  ++ " found in binary.".

(** [Buffer.from('IEND')] *)
Definition IEND : list byte := [x49; x45; x4e; x44].

(** What the flagging steps keep in step: the level is [safe] exactly while
    there is no finding. *)
Definition inStep (v : Main.Verdict) : Prop :=
  snd v = ThreatDetector.safe ↔ fst v = [].

(** The size cap of the deep scan, [10 * 1024 * 1024]. *)
Definition sizeCap : Z := 10 * 1024 * 1024.

End ForensicNotions.

Module More3.

(** A picture that ends with the IEND tag and the four bytes of its
    checksum, the same picture with six more bytes, and a note that
    mentions a shell. *)
Definition cleanPng : list byte :=
  (list_byte_of_string "PNG....IDAT...." ++ ForensicNotions.IEND
   ++ [xae; x42; x60; x82])%list.

Definition stuffedPng : list byte :=
  (list_byte_of_string "PNG....IDAT...." ++ ForensicNotions.IEND
   ++ [xae; x42; x60; x82] ++ list_byte_of_string "hidden")%list.

Definition cleanJpeg : list byte := [xff; xd8; x00; x10; xff; xd9].

Definition note : list byte :=
  list_byte_of_string "start powershell -enc AAAA".

Definition gallery : gmap string Main.Node :=
  {[ "/home" := Main.Directory;
     "/home/ana" := Main.Directory;
     "/home/ana/Pictures" := Main.Directory;
     "/home/ana/Pictures/clean.png" := Main.File cleanPng;
     "/home/ana/Pictures/stuffed.PNG" := Main.File stuffedPng;
     "/home/ana/Pictures/clean.jpeg" := Main.File cleanJpeg;
     "/home/ana/note.txt" := Main.File note ]}.

Definition world6 : Main.World := Main.mkWorld gallery [] 1700000006000 0.

End More3.

(** ** The figures of the dashboard (src/App.tsx) *)

Module Dashboard.

Import ThreatDetector.

(** One round of the [forEach] of the [integrityScore] memo. *)
Definition scoreStep (score : Z) (f : FileItem) : Z :=
  let score := if bool_decide (threatLevel f = Some malicious)
               then score - 20 else score in
  let score := if bool_decide (threatLevel f = Some suspicious)
               then score - 5 else score in
  if bool_decide (privacyLevel f = Some critical) then score - 10 else score.

(** [integrityScore]: from 98 down, never below 0. *)
Definition integrityScore (files : list FileItem) : Z :=
  Z.max 0 (foldl scoreStep 98 files).

(** [f.size || 0] *)
Definition sizeOrZero (f : FileItem) : Z := if (size f =? 0)%Z then 0 else size f.

(** [files.filter(pred).reduce((acc, f) => acc + (f.size || 0), 0)] *)
Definition totalSize (pred : FileItem → bool) (files : list FileItem) : Z :=
  foldl (λ acc f, acc + sizeOrZero f) 0 (List.filter pred files).

(** The [apps], [media] and [junk] figures of the [stats] memo. *)
Definition apps (files : list FileItem) : Z :=
  totalSize (λ f, String.eqb (type f) "Application"
                  || String.eqb (type f) "Software") files.

Definition media (files : list FileItem) : Z :=
  totalSize (λ f, String.eqb (type f) "Image" || String.eqb (type f) "Video")
    files.

Definition junk (files : list FileItem) : Z :=
  totalSize (λ f, String.eqb (folder f) Sentry.FolderType.RECYCLE_BIN) files.

(** A file that costs the dashboard score something. *)
Definition costly (f : FileItem) : bool :=
  bool_decide (threatLevel f = Some malicious)
  || bool_decide (threatLevel f = Some suspicious)
  || bool_decide (privacyLevel f = Some critical).

End Dashboard.

Module More4.

Definition download : ThreatDetector.FileItem :=
  {| ThreatDetector.id := "f-6";
     ThreatDetector.name := "installer.zip";
     ThreatDetector.size := 1048576;
     ThreatDetector.type := "Archive";
     ThreatDetector.extension := ".zip";
     ThreatDetector.lastModified := "2024-05-02T08:00:00.000Z";
     ThreatDetector.folder := "Downloads";
     ThreatDetector.path := "/home/ana/Downloads/installer.zip";
     ThreatDetector.category := None;
     ThreatDetector.version := None;
     ThreatDetector.lastOpened := None;
     ThreatDetector.threatLevel := Some ThreatDetector.safe;
     ThreatDetector.threatType := None;
     ThreatDetector.privacyLevel := Some ThreatDetector.public;
     ThreatDetector.tags := Some ["Archive"] |}.

(** Sixteen screenshots and eleven downloads. *)
Definition cluttered : list ThreatDetector.FileItem :=
  (Sample.sixteenScreenshots ++ repeat download 11)%list.

(** The sentry of [Sample.settings] has just told about the screenshots
    and about the downloads. *)
Definition told : Sentry.AppState :=
  Sentry.after (Sentry.sentryTick Sample.settings cluttered 1800000
                  Sample.idle).

End More4.

(** ** The scanner (src/electron/main.cjs) and its service *)

Module Scanner.

Import Main.

(** The own properties of [typeMap], in the order of the literal. *)
Definition typeMap : list (string * string) :=
  [ (".png", "Image"); (".jpg", "Image"); (".jpeg", "Image"); (".gif", "Image");
    (".webp", "Image"); (".bmp", "Image"); (".svg", "Image"); (".ico", "Image");
    (".mp4", "Video"); (".avi", "Video"); (".mov", "Video"); (".mkv", "Video");
    (".wmv", "Video"); (".webm", "Video");
    (".mp3", "Audio"); (".wav", "Audio"); (".flac", "Audio"); (".aac", "Audio");
    (".ogg", "Audio"); (".m4a", "Audio");
    (".pdf", "Document"); (".doc", "Document"); (".docx", "Document");
    (".xls", "Document"); (".xlsx", "Document"); (".ppt", "Document");
    (".pptx", "Document"); (".txt", "Document"); (".rtf", "Document");
    (".odt", "Document"); (".ods", "Document");
    (".js", "Code"); (".ts", "Code"); (".py", "Code"); (".java", "Code");
    (".cpp", "Code"); (".c", "Code"); (".h", "Code"); (".css", "Code");
    (".html", "Code"); (".json", "Code"); (".xml", "Code");
    (".zip", "Archive"); (".rar", "Archive"); (".7z", "Archive");
    (".tar", "Archive"); (".gz", "Archive");
    (".exe", "Executable"); (".msi", "Executable"); (".bat", "Executable");
    (".cmd", "Executable"); (".ps1", "Executable"); (".sh", "Executable");
    (".app", "Application"); (".dmg", "Application") ].

(** [typeMap[ext] || 'Other'], for an [ext] as [path.extname] gives it:
    empty or opening with a dot, so that no inherited property of the
    object answers. *)
Definition getFileType (ext : string) : string :=
  match List.find (λ kv, String.eqb kv.1 ext) typeMap with
  | Some kv => kv.2
  | None => "Other"
  end.

Definition getFolderType (dirPath : string) : string :=
  let lowerPath := JS.toLowerCase dirPath in
  if JS.includes lowerPath "download" then "Downloads"
  else if JS.includes lowerPath "screenshot" then "Screenshots"
  else if JS.includes lowerPath "document" then "Documents"
  else if JS.includes lowerPath "desktop" then "Desktop"
  else if JS.includes lowerPath "picture" then "Pictures"
  else if JS.includes lowerPath "quarantine" then "Quarantine"
  else "Other".

(** [entry.name.startsWith('.') || entry.name.startsWith('$')] *)
Definition hidden (name : string) : bool :=
  JS.startsWith name "." || JS.startsWith name "$".

(** [try { ... } catch (err) { ... }] that goes on with [otherwise]. *)
Definition orSkip {A} (m : M A) (otherwise : A) : M A := λ w,
  match m w with
  | (Throw _, w') => (Ok otherwise, w')
  | r => r
  end.

(** The entry of [dir] with the name [name]: the name and whether
    [entry.isFile()]. *)
Definition dirent (d : gmap string Node) (dir name : string) : string * bool :=
  (name, match d !! Path.join dir name with
         | Some (File _) => true
         | _ => false
         end).

Section Scan.

(** [os.homedir()], normalised, and [process.platform] *)
Variable home : string.
Variable platform : string.
Variable randomSource : nat → byte.
(** The text of a version 4 UUID made from sixteen random bytes. *)
Variable formatUUID : list byte → string.
Variable dirSize : Z.
(** [fs.statSync(p).mtime.toISOString()] *)
Variable mtimeISO : string → string.

(** [getUserDirectories()], as [Object.entries] goes through it. *)
Definition getUserDirectories : list (string * string) :=
  [ ("downloads", Path.join home "Downloads");
    ("documents", Path.join home "Documents");
    ("desktop", Path.join home "Desktop");
    ("pictures", Path.join home "Pictures");
    ("screenshots",
     if String.eqb platform "win32"
     then Path.join (Path.join home "Pictures") "Screenshots"
     else if String.eqb platform "darwin"
          then Path.join (Path.join home "Pictures") "Screenshots"
          else Path.join home "Pictures") ].

(** [crypto.randomUUID()]: sixteen bytes of the random source. *)
Definition randomUUID : M string :=
  bytes ← draw randomSource 16;
  mret (formatUUID bytes).

(** [fs.readdirSync(dir, { withFileTypes: true })]: every name with what
    [entry.isFile()] answers.  The disk of the model holds regular files
    and directories only, so [entry.isDirectory()] is the opposite. *)
Definition readdirTyped (dir : string) : M (list (string * bool)) :=
  names ← readdirSync dir;
  d ← getDisk;
  mret (map (dirent d dir) names).

(** The object [scanDirectory] pushes for a regular file. *)
Definition item (dirPath name : string) (size : Z) (uuid : string)
  : ThreatDetector.FileItem :=
  let ext := JS.toLowerCase (Path.extname name) in
  {| ThreatDetector.id := uuid;
     ThreatDetector.name := name;
     ThreatDetector.size := size;
     ThreatDetector.type := getFileType ext;
     ThreatDetector.extension := ext;
     ThreatDetector.lastModified := mtimeISO (Path.join dirPath name);
     ThreatDetector.folder := getFolderType dirPath;
     ThreatDetector.path := Path.join dirPath name;
     ThreatDetector.category := None;
     ThreatDetector.version := None;
     ThreatDetector.lastOpened := None;
     ThreatDetector.threatLevel := Some ThreatDetector.safe;
     ThreatDetector.threatType := None;
     ThreatDetector.privacyLevel := Some ThreatDetector.public;
     ThreatDetector.tags := Some [] |}.

(** One round of the loop over the entries of [dirPath].  [below] is
    [maxDepth - currentDepth - 1], so that [currentDepth < maxDepth - 1]
    reads [1 <= below], and [scanBelow] is the scan one level down. *)
Definition scanEntry (scanBelow : string → M (list ThreatDetector.FileItem))
    (below : nat) (dirPath : string) (files : list ThreatDetector.FileItem)
    (entry : string * bool) : M (list ThreatDetector.FileItem) :=
  if hidden entry.1 then mret files
  else
    let fullPath := Path.join dirPath entry.1 in
    orSkip
      (if entry.2 : bool then
         size ← statSize dirSize fullPath;
         uuid ← randomUUID;
         mret (files ++ [item dirPath entry.1 size uuid])%list
       else if negb entry.2 && (1 <=? below)%nat then
         subFiles ← scanBelow fullPath;
         mret (files ++ subFiles)%list
       else mret files)
      files.

(** [scanDirectory(dirPath, maxDepth, currentDepth)] by the number of
    levels it still has, [maxDepth - currentDepth].  The rounds of the loop
    catch what they throw, so when the outer [catch] is reached [files] is
    still empty. *)
Fixpoint scanLevels (levels : nat) (dirPath : string)
  : M (list ThreatDetector.FileItem) :=
  match levels with
  | O => mret []
  | S below =>
      orSkip
        (there ← existsSync dirPath;
         if negb there then mret []
         else
           entries ← readdirTyped dirPath;
           foldM (scanEntry (scanLevels below) below dirPath) [] entries)
        []
  end.

Definition scanDirectory (dirPath : string) (maxDepth currentDepth : Z)
  : M (list ThreatDetector.FileItem) :=
  scanLevels (Z.to_nat (maxDepth - currentDepth)) dirPath.

(** The handler of [fs:scan-all] *)
Definition fs_scan_all : M (list ThreatDetector.FileItem) :=
  foldM (λ allFiles entry,
           files ← scanDirectory entry.2 2 0;
           mret (allFiles ++ files)%list)
        [] getUserDirectories.

(** The handler of [fs:scan-directory] *)
Definition fs_scan_directory (dirPath : string)
  : M (list ThreatDetector.FileItem) :=
  scanDirectory dirPath 3 0.

(** [scanUserDirectories()] of src/services/fileSystemService.ts *)
Definition scanUserDirectories (window : Service.Window)
  : World → list ThreatDetector.FileItem * World := λ w,
  if negb (Service.isElectron window) || negb (Service.hasBarricadeFS window)
  then ([], w)
  else
    match fs_scan_all w with
    | (Ok files, w') => (ThreatDetector.analyzeFiles files, w')
    | (Throw _, w') => ([], w')
    end.

End Scan.

(** *** What a scan finds, read off the disk *)

(** What a scan that has [below] more levels to go comes by at the entry
    [name] of [dir]; [deeper] is what it comes by in a directory one level
    down. *)
Definition placesOf (d : gmap string Node)
    (deeper : string → list (string * string)) (below : nat)
    (dir name : string) : list (string * string) :=
  if hidden name then []
  else match d !! Path.join dir name with
       | Some (File _) => [(dir, name)]
       | Some Directory =>
           if (1 <=? below)%nat then deeper (Path.join dir name) else []
       | None => []
       end.

(** The files a scan of [levels] levels from [dir] comes by on the disk
    [d], each with the directory it is in, in the order of the scan. *)
Fixpoint places (d : gmap string Node) (levels : nat) (dir : string)
  : list (string * string) :=
  match levels with
  | O => []
  | S below =>
      match d !! dir with
      | Some Directory =>
          flat_map (placesOf d (places d below) below dir)
            (omap (entryName dir) ((map_to_list d).*1))
      | _ => []
      end
  end.

(** What [fs.statSync(p).size] reads on the disk [d]. *)
Definition sizeAt (dirSize : Z) (d : gmap string Node) (p : string) : Z :=
  match d !! p with
  | Some (File content) => Z.of_nat (length content)
  | _ => dirSize
  end.

(** The object the scan pushes for the file [place.2] of the directory
    [place.1], with the id [uuid]. *)
Definition itemAt (dirSize : Z) (mtimeISO : string → string)
    (d : gmap string Node) (place : string * string) (uuid : string)
  : ThreatDetector.FileItem :=
  item mtimeISO place.1 place.2 (sizeAt dirSize d (Path.join place.1 place.2))
    uuid.

(** [f] is the object of the scan for [place], whatever its id. *)
Definition standsFor (dirSize : Z) (mtimeISO : string → string)
    (d : gmap string Node) (f : ThreatDetector.FileItem)
    (place : string * string) : Prop :=
  ∃ uuid, f = itemAt dirSize mtimeISO d place uuid.

(** The directories [subdirs] lead down from the directory [root], none of
    them hidden. *)
Fixpoint reachable (d : gmap string Node) (root : string)
    (subdirs : list string) : Prop :=
  d !! root = Some Directory
  ∧ match subdirs with
    | [] => True
    | sub :: rest =>
        Notions2.isSegment sub ∧ hidden sub = false
        ∧ reachable d (Path.join root sub) rest
    end.

(** [f] stands for a regular file of the disk [d] that is not hidden, at
    most [depth] directories below [root], and says of it what the disk
    and the name tell. *)
Definition scanned (d : gmap string Node) (root : string) (depth : nat)
    (f : ThreatDetector.FileItem) : Prop :=
  ∃ (subdirs : list string) (content : list byte),
    let dir := foldl Path.join root subdirs in
    (length subdirs <= depth)%nat
    ∧ d !! Path.join dir (ThreatDetector.name f) = Some (File content)
    ∧ hidden (ThreatDetector.name f) = false
    ∧ ThreatDetector.path f = Path.join dir (ThreatDetector.name f)
    ∧ ThreatDetector.size f = Z.of_nat (length content)
    ∧ ThreatDetector.extension f
      = JS.toLowerCase (Path.extname (ThreatDetector.name f))
    ∧ ThreatDetector.type f = getFileType (ThreatDetector.extension f)
    ∧ ThreatDetector.folder f = getFolderType dir
    ∧ ThreatDetector.threatLevel f = Some ThreatDetector.safe
    ∧ ThreatDetector.privacyLevel f = Some ThreatDetector.public
    ∧ ThreatDetector.tags f = Some [].

(** The strings [getFolderType] answers with. *)
Definition folderNames : list string :=
  ["Downloads"; "Screenshots"; "Documents"; "Desktop"; "Pictures";
   "Quarantine"; "Other"].

End Scanner.

Module More5.

(** A home directory with documents, a picture, screenshots in their own
    directory, a hidden file and a directory too deep to be scanned. *)
Definition tree : gmap string Main.Node :=
  {[ "/home" := Main.Directory;
     "/home/ana" := Main.Directory;
     "/home/ana/Documents" := Main.Directory;
     "/home/ana/Documents/letter.txt" := Main.File (list_byte_of_string "Dear");
     "/home/ana/Documents/.draft" := Main.File (list_byte_of_string "x");
     "/home/ana/Pictures" := Main.Directory;
     "/home/ana/Pictures/cat.png" := Main.File (list_byte_of_string "PNG");
     "/home/ana/Pictures/Screenshots" := Main.Directory;
     "/home/ana/Pictures/Screenshots/shot1.png"
       := Main.File (list_byte_of_string "PNG1");
     "/home/ana/Pictures/Screenshots/old" := Main.Directory;
     "/home/ana/Pictures/Screenshots/old/shot0.png"
       := Main.File (list_byte_of_string "PNG0") ]}.

Definition world7 : Main.World := Main.mkWorld tree [] 1700000007000 0.

Definition uuidOf (bytes : list byte) : string :=
  "id-" ++ string_of_list_byte (take 2 bytes).

Definition mtime (p : string) : string := "2024-05-01T10:00:00.000Z".

End More5.

(** * Proof steps *)

(** Lay open the primitives of the main process and the monad they run
    in. *)
Ltac run_prims :=
  unfold Main.existsSync, Main.mkdirSync, Main.renameSync, Main.writeFileSync,
    Main.readFileSync, Main.unlinkSync, Main.readdirSync, Main.statSize,
    Main.randomBytes, Main.draw, Main.getFileHash, Main.Date_now, Main.record,
    Main.getDisk, Main.putDisk, Main.throw, mbind, Main.M_bind, mret,
    Main.M_ret.

(** * The embedding on the scenarios of the specification *)

Module Scenarios.

Example classify_setup_crack :
  ThreatDetector.analyzeFile Sample.setupCrack
  = {| ThreatDetector.id := "f-3";
       ThreatDetector.name := "setup_crack.exe";
       ThreatDetector.size := 5242880;
       ThreatDetector.type := "Executable";
       ThreatDetector.extension := ".exe";
       ThreatDetector.lastModified := "2024-05-02T08:30:00.000Z";
       ThreatDetector.folder := "Downloads";
       ThreatDetector.path := "/home/ana/Downloads/setup_crack.exe";
       ThreatDetector.category := None;
       ThreatDetector.version := None;
       ThreatDetector.lastOpened := None;
       ThreatDetector.threatLevel := Some ThreatDetector.suspicious;
       ThreatDetector.threatType := Some "PUP:Win32/Keygen";
       ThreatDetector.privacyLevel := Some ThreatDetector.public;
       ThreatDetector.tags := Some ["Executable"; "Potential Piracy Tool"] |}.
Proof. vm_compute. reflexivity. Qed.

Example regex_optional_dot :
  map (Regex.test [Regex.free (ThreatDetector.seqs
                                 [Regex.lit "social"; Regex.opt Regex.Dot;
                                  Regex.lit "security"])])
      ["Social_Security.pdf"; "socialsecurity"; "social--security"]
  = [true; true; false].
Proof. vm_compute. reflexivity. Qed.

Example regex_dollar :
  map (Regex.test [Regex.atEnd (Regex.lit ".scr")]) ["saver.SCR"; "a.scr.txt"]
  = [true; false].
Proof. vm_compute. reflexivity. Qed.

Example path_basename :
  map Path.basename ["/a/b/c.txt"; "/a/b/"; "/"; "c"; "a//b//"]
  = ["c.txt"; "b"; ""; "c"; "b"].
Proof. reflexivity. Qed.

Example path_extname :
  map Path.extname ["index.html"; "index.coffee.md"; "index."; "index";
                    ".index"; ".index.md"; ".."; "/a.b/c"]
  = [".html"; ".md"; "."; ""; ""; ".md"; ""; ""].
Proof. reflexivity. Qed.

Example lastIndexOf_examples :
  map (λ b, Main.lastIndexOf b [xff; xd9])
      [[]; [xff]; [xff; xd9]; [x00; xff; xd9; xff; xd9; x00]]
  = [-1; -1; 0; 3]%Z.
Proof. reflexivity. Qed.

(** [fs.mkdirSync(p, { recursive: true })] makes the directories above
    [p] that are missing, and a regular file above [p] makes it throw. *)
Example mkdir_makes_ancestors :
  let run := Main.mkdirSync "/home/ana/.config/Barricade/Vault" Sample.world0 in
  fst run = Main.Ok ()
  ∧ Main.disk (snd run)
    = <["/home/ana/.config" := Main.Directory]>
        (<["/home/ana/.config/Barricade" := Main.Directory]>
           (<["/home/ana/.config/Barricade/Vault" := Main.Directory]>
              Sample.home)).
Proof. split; vm_compute; reflexivity. Qed.

Example mkdir_below_file :
  fst (Main.mkdirSync "/home/ana/report.pdf/x/y" Sample.world0)
  = Main.Throw (Main.ENOTDIR "/home/ana/report.pdf/x/y").
Proof. vm_compute. reflexivity. Qed.

(** [fs.renameSync] into a directory that is missing throws and moves
    nothing. *)
Example rename_needs_directory :
  let run := Main.renameSync "/home/ana/report.pdf" "/home/ana/gone/report.pdf"
               Sample.world0 in
  fst run = Main.Throw (Main.ENOENT "/home/ana/gone/report.pdf")
  ∧ Main.disk (snd run) = Sample.home.
Proof. split; vm_compute; reflexivity. Qed.

(** [fs.renameSync] of a directory takes along what is below it. *)
Example rename_moves_directory :
  let run := Main.renameSync "/home/ana/Pictures/Screenshots" "/home/ana/Shots"
               More5.world7 in
  fst run = Main.Ok ()
  ∧ Main.disk (snd run) !! "/home/ana/Shots" = Some Main.Directory
  ∧ Main.disk (snd run) !! "/home/ana/Shots/old/shot0.png"
    = Some (Main.File (list_byte_of_string "PNG0"))
  ∧ Main.disk (snd run) !! "/home/ana/Pictures/Screenshots" = None
  ∧ Main.disk (snd run) !! "/home/ana/Pictures/Screenshots/shot1.png" = None
  ∧ Main.disk (snd run) !! "/home/ana/Pictures/cat.png"
    = Some (Main.File (list_byte_of_string "PNG")).
Proof. repeat split; vm_compute; reflexivity. Qed.

Example rename_directory_refused :
  fst (Main.renameSync "/home/ana/Pictures"
         "/home/ana/Pictures/Screenshots/in" More5.world7)
  = Main.Throw (Main.EINVAL "/home/ana/Pictures/Screenshots/in")
  ∧ fst (Main.renameSync "/home/ana/Pictures" "/home/ana/Documents"
           More5.world7)
    = Main.Throw (Main.ENOTEMPTY "/home/ana/Documents")
  ∧ fst (Main.renameSync "/home/ana/Pictures"
           "/home/ana/Documents/letter.txt" More5.world7)
    = Main.Throw (Main.ENOTDIR "/home/ana/Documents/letter.txt").
Proof. repeat split; vm_compute; reflexivity. Qed.

End Scenarios.

(** * Properties of the threat detection service *)

Module ThreatDetectorFacts.

Import ThreatDetector Spec.

Lemma filterLength_countWhere (p : FileItem → bool) (files : list FileItem) :
  filterLength p files = countWhere p files.
Proof.
  unfold filterLength.
  induction files as [|f files IH]; simpl; [reflexivity|].
  destruct (p f); simpl length; lia.
Qed.

Lemma max_min_clamp (x : Z) : Z.max 0 (Z.min 100 x) = clamp x 0 100.
Proof.
  unfold clamp.
  destruct (Z.ltb_spec x 0), (Z.ltb_spec 100 x); lia.
Qed.

(** C3.  For every list of files the summary counts the malicious, the
    suspicious, the critical and the sensitive files, its integrity score
    is [clamp(100 - 25 malicious - 5 suspicious - 10 critical
    - 2 sensitive, 0, 100)], and its status is [alert] when there is a
    malicious file, else [warning] when there is a suspicious one, else
    [protected]. *)
Theorem getSecuritySummary_score_status (files : list FileItem) :
  let s := getSecuritySummary files in
  maliciousCount s = countWhere (isThreat malicious) files
  ∧ suspiciousCount s = countWhere (isThreat suspicious) files
  ∧ criticalPrivacyCount s = countWhere (isPrivacy critical) files
  ∧ sensitivePrivacyCount s = countWhere (isPrivacy sensitive) files
  ∧ integrityScore s
    = clamp (100 - 25 * maliciousCount s - 5 * suspiciousCount s
             - 10 * criticalPrivacyCount s - 2 * sensitivePrivacyCount s)
        0 100
  ∧ status s
    = (if (0 <? maliciousCount s)%Z then alert
       else if (0 <? suspiciousCount s)%Z then warning
       else protected).
Proof.
  cbv zeta. unfold getSecuritySummary; cbn [maliciousCount suspiciousCount
    criticalPrivacyCount sensitivePrivacyCount integrityScore status].
  repeat split; try apply filterLength_countWhere.
  rewrite max_min_clamp. f_equal. lia.
Qed.

Lemma anyTest_In (ps : list Regex.pattern) (s : string) :
  anyTest ps s = true ↔ ∃ p, In p ps ∧ Regex.test p s = true.
Proof. unfold anyTest. apply existsb_exists. Qed.

(** C7.  A file whose name matches one of [MALICIOUS_PATTERNS] is
    classified [malicious], whatever its extension and its path. *)
Theorem analyzeThreatLevel_malicious_name (file : FileItem) :
  (∃ p, In p MALICIOUS_PATTERNS ∧ Regex.test p (name file) = true) →
  analyzeThreatLevel file = malicious.
Proof.
  intros Hmatch. apply anyTest_In in Hmatch.
  unfold analyzeThreatLevel. now rewrite Hmatch.
Qed.

Lemma analyzeThreatLevel_malicious_name_witness :
  (∃ p, In p MALICIOUS_PATTERNS
        ∧ Regex.test p (name Sample.wannacry) = true)
  ∧ analyzeThreatLevel Sample.wannacry = malicious.
Proof.
  assert (H : ∃ p, In p MALICIOUS_PATTERNS
                   ∧ Regex.test p (name Sample.wannacry) = true).
  { exists (Regex.words ["cryptolocker"; "wannacry"; "petya"; "locky"]).
    split; [simpl; tauto | vm_compute; reflexivity]. }
  split; [exact H|].
  exact (analyzeThreatLevel_malicious_name Sample.wannacry H).
Defined.

Lemma analyzeFile_sameOutsideAnalysis (f : FileItem) :
  sameOutsideAnalysis f (analyzeFile f).
Proof. repeat split. Qed.

(** C9.  [analyzeFiles] returns as many files as it was given, in the same
    order, and each of them agrees with the file it was made from in [id],
    [name], [path], [size], [extension], [type], [lastModified], [folder]
    and the other fields that are not [threatLevel], [privacyLevel],
    [threatType] or [tags]. *)
Theorem analyzeFiles_frame (files : list FileItem) :
  length (analyzeFiles files) = length files
  ∧ Forall2 sameOutsideAnalysis files (analyzeFiles files).
Proof.
  unfold analyzeFiles. split; [apply length_map|].
  induction files as [|f files IH]; simpl; constructor.
  - apply analyzeFile_sameOutsideAnalysis.
  - exact IH.
Qed.

End ThreatDetectorFacts.

(** * Properties of paths *)

Module PathFacts.

Import Path.

Lemma append_cons (a : ascii) (s t : string) :
  String a s ++ t = String a (s ++ t).
Proof. reflexivity. Qed.

Lemma append_assoc (s t u : string) : (s ++ t) ++ u = s ++ t ++ u.
Proof.
  induction s as [|a s IH]; [reflexivity|].
  rewrite !append_cons. now rewrite IH.
Qed.

Lemma length_append (s t : string) :
  String.length (s ++ t) = (String.length s + String.length t)%nat.
Proof.
  induction s as [|a s IH]; [reflexivity|].
  rewrite append_cons. simpl. now rewrite IH.
Qed.

Lemma hasSlash_append (s t : string) :
  hasSlash (s ++ t) = hasSlash s || hasSlash t.
Proof.
  induction s as [|a s IH]; [reflexivity|].
  rewrite append_cons. simpl. rewrite IH. apply orb_assoc.
Qed.

Lemma afterLastSlash_noSlash (s : string) :
  hasSlash s = false → afterLastSlash s = s.
Proof.
  destruct s as [|a s]; [reflexivity|].
  simpl. now intros ->.
Qed.

Lemma hasSlash_afterLastSlash (s : string) : hasSlash (afterLastSlash s) = false.
Proof.
  induction s as [|a s IH]; [reflexivity|].
  simpl. destruct (isSlash a || hasSlash s) eqn:E; [exact IH | exact E].
Qed.

Lemma hasSlash_basename (p : string) : hasSlash (basename p) = false.
Proof. apply hasSlash_afterLastSlash. Qed.

Lemma stripTrailingSlashes_noSlash (n : string) :
  hasSlash n = false → stripTrailingSlashes n = n.
Proof.
  induction n as [|a n IH]; [reflexivity|].
  simpl. intros [Ha Hn]%orb_false_elim.
  rewrite (IH Hn), Ha. now destruct n.
Qed.

Lemma stripTrailingSlashes_append (x n : string) :
  hasSlash n = false → n ≠ "" → stripTrailingSlashes (x ++ n) = x ++ n.
Proof.
  intros Hn Hne. induction x as [|a x IH].
  - now apply stripTrailingSlashes_noSlash.
  - rewrite append_cons. simpl. rewrite IH.
    destruct (x ++ n) eqn:E; [|reflexivity].
    destruct x; [now destruct Hne | discriminate].
Qed.

Lemma afterLastSlash_join (d n : string) :
  hasSlash n = false → afterLastSlash (d ++ "/" ++ n) = n.
Proof.
  intros Hn. induction d as [|a d IH].
  - change ("" ++ "/" ++ n) with (String "/" n). simpl.
    now apply afterLastSlash_noSlash.
  - rewrite append_cons. simpl. rewrite hasSlash_append, IH.
    change ("/" ++ n) with (String "/" n). simpl.
    now rewrite orb_true_r, orb_true_r.
Qed.

(** The base name of a path made by [join] is the segment joined on. *)
Lemma basename_join (d n : string) :
  hasSlash n = false → n ≠ "" → basename (join d n) = n.
Proof.
  intros Hn Hne. unfold basename, join.
  rewrite <- append_assoc.
  rewrite stripTrailingSlashes_append by assumption.
  rewrite append_assoc. now apply afterLastSlash_join.
Qed.

Lemma hasSlash_uint (d : Decimal.uint) :
  hasSlash (NilEmpty.string_of_uint d) = false.
Proof. induction d; simpl; auto. Qed.

Lemma hasSlash_numberToString (z : Z) : hasSlash (JS.numberToString z) = false.
Proof.
  unfold JS.numberToString, NilZero.string_of_int, NilZero.string_of_uint.
  destruct (Z.to_int z) as [d|d]; destruct d; simpl; auto using hasSlash_uint.
Qed.

Lemma join_inj (d n m : string) : join d n = join d m → n = m.
Proof.
  unfold join. intros H.
  apply (inj (String.append d)) in H.
  now apply (inj (String.append "/")) in H.
Qed.

Lemma append_neq_self (s t : string) : t ≠ "" → s ++ t ≠ s.
Proof.
  intros Ht H. apply (f_equal String.length) in H.
  rewrite length_append in H. destruct t; [now destruct Ht | simpl in H; lia].
Qed.

End PathFacts.

(** * Properties of quarantine, vault and restore *)

Module HoldingFacts.

Import Main Spec.

Lemma bind_run {A B} (m : M A) (k : A → M B) (w : World) :
  (m ≫= k) w
  = match m w with
    | (Ok a, w') => k a w'
    | (Throw e, w') => (Throw e, w')
    end.
Proof. reflexivity. Qed.

Lemma fileAt_lookup (d : gmap string Node) (p : string) (content : list byte) :
  fileAt d p = Some content ↔ d !! p = Some (File content).
Proof.
  unfold fileAt. destruct (d !! p) as [[c|]|]; split; congruence.
Qed.

(** ** The directories above a path *)

Lemma append_nil_r (s : string) : s ++ "" = s.
Proof.
  induction s as [|a s IH]; [reflexivity|].
  now rewrite PathFacts.append_cons, IH.
Qed.

Lemma ancestorsFrom_noSlash (pre n : string) :
  Path.hasSlash n = false → ancestorsFrom pre n = [].
Proof.
  revert pre. induction n as [|c n IH]; intros pre H; [reflexivity|].
  simpl in H. apply orb_false_elim in H as [Hc Hn].
  cbn [ancestorsFrom]. rewrite Hc. cbn [andb app]. now apply IH.
Qed.

Lemma ancestorsFrom_join (s : string) :
  ∀ pre n,
    Path.hasSlash n = false → pre ++ s ≠ "" →
    ancestorsFrom pre (s ++ "/" ++ n)
    = (ancestorsFrom pre s ++ [(pre ++ s)%string])%list.
Proof.
  induction s as [|c s IH]; intros pre n Hn Hne.
  - rewrite append_nil_r in *.
    change ("" ++ "/" ++ n) with (String "/" n).
    cbn [ancestorsFrom]. rewrite ancestorsFrom_noSlash by exact Hn.
    destruct (String.eqb_spec pre "") as [->|_]; [now destruct Hne|].
    reflexivity.
  - rewrite PathFacts.append_cons. cbn [ancestorsFrom].
    rewrite (IH (pre ++ String c "") n Hn).
    + rewrite PathFacts.append_assoc.
      change (String c "" ++ s) with (String c s).
      now rewrite app_assoc.
    + rewrite PathFacts.append_assoc. exact Hne.
Qed.

Lemma ancestors_join (hd n : string) :
  hd ≠ "" → Path.hasSlash n = false →
  ancestors (Path.join hd n) = lineage hd.
Proof.
  intros Hhd Hn. unfold ancestors, lineage, Path.join.
  now rewrite ancestorsFrom_join.
Qed.

Lemma parentOf_join (hd n : string) :
  hd ≠ "" → Path.hasSlash n = false → parentOf (Path.join hd n) = Some hd.
Proof.
  intros Hhd Hn. unfold parentOf. rewrite ancestors_join by assumption.
  apply last_snoc.
Qed.

Lemma ancestorsFrom_length (s : string) :
  ∀ pre q, In q (ancestorsFrom pre s) →
           (String.length q < String.length pre + String.length s)%nat.
Proof.
  induction s as [|c s IH]; intros pre q Hin; [destruct Hin|].
  cbn [ancestorsFrom] in Hin. apply in_app_or in Hin as [Hin|Hin].
  - destruct (_ && _); [|destruct Hin].
    destruct Hin as [<-|[]]. simpl. lia.
  - apply IH in Hin. rewrite PathFacts.length_append in Hin.
    simpl in *. lia.
Qed.

Lemma lineage_length (p q : string) :
  In q (lineage p) → (String.length q <= String.length p)%nat.
Proof.
  unfold lineage, ancestors. intros [Hin|[<-|[]]]%in_app_or; [|lia].
  apply ancestorsFrom_length in Hin. simpl in Hin. lia.
Qed.

(** What lies in a directory is not above it. *)
Lemma join_notin_lineage (hd n : string) : ¬ In (Path.join hd n) (lineage hd).
Proof.
  intros H%lineage_length. unfold Path.join in H.
  rewrite !PathFacts.length_append in H. simpl in H. lia.
Qed.

Lemma self_in_lineage (p : string) : In p (lineage p).
Proof. unfold lineage. apply in_or_app. right. now left. Qed.

Lemma withDirs_lookup_in (qs : list string) (d : gmap string Node) (q : string) :
  In q qs → withDirs qs d !! q = Some Directory.
Proof.
  induction qs as [|x qs IH]; intros Hin; [destruct Hin|]. simpl.
  destruct (decide (x = q)) as [->|Hne]; [apply lookup_insert_eq|].
  rewrite lookup_insert_ne by exact Hne. destruct Hin; [contradiction|auto].
Qed.

Lemma withDirs_lookup_out (qs : list string) (d : gmap string Node) (p : string) :
  ¬ In p qs → withDirs qs d !! p = d !! p.
Proof.
  induction qs as [|x qs IH]; intros Hout; [reflexivity|]. simpl.
  rewrite lookup_insert_ne by (intros ->; apply Hout; now left).
  apply IH. intros H. apply Hout. now right.
Qed.

Lemma existsb_isFile_false (d : gmap string Node) (qs : list string) (q : string) :
  existsb (isFile d) qs = false → In q qs → isFile d q = false.
Proof.
  intros H Hin. destruct (isFile d q) eqn:E; [|reflexivity].
  rewrite <- H. symmetry. apply existsb_exists. now exists q.
Qed.

(** Making directories where no regular file is in the way leaves every
    regular file as it was. *)
Lemma withDirs_fileAt (qs : list string) (d : gmap string Node) (p : string) :
  existsb (isFile d) qs = false →
  fileAt (withDirs qs d) p = fileAt d p.
Proof.
  intros Hfree. unfold fileAt.
  destruct (in_dec string_dec p qs) as [Hin|Hout].
  - rewrite withDirs_lookup_in by exact Hin.
    pose proof (existsb_isFile_false d qs p Hfree Hin) as Hp.
    unfold isFile in Hp. now destruct (d !! p) as [[c|]|].
  - now rewrite withDirs_lookup_out.
Qed.

Lemma holdingDir_nonempty (userData : string) (k : Kind) :
  holdingDir userData k ≠ "".
Proof.
  unfold holdingDir, Path.join. intros H.
  apply (f_equal String.length) in H.
  rewrite !PathFacts.length_append in H. simpl in H. lia.
Qed.

(** ** The holding directory *)

Lemma afterHoldingDir_clock (hd : string) (w : World) :
  clock (afterHoldingDir hd w) = clock w.
Proof.
  unfold afterHoldingDir. case_bool_decide; [reflexivity|].
  now destruct (existsb _ _).
Qed.

Lemma absent_lineage_free (d : gmap string Node) (hd : string) :
  d !! hd = None → existsb (isFile d) (ancestors hd) = false →
  existsb (isFile d) (lineage hd) = false.
Proof.
  intros Hhd Hfree. unfold lineage. rewrite existsb_app, Hfree. simpl.
  unfold isFile. now rewrite Hhd.
Qed.

Lemma not_is_Some_None {A} (o : option A) : ¬ is_Some o → o = None.
Proof. destruct o; [|reflexivity]. intros H. destruct H. now eexists. Qed.

(** Making sure the holding directory is there leaves every regular file
    as it was. *)
Lemma afterHoldingDir_fileAt (hd : string) (w : World) (p : string) :
  fileAt (disk (afterHoldingDir hd w)) p = fileAt (disk w) p.
Proof.
  unfold afterHoldingDir. case_bool_decide as E; [reflexivity|].
  destruct (existsb _ _) eqn:Hfree; [reflexivity|]. cbn [disk setDisk].
  apply withDirs_fileAt, absent_lineage_free; [|exact Hfree].
  now apply not_is_Some_None.
Qed.

Lemma afterHoldingDir_disk (hd : string) (w : World) :
  disk (afterHoldingDir hd w) = disk w
  ∨ (disk w !! hd = None
     ∧ disk (afterHoldingDir hd w) = withDirs (lineage hd) (disk w)).
Proof.
  unfold afterHoldingDir. case_bool_decide as E; [now left|].
  destruct (existsb _ _); [now left|].
  right. split; [now apply not_is_Some_None | reflexivity].
Qed.

(** It changes nothing but the holding directory and what is above it. *)
Lemma afterHoldingDir_lookup (hd p : string) (w : World) :
  ¬ In p (lineage hd) → disk (afterHoldingDir hd w) !! p = disk w !! p.
Proof.
  intros Hout. destruct (afterHoldingDir_disk hd w) as [->|[_ ->]];
    [reflexivity|]. now apply withDirs_lookup_out.
Qed.

Lemma afterHoldingDir_below (hd n : string) (w : World) :
  disk (afterHoldingDir hd w) !! Path.join hd n = disk w !! Path.join hd n.
Proof. apply afterHoldingDir_lookup, join_notin_lineage. Qed.

Lemma afterHoldingDir_there (hd : string) (w : World) :
  blocked (disk w) hd = false → is_Some (disk (afterHoldingDir hd w) !! hd).
Proof.
  unfold blocked, afterHoldingDir. case_bool_decide as E; [easy|].
  cbn [negb andb]. intros ->. cbn [disk setDisk].
  rewrite withDirs_lookup_in by apply self_in_lineage. now eexists.
Qed.

Lemma afterHoldingDir_log (hd : string) (w : World) :
  ∃ pre, log (afterHoldingDir hd w) = (log w ++ pre)%list
         ∧ Forall (λ e, isMoveOrWrite e = false) pre.
Proof.
  unfold afterHoldingDir. case_bool_decide.
  - exists [EvExists hd]. split; [reflexivity|]. repeat constructor.
  - exists [EvExists hd; EvMkdir hd].
    split; [|repeat constructor].
    destruct (existsb _ _); simpl; now rewrite <- app_assoc.
Qed.

Lemma storedSuffix_noSlash (k : Kind) : Path.hasSlash (storedSuffix k) = false.
Proof. now destruct k. Qed.

Lemma storedName_noSlash (k : Kind) (now : Z) (filePath ext : string) :
  Path.hasSlash ext = false →
  Path.hasSlash (storedName k now filePath ++ ext) = false.
Proof.
  intros Hext. unfold storedName.
  rewrite !PathFacts.hasSlash_append, PathFacts.hasSlash_numberToString,
    PathFacts.hasSlash_basename, storedSuffix_noSlash, Hext.
  reflexivity.
Qed.

Lemma storedName_longer (k : Kind) (now : Z) (filePath ext : string) :
  (String.length (Path.basename filePath)
   < String.length (storedName k now filePath ++ ext))%nat.
Proof.
  unfold storedName. rewrite !PathFacts.length_append. simpl. lia.
Qed.

(** A stored file and its side record never lie at the path the file came
    from. *)
Lemma stored_apart (userData : string) (k : Kind) (now : Z)
    (filePath ext : string) :
  Path.hasSlash ext = false →
  storedPathFor userData k now filePath ++ ext ≠ filePath.
Proof.
  intros Hext Heq.
  pose proof (storedName_longer k now filePath ext) as Hlen.
  unfold storedPathFor, Path.join in Heq.
  rewrite !PathFacts.append_assoc in Heq.
  assert (Hbase : Path.basename filePath = storedName k now filePath ++ ext).
  { rewrite <- Heq at 1. apply PathFacts.basename_join.
    - now apply storedName_noSlash.
    - intros H0. rewrite H0 in Hlen. simpl in Hlen. lia. }
  rewrite <- Hbase in Hlen. lia.
Qed.

Lemma storedPath_apart (userData : string) (k : Kind) (now : Z)
    (filePath : string) :
  storedPathFor userData k now filePath ≠ filePath.
Proof.
  intros H. apply (stored_apart userData k now filePath "" eq_refl).
  now rewrite append_nil_r.
Qed.

Lemma metadataPath_apart (userData : string) (k : Kind) (now : Z)
    (filePath : string) :
  metadataPathOf (storedPathFor userData k now filePath) ≠ filePath.
Proof. now apply stored_apart. Qed.

Lemma metadataPath_neq (sp : string) : metadataPathOf sp ≠ sp.
Proof. now apply PathFacts.append_neq_self. Qed.

(** The stored file and its side record lie right in the holding
    directory. *)
Lemma parentOf_storedPath (userData : string) (k : Kind) (now : Z)
    (filePath : string) :
  parentOf (storedPathFor userData k now filePath)
  = Some (holdingDir userData k).
Proof.
  unfold storedPathFor. apply parentOf_join; [apply holdingDir_nonempty|].
  rewrite <- (append_nil_r (storedName _ _ _)). now apply storedName_noSlash.
Qed.

Lemma parentOf_metadataPath (userData : string) (k : Kind) (now : Z)
    (filePath : string) :
  parentOf (metadataPathOf (storedPathFor userData k now filePath))
  = Some (holdingDir userData k).
Proof.
  unfold metadataPathOf, storedPathFor, Path.join.
  rewrite !PathFacts.append_assoc.
  apply (parentOf_join (holdingDir userData k)
           (storedName k now filePath ++ ".meta.json"));
    [apply holdingDir_nonempty | now apply storedName_noSlash].
Qed.

Lemma storedPath_not_dir (userData : string) (k : Kind) (now : Z)
    (filePath : string) :
  storedPathFor userData k now filePath ≠ holdingDir userData k.
Proof.
  unfold storedPathFor, Path.join. apply PathFacts.append_neq_self.
  discriminate.
Qed.

Lemma metadataPath_not_dir (userData : string) (k : Kind) (now : Z)
    (filePath : string) :
  metadataPathOf (storedPathFor userData k now filePath)
  ≠ holdingDir userData k.
Proof.
  unfold metadataPathOf, storedPathFor, Path.join.
  rewrite !PathFacts.append_assoc. apply PathFacts.append_neq_self.
  discriminate.
Qed.

Section Holding.

Variable userData : string.
Variable sha256 : list byte → string.
Variable toISOString : Z → string.
Variable JSON_stringify : Json.t → list byte.

Lemma getHoldingDir_run (k : Kind) (w : World) :
  let hd := holdingDir userData k in
  getHoldingDir userData k w
  = (if blocked (disk w) hd then Throw (ENOTDIR hd) else Ok hd,
     afterHoldingDir hd w).
Proof.
  unfold getHoldingDir, holdingDir, afterHoldingDir, blocked. run_prims. cbn.
  destruct (disk w !! Path.join userData (holdingDirName k))
    as [[c|]|] eqn:E; cbn; try reflexivity.
  rewrite E. now destruct (existsb _ _).
Qed.

(** What [place] does, case by case. *)
Lemma place_run (k : Kind) (filePath : string) (reason : option string)
    (w : World) :
  let hd := holdingDir userData k in
  let sp := storedPathFor userData k (clock w) filePath in
  let mp := metadataPathOf sp in
  let w1 := afterHoldingDir hd w in
  let w2 := logged w1 (EvHash filePath) in
  place userData sha256 toISOString JSON_stringify k filePath reason w
  = if blocked (disk w) hd then (Throw (ENOTDIR hd), w1)
    else
      match disk w1 !! filePath with
      | Some (File c) =>
          let data := JSON_stringify
                (metadataObject k filePath (Path.basename filePath)
                   (toISOString (clock w)) reason (sha256 c)) in
          let w3 := logged w2 (EvRename filePath sp) in
          match parentError (disk w1) filePath, parentError (disk w1) sp with
          | Some e, _ => (Throw e, w3)
          | None, Some e => (Throw e, w3)
          | None, None =>
              if isDir (disk w1) sp then (Throw (EISDIR sp), w3)
              else
                let w4 :=
                  setDisk (<[sp := File c]> (delete filePath (disk w1))) w3 in
                let w5 := logged w4 (EvWriteFile mp data) in
                if isDir (disk w4) mp then (Throw (EISDIR mp), w5)
                else (Ok sp, setDisk (<[mp := File data]> (disk w4)) w5)
          end
      | _ => (Throw (noFile (disk w1) filePath), w2)
      end.
Proof.
  intros hd sp mp w1 w2. unfold place.
  unfold mbind at 1, M_bind at 1. rewrite getHoldingDir_run. fold hd w1.
  destruct (blocked (disk w) hd); [reflexivity|].
  pose proof (afterHoldingDir_clock hd w) as Hc. fold w1 in Hc.
  pose proof (parentOf_storedPath userData k (clock w) filePath) as Hpsp.
  pose proof (parentOf_metadataPath userData k (clock w) filePath) as Hpmp.
  fold hd sp in Hpsp, Hpmp. fold mp in Hpmp.
  unfold getFileHash, Date_now. unfold mbind, M_bind, mret, M_ret, record,
    getDisk, throw. cbn [disk logged]. rewrite Hc.
  change (Path.join hd _) with sp. fold w2.
  destruct (disk w1 !! filePath) as [[c|]|] eqn:E; try reflexivity.
  unfold renameSync, writeFileSync.
  unfold mbind, M_bind, mret, M_ret, record, getDisk, putDisk, throw.
  cbn [disk logged setDisk log clock rngPos].
  change (disk w2) with (disk w1). rewrite E.
  change (sp +:+ ".meta.json") with mp.
  destruct (parentError (disk w1) filePath) as [e|]; [reflexivity|].
  destruct (parentError (disk w1) sp) as [e|] eqn:Esp; [reflexivity|].
  destruct (isDir (disk w1) sp); [reflexivity|].
  cbn [disk logged setDisk log clock rngPos].
  set (d4 := <[sp := File c]> (delete filePath (disk w1))).
  assert (Hhd : disk w1 !! hd = Some Directory).
  { unfold parentError in Esp. rewrite Hpsp in Esp.
    now destruct (disk w1 !! hd) as [[?|]|]. }
  assert (Hpar : parentError d4 mp = None).
  { unfold parentError. rewrite Hpmp. unfold d4.
    rewrite lookup_insert_ne by (apply storedPath_not_dir).
    rewrite lookup_delete_ne by congruence. now rewrite Hhd. }
  unfold isDir. destruct (d4 !! mp) as [[c'|]|]; try reflexivity.
  now rewrite Hpar.
Qed.

(** [place] changes nothing but the file, its stored copy, the side record
    of that copy, and the holding directory with what is above it. *)
Lemma place_frame (k : Kind) (filePath : string) (reason : option string)
    (w : World) (p : string) :
  let sp := storedPathFor userData k (clock w) filePath in
  p ≠ filePath → p ≠ sp → p ≠ metadataPathOf sp →
  ¬ In p (lineage (holdingDir userData k)) →
  disk (snd (place userData sha256 toISOString JSON_stringify k filePath
               reason w)) !! p
  = disk w !! p.
Proof.
  intros sp Hfile Hsp Hmp Hhd.
  rewrite place_run. cbv zeta. fold sp.
  pose proof (afterHoldingDir_lookup (holdingDir userData k) p w Hhd) as Hw1.
  destruct (blocked _ _); [exact Hw1|].
  destruct (disk (afterHoldingDir _ w) !! filePath) as [[c|]|]; cbn;
    try exact Hw1.
  destruct (parentError _ filePath); [exact Hw1|].
  destruct (parentError _ sp); [exact Hw1|].
  destruct (isDir _ sp); cbn; [exact Hw1|].
  destruct (isDir _ (metadataPathOf sp)); cbn.
  - rewrite lookup_insert_ne, lookup_delete_ne by congruence. exact Hw1.
  - rewrite !lookup_insert_ne, lookup_delete_ne by congruence. exact Hw1.
Qed.

Lemma digestFirst_shape (p : string) (pre post : list Event) :
  Forall (λ e, isMoveOrWrite e = false) pre →
  digestFirst p (pre ++ EvHash p :: post).
Proof.
  intros Hpre a e b. revert a.
  induction Hpre as [|x pre Hx Hpre IH]; intros [|y a] Heq He; simpl in Heq.
  - injection Heq as <- _. discriminate He.
  - injection Heq as <- _. now left.
  - injection Heq as <- _. congruence.
  - injection Heq as _ Heq. right. now apply IH.
Qed.

Lemma digestFirst_quiet (p : string) (tr : list Event) :
  Forall (λ e, isMoveOrWrite e = false) tr → digestFirst p tr.
Proof.
  intros Hq pre e post -> He.
  apply Forall_app in Hq as [_ Hq]. inversion Hq; subst. congruence.
Qed.

(** The digest cannot be taken exactly when no regular file is at the
    path. *)
Lemma getFileHash_throws (filePath : string) (w : World) :
  fileAt (disk w) filePath = None ↔
  ∃ e w', getFileHash sha256 filePath w = (Throw e, w').
Proof.
  unfold fileAt. run_prims. cbn.
  destruct (disk w !! filePath) as [[c|]|]; split; intros H;
    try discriminate H; try reflexivity;
    try (eexists _, _; reflexivity);
    destruct H as (e & w' & H); discriminate H.
Qed.

(** C4, amended.  Whatever [fs:quarantine] or [fs:vault] moves or writes,
    it does after it asked for the digest of the file.  When the digest
    cannot be taken the handler reports failure, has moved or written
    nothing and leaves every regular file as it was; the one change it may
    have made by then is that the holding directory, if it was missing, now
    exists, together with every directory above it that was missing. *)
Theorem place_digest_first_or_abort (k : Kind) (filePath : string)
    (reason : option string) (w : World) :
  let hd := holdingDir userData k in
  let run :=
    tryCatch (place userData sha256 toISOString JSON_stringify k filePath reason)
      w in
  ∃ tr,
    log (snd run) = (log w ++ tr)%list
    ∧ digestFirst filePath tr
    ∧ (fileAt (disk w) filePath = None →
       (∃ e, fst run = Failure e)
       ∧ Forall (λ e, isMoveOrWrite e = false) tr
       ∧ (∀ p, fileAt (disk (snd run)) p = fileAt (disk w) p)
       ∧ (disk (snd run) = disk w
          ∨ (disk w !! hd = None
             ∧ disk (snd run) = withDirs (lineage hd) (disk w)))).
Proof.
  intros hd run. subst run. unfold tryCatch. rewrite place_run. fold hd.
  destruct (afterHoldingDir_log hd w) as (pre & Hlog & Hpre).
  pose proof (afterHoldingDir_fileAt hd w) as Hfiles.
  pose proof (afterHoldingDir_disk hd w) as Hdisk.
  set (w1 := afterHoldingDir hd w) in *.
  assert (Habort : ∀ e tr,
    Forall (λ e, isMoveOrWrite e = false) tr →
    fileAt (disk w) filePath = None →
    (∃ e0, Failure (A:=string) e = Failure e0)
    ∧ Forall (λ e, isMoveOrWrite e = false) tr
    ∧ (∀ p, fileAt (disk w1) p = fileAt (disk w) p)
    ∧ (disk w1 = disk w
       ∨ (disk w !! hd = None ∧ disk w1 = withDirs (lineage hd) (disk w)))).
  { intros e tr Htr _. split; [now exists e|]. now repeat split. }
  assert (Hquiet : Forall (λ e, isMoveOrWrite e = false)
                     (pre ++ [EvHash filePath])).
  { apply Forall_app. split; [exact Hpre | repeat constructor]. }
  assert (Hfile : ∀ c, disk w1 !! filePath = Some (File c) →
                       fileAt (disk w) filePath = None → False).
  { intros c E Hnone. rewrite <- Hfiles in Hnone. unfold fileAt in Hnone.
    now rewrite E in Hnone. }
  destruct (blocked (disk w) hd).
  { exists pre. cbn [fst snd]. split; [exact Hlog|].
    split; [now apply digestFirst_quiet|]. now apply Habort. }
  destruct (disk w1 !! filePath) as [[c|]|] eqn:E; cbn zeta.
  - assert (Hmoved : ∀ (r : Response string) w3 post,
              log w3 = (log w1 ++ EvHash filePath :: post)%list →
              ∃ tr, log (snd (r, w3)) = (log w ++ tr)%list
                    ∧ digestFirst filePath tr
                    ∧ (fileAt (disk w) filePath = None →
                       (∃ e, fst (r, w3) = Failure e)
                       ∧ Forall (λ e, isMoveOrWrite e = false) tr
                       ∧ (∀ p, fileAt (disk (snd (r, w3))) p
                               = fileAt (disk w) p)
                       ∧ (disk (snd (r, w3)) = disk w
                          ∨ (disk w !! hd = None
                             ∧ disk (snd (r, w3))
                               = withDirs (lineage hd) (disk w))))).
    { intros r w3 post Hw3. exists (pre ++ EvHash filePath :: post)%list.
      cbn [snd]. rewrite Hw3, Hlog, <- app_assoc.
      split; [reflexivity|]. split; [now apply digestFirst_shape|].
      intros Hnone. destruct (Hfile c eq_refl Hnone). }
    destruct (parentError (disk w1) filePath) as [e|];
      [eapply Hmoved; cbn; rewrite <- ?app_assoc; reflexivity|].
    destruct (parentError (disk w1) _) as [e|];
      [eapply Hmoved; cbn; rewrite <- ?app_assoc; reflexivity|].
    destruct (isDir (disk w1) _);
      [eapply Hmoved; cbn; rewrite <- ?app_assoc; reflexivity|].
    destruct (isDir _ (metadataPathOf _));
      eapply Hmoved; cbn; rewrite <- ?app_assoc; reflexivity.
  - exists (pre ++ [EvHash filePath])%list.
    cbn [fst snd logged log]. rewrite Hlog, <- app_assoc.
    split; [reflexivity|]. split; [now apply digestFirst_shape|].
    now apply Habort.
  - exists (pre ++ [EvHash filePath])%list.
    cbn [fst snd logged log]. rewrite Hlog, <- app_assoc.
    split; [reflexivity|]. split; [now apply digestFirst_shape|].
    now apply Habort.
Qed.

End Holding.

Lemma place_digest_first_or_abort_witness :
  fileAt (disk Sample.world0) "/home/ana/missing.doc" = None
  ∧ ∃ e, fst (fs_vault Sample.userData Sample.digest Sample.isoTime
                Sample.stringify "/home/ana/missing.doc" None Sample.world0)
         = Failure e.
Proof.
  assert (H : fileAt (disk Sample.world0) "/home/ana/missing.doc" = None)
    by reflexivity.
  split; [exact H|].
  destruct (place_digest_first_or_abort Sample.userData Sample.digest
              Sample.isoTime Sample.stringify Vault "/home/ana/missing.doc"
              None Sample.world0) as (tr & _ & _ & Habort).
  exact (proj1 (Habort H)).
Defined.

(** C4 as it was written fails: a digest that cannot be taken still leaves
    a change on the disk when the holding directory did not exist; here
    three directories are new. *)
Lemma place_digest_failure_changes_disk :
  let run := fs_quarantine Sample.userData Sample.digest Sample.isoTime
               Sample.stringify "/home/ana/missing.doc" (Some "flagged")
               Sample.world0 in
  fileAt (disk Sample.world0) "/home/ana/missing.doc" = None
  ∧ fst run = Failure (ENOENT "/home/ana/missing.doc")
  ∧ disk (snd run) ≠ disk Sample.world0
  ∧ disk (snd run)
    = <["/home/ana/.config" := Directory]>
        (<["/home/ana/.config/Barricade" := Directory]>
           (<["/home/ana/.config/Barricade/Quarantine" := Directory]>
              (disk Sample.world0))).
Proof.
  cbv zeta. split; [reflexivity|]. split; [vm_compute; reflexivity|].
  split.
  - intros H.
    apply (f_equal (λ d, d !! "/home/ana/.config/Barricade/Quarantine")) in H.
    vm_compute in H. discriminate H.
  - apply map_eq. intros p.
    apply (f_equal (λ d : gmap string Node, d !! p)).
    vm_compute. reflexivity.
Qed.

Section RoundTrip.

Variable userData : string.
Variable sha256 : list byte → string.
Variable toISOString : Z → string.
Variable JSON_stringify : Json.t → list byte.
Variable JSON_parse : list byte → option Json.t.

(** [JSON.parse] reads back the metadata object [JSON.stringify] wrote. *)
Hypothesis parse_stringify : ∀ k filePath fileName stamp reason digest,
  JSON_parse (JSON_stringify
                (metadataObject k filePath fileName stamp reason digest))
  = Some (metadataObject k filePath fileName stamp reason digest).

(** The world a successful [place] leaves. *)
Lemma place_success (k : Kind) (filePath : string) (reason : option string)
    (w : World) (storedPath : string) (w1 : World) :
  place userData sha256 toISOString JSON_stringify k filePath reason w
  = (Ok storedPath, w1) →
  ∃ content d,
    fileAt (disk w) filePath = Some content
    ∧ storedPath = storedPathFor userData k (clock w) filePath
    ∧ disk w1
      = <[metadataPathOf storedPath :=
            File (JSON_stringify
                    (metadataObject k filePath (Path.basename filePath)
                       (toISOString (clock w)) reason (sha256 content)))]>
          (<[storedPath := File content]> (delete filePath d))
    ∧ d !! filePath = Some (File content)
    ∧ d !! holdingDir userData k = Some Directory
    ∧ parentError d filePath = None
    ∧ isDir d storedPath = false
    ∧ isDir (<[storedPath := File content]> (delete filePath d))
        (metadataPathOf storedPath) = false.
Proof.
  rewrite place_run. cbv zeta.
  pose proof (afterHoldingDir_fileAt (holdingDir userData k) w filePath) as Hf.
  pose proof (parentOf_storedPath userData k (clock w) filePath) as Hpsp.
  destruct (blocked _ _); [discriminate|].
  destruct (disk (afterHoldingDir _ w) !! filePath) as [[c|]|] eqn:E;
    try discriminate.
  destruct (parentError _ filePath) eqn:Epf; [discriminate|].
  destruct (parentError _ (storedPathFor _ _ _ _)) eqn:Eps; [discriminate|].
  destruct (isDir _ (storedPathFor _ _ _ _)) eqn:Ed1; [discriminate|].
  destruct (isDir _ (metadataPathOf _)) eqn:Ed2; [discriminate|].
  intros [= <- <-].
  exists c, (disk (afterHoldingDir (holdingDir userData k) w)).
  split; [rewrite <- Hf; now apply fileAt_lookup|].
  split; [reflexivity|]. split; [reflexivity|]. split; [exact E|].
  split; [|now repeat split].
  unfold parentError in Eps. rewrite Hpsp in Eps.
  now destruct (disk _ !! holdingDir userData k) as [[?|]|].
Qed.

(** C1.  When [fs:quarantine] or [fs:vault] has put a file into holding,
    restoring the stored entry succeeds and puts a file with the content
    of the original at the original path; its digest is the digest the
    side record took down when the file was placed, and the stored file
    and its side record are gone. *)
Theorem place_restore_roundtrip (k : Kind) (filePath : string)
    (reason : option string) (w : World) (storedPath : string) (w1 : World) :
  tryCatch (place userData sha256 toISOString JSON_stringify k filePath reason)
    w = (Success storedPath, w1) →
  ∃ content w2,
    fileAt (disk w) filePath = Some content
    ∧ fileAt (disk w1) (metadataPathOf storedPath)
      = Some (JSON_stringify
                (metadataObject k filePath (Path.basename filePath)
                   (toISOString (clock w)) reason (sha256 content)))
    ∧ tryCatch (restoreFrom JSON_parse storedPath) w1 = (Success filePath, w2)
    ∧ fileAt (disk w2) filePath = Some content
    ∧ fst (getFileHash sha256 filePath w2) = Ok (sha256 content)
    ∧ disk w2 !! storedPath = None
    ∧ disk w2 !! metadataPathOf storedPath = None.
Proof.
  unfold tryCatch at 1.
  destruct (place _ _ _ _ _ _ _ w) as [[sp|e] w1'] eqn:Hplace;
    [|discriminate].
  intros [= -> ->].
  destruct (place_success _ _ _ _ _ _ Hplace)
    as (c & d & Hc & Hsp & Hdisk & Hd & Hhd & Hpf & Hd1 & Hd2).
  pose proof (storedPath_apart userData k (clock w) filePath) as Hne1.
  pose proof (metadataPath_apart userData k (clock w) filePath) as Hne2.
  pose proof (metadataPath_neq storedPath) as Hne3.
  pose proof (parentOf_storedPath userData k (clock w) filePath) as Hpsp.
  pose proof (storedPath_not_dir userData k (clock w) filePath) as Hne4.
  pose proof (metadataPath_not_dir userData k (clock w) filePath) as Hne5.
  rewrite <- Hsp in Hne1, Hne2, Hpsp, Hne4, Hne5.
  set (hd := holdingDir userData k) in *.
  set (mp := metadataPathOf storedPath) in *.
  set (data := JSON_stringify _) in *.
  assert (Hmp : disk w1 !! mp = Some (File data)).
  { rewrite Hdisk. apply lookup_insert_eq. }
  assert (Hstored : disk w1 !! storedPath = Some (File c)).
  { rewrite Hdisk, lookup_insert_ne by exact Hne3. apply lookup_insert_eq. }
  assert (Horig : disk w1 !! filePath = None).
  { rewrite Hdisk, !lookup_insert_ne by congruence. apply lookup_delete_eq. }
  assert (Hkept : ∀ q, d !! q = Some Directory → disk w1 !! q = Some Directory).
  { intros q Hq. rewrite Hdisk.
    assert (q ≠ mp).
    { intros ->. unfold isDir in Hd2.
      destruct (decide (mp = storedPath)) as [Heq|Hn]; [now apply Hne3 in Heq|].
      rewrite lookup_insert_ne in Hd2 by congruence.
      destruct (decide (mp = filePath)) as [Heq|Hn2]; [now apply Hne2 in Heq|].
      rewrite lookup_delete_ne in Hd2 by congruence.
      now rewrite Hq in Hd2. }
    assert (q ≠ storedPath).
    { intros ->. unfold isDir in Hd1. now rewrite Hq in Hd1. }
    assert (q ≠ filePath) by congruence.
    rewrite !lookup_insert_ne by congruence.
    now rewrite lookup_delete_ne by congruence. }
  assert (Hps : parentError (disk w1) storedPath = None).
  { unfold parentError. rewrite Hpsp. now rewrite (Hkept hd Hhd). }
  assert (Hpo : parentError (disk w1) filePath = None).
  { unfold parentError in *. destruct (parentOf filePath) as [q|]; [|reflexivity].
    destruct (d !! q) as [[?|]|] eqn:Eq; try discriminate.
    now rewrite (Hkept q Eq). }
  exists c.
  eexists (setDisk (delete mp (<[filePath := File c]> (delete storedPath (disk w1)))) _).
  split; [exact Hc|].
  split; [now apply fileAt_lookup|].
  split.
  { unfold tryCatch, restoreFrom, parseJSON, originalPathOf. run_prims.
    cbn. change (storedPath +:+ ".meta.json") with mp.
    rewrite Hmp. subst data. rewrite parse_stringify.
    cbn. rewrite Hstored, Hps, Hpo. unfold isDir. rewrite Horig. cbn.
    rewrite lookup_insert_ne by congruence.
    rewrite lookup_delete_ne by congruence.
    rewrite Hmp. cbn. reflexivity. }
  assert (Hback : delete mp (<[filePath := File c]> (delete storedPath (disk w1)))
                    !! filePath = Some (File c)).
  { rewrite lookup_delete_ne by congruence. apply lookup_insert_eq. }
  split; [now apply fileAt_lookup|].
  split.
  { run_prims. cbn.
    now rewrite Hback. }
  split; cbn.
  - rewrite lookup_delete_ne by congruence.
    rewrite lookup_insert_ne by congruence. apply lookup_delete_eq.
  - apply lookup_delete_eq.
Qed.

End RoundTrip.

Lemma ofBits_bitsOf (p : positive) : Sample.ofBits (Sample.bitsOf p) = Some p.
Proof. induction p as [p IH|p IH|]; simpl; try rewrite IH; reflexivity. Qed.

Lemma sample_parse_stringify k filePath fileName stamp reason digest :
  Sample.parse (Sample.stringify
                  (metadataObject k filePath fileName stamp reason digest))
  = Some (metadataObject k filePath fileName stamp reason digest).
Proof.
  unfold Sample.parse, Sample.stringify.
  rewrite ofBits_bitsOf, decode_encode.
  now destruct reason.
Qed.

Lemma place_restore_roundtrip_witness :
  let stored :=
    "/home/ana/.config/Barricade/Quarantine/1700000000000_report.pdf.quarantined" in
  let placed := fs_quarantine Sample.userData Sample.digest Sample.isoTime
                  Sample.stringify "/home/ana/report.pdf" (Some "flagged")
                  Sample.world0 in
  placed = (Success stored, snd placed)
  ∧ ∃ content w2,
      fileAt (disk Sample.world0) "/home/ana/report.pdf" = Some content
      ∧ fs_restore Sample.parse stored (snd placed)
        = (Success "/home/ana/report.pdf", w2)
      ∧ fileAt (disk w2) "/home/ana/report.pdf" = Some content.
Proof.
  intros stored placed.
  assert (H : placed = (Success stored, snd placed))
    by (vm_compute; reflexivity).
  split; [exact H|].
  destruct (place_restore_roundtrip Sample.userData Sample.digest
              Sample.isoTime Sample.stringify Sample.parse
              sample_parse_stringify Quarantine "/home/ana/report.pdf"
              (Some "flagged") Sample.world0 stored (snd placed) H)
    as (content & w2 & H1 & _ & H3 & H4 & _).
  exists content, w2. repeat split; assumption.
Defined.

End HoldingFacts.

(** * Properties of the shredder *)

Module ShredFacts.

Import Main Spec.

Section Shred.

Variable randomSource : nat → byte.
Variable dirSize : Z.

(** C5, amended.  For every regular file of at most [2**31 - 1] bytes,
    empty or not, [fs:shred] makes exactly three overwrite passes, each of
    which takes a buffer of exactly the size of the file from
    [crypto.randomBytes] and writes it over the file, and it unlinks the
    file after the third pass. *)
Theorem shred_three_passes (filePath : string) (content : list byte)
    (w : World) :
  fileAt (disk w) filePath = Some content →
  (Z.of_nat (length content) <= 2 ^ 31 - 1)%Z →
  let n := length content in
  let size := Z.of_nat n in
  let pass (i : nat) := map randomSource (seq (rngPos w + i * n) n) in
  ∃ w',
    fs_shred randomSource dirSize filePath w = (Success (), w')
    ∧ log w'
      = (log w ++ [EvStat filePath;
                   EvRandomBytes size; EvWriteFile filePath (pass 0%nat);
                   EvRandomBytes size; EvWriteFile filePath (pass 1%nat);
                   EvRandomBytes size; EvWriteFile filePath (pass 2%nat);
                   EvUnlink filePath])%list
    ∧ length (pass 0%nat) = n ∧ length (pass 1%nat) = n
    ∧ length (pass 2%nat) = n
    ∧ disk w' = delete filePath (disk w).
Proof.
  intros Hfile Hmax n size pass.
  pose proof (proj1 (HoldingFacts.fileAt_lookup _ _ _) Hfile) as Hlook.
  assert (Hrange : (Z.of_nat (length content) <? 0)%Z
                   || (2 ^ 31 - 1 <? Z.of_nat (length content))%Z = false).
  { apply orb_false_intro; [apply Z.ltb_ge | apply Z.ltb_ge]; lia. }
  eexists. split.
  { unfold fs_shred, tryCatch, shred, forEach. run_prims. unfold isDir.
    repeat first [rewrite Hlook | rewrite lookup_insert_eq | rewrite Hrange
                 | progress cbn -[Z.ltb Z.pow Z.sub]].
    reflexivity. }
  cbn. rewrite Nat2Z.id. fold n.
  split.
  { rewrite <- !app_assoc. cbn. subst pass. cbn.
    now rewrite Nat.add_0_r, (Nat.add_0_r n), Nat.add_assoc. }
  subst pass. cbv beta. rewrite !length_map, !length_seq.
  repeat split.
  now rewrite !delete_insert_eq.
Qed.

End Shred.

Lemma shred_three_passes_witness :
  fileAt (disk Sample.world0) "/home/ana/report.pdf"
  = Some (list_byte_of_string "%PDF-1.7 report")
  ∧ ∃ w', fs_shred Sample.randomSource Sample.dirSize "/home/ana/report.pdf"
            Sample.world0 = (Success (), w')
          ∧ disk w' = delete "/home/ana/report.pdf" (disk Sample.world0).
Proof.
  assert (H : fileAt (disk Sample.world0) "/home/ana/report.pdf"
              = Some (list_byte_of_string "%PDF-1.7 report")) by reflexivity.
  split; [exact H|].
  destruct (shred_three_passes Sample.randomSource Sample.dirSize
              "/home/ana/report.pdf" _ Sample.world0 H)
    as (w' & Hrun & _ & _ & _ & _ & Hdisk); [vm_compute; discriminate|].
  exists w'. split; assumption.
Defined.

(** C5 as it was written fails on its last part: for a file of no bytes the
    loop is not skipped, its three passes run with empty buffers. *)
Lemma shred_empty_file_not_skipped :
  let run := fs_shred Sample.randomSource Sample.dirSize "/home/ana/empty.log"
               Sample.world0 in
  fileAt (disk Sample.world0) "/home/ana/empty.log" = Some []
  ∧ log (snd run)
    = [EvStat "/home/ana/empty.log";
       EvRandomBytes 0; EvWriteFile "/home/ana/empty.log" [];
       EvRandomBytes 0; EvWriteFile "/home/ana/empty.log" [];
       EvRandomBytes 0; EvWriteFile "/home/ana/empty.log" [];
       EvUnlink "/home/ana/empty.log"]
  ∧ ¬ skipsOverwriteLoop (log (snd run)).
Proof.
  cbv zeta. split; [reflexivity|].
  assert (Hlog : log (snd (fs_shred Sample.randomSource Sample.dirSize
                             "/home/ana/empty.log" Sample.world0))
                 = [EvStat "/home/ana/empty.log";
                    EvRandomBytes 0; EvWriteFile "/home/ana/empty.log" [];
                    EvRandomBytes 0; EvWriteFile "/home/ana/empty.log" [];
                    EvRandomBytes 0; EvWriteFile "/home/ana/empty.log" [];
                    EvUnlink "/home/ana/empty.log"])
    by (vm_compute; reflexivity).
  split; [exact Hlog|].
  rewrite Hlog. unfold skipsOverwriteLoop. intros H.
  inversion H as [|? ? _ H1]. inversion H1 as [|? ? Hrand _].
  discriminate Hrand.
Qed.

End ShredFacts.

(** * Properties of the listings *)

Module ListingFacts.

Import Main Spec.

Lemma dropPrefix_Some (pre s r : string) :
  dropPrefix pre s = Some r → s = pre ++ r.
Proof.
  revert s. induction pre as [|a pre IH]; intros s H; simpl in H.
  - now injection H as ->.
  - destruct s as [|b s]; [discriminate|].
    destruct (Ascii.eqb_spec a b) as [->|]; [|discriminate].
    rewrite PathFacts.append_cons. f_equal. now apply IH.
Qed.

Lemma entryName_Some (hd k n : string) :
  entryName hd k = Some n → k = Path.join hd n.
Proof.
  unfold entryName.
  destruct (dropPrefix (hd ++ "/") k) as [[|c r]|] eqn:E; try discriminate.
  destruct (Path.hasSlash (String c r)); [discriminate|].
  intros [= <-]. apply dropPrefix_Some in E.
  now rewrite PathFacts.append_assoc in E.
Qed.

(** Every name [fs.readdirSync] returns belongs to something on the disk. *)
Lemma readdir_names_exist (hd : string) (d : gmap string Node) (n : string) :
  n ∈ omap (entryName hd) ((map_to_list d).*1) → is_Some (d !! Path.join hd n).
Proof.
  intros (k & Hk & Hn)%list_elem_of_omap.
  apply entryName_Some in Hn as <-.
  apply list_elem_of_fmap in Hk as ([k' node] & -> & Hk).
  apply elem_of_map_to_list in Hk. now exists node.
Qed.

Lemma assoc_setField (k : string) (v : Json.t) (fields : list (string * Json.t)) :
  Json.assoc k (Json.setField k v fields) = Some v.
Proof.
  induction fields as [|[k' v'] fields IH]; simpl.
  - now rewrite String.eqb_refl.
  - destruct (String.eqb k k') eqn:E; simpl.
    + now rewrite String.eqb_refl.
    + now rewrite E.
Qed.

Section Listing.

Variable userData : string.
Variable JSON_parse : list byte → option Json.t.

(** A round of the loop leaves the disk alone; it either keeps the listing
    or adds the entry of a stored file whose side record it has read. *)
Lemma listStep_inv (k : Kind) (hd : string)
    (listed : list (list (string * Json.t))) (file : string) (w : World)
    (listed' : list (list (string * Json.t))) (w' : World) :
  listStep JSON_parse k hd listed file w = (Ok listed', w') →
  disk w' = disk w
  ∧ (listed' = listed
     ∨ ∃ text metadata,
         JS.endsWith file (storedSuffix k) = true
         ∧ disk w !! Path.join hd (file ++ ".meta.json") = Some (File text)
         ∧ JSON_parse text = Some metadata
         ∧ listed' = (listed ++ [Json.setField (storedPathKey k)
                                   (Json.JString (Path.join hd file))
                                   (Json.spread metadata)])%list).
Proof.
  unfold listStep.
  destruct (JS.endsWith file ".meta.json").
  { intros [= <- <-]. now split; [|left]. }
  destruct (JS.endsWith file (storedSuffix k)) eqn:Esuf; simpl.
  2:{ intros [= <- <-]. now split; [|left]. }
  unfold parseJSON. run_prims. cbn.
  destruct (disk w !! Path.join hd (file +:+ ".meta.json")) as [[text|]|] eqn:E;
    cbn; try rewrite E; cbn; try discriminate.
  - destruct (JSON_parse text) as [metadata|] eqn:Ep; cbn; [|discriminate].
    intros [= <- <-]. split; [reflexivity|]. right.
    now exists text, metadata.
  - intros [= <- <-]. now split; [|left].
Qed.

Lemma foldM_listStep_inv (k : Kind) (hd : string) (names : list string) :
  ∀ listed w listed' w',
    Forall (λ n, is_Some (disk w !! Path.join hd n)) names →
    Forall (surfaced JSON_parse k hd (disk w)) listed →
    foldM (listStep JSON_parse k hd) listed names w = (Ok listed', w') →
    Forall (surfaced JSON_parse k hd (disk w)) listed'.
Proof.
  induction names as [|file names IH]; intros listed w listed' w' Hn Hl Hrun.
  - injection Hrun as <- _. exact Hl.
  - simpl in Hrun. rewrite HoldingFacts.bind_run in Hrun.
    destruct (listStep _ _ _ _ file w) as [[listed1|e] w1] eqn:Hstep;
      [|discriminate].
    apply listStep_inv in Hstep as [Hdisk Hstep].
    inversion Hn as [|? ? Hfile Hn']; subst.
    rewrite <- Hdisk in Hn', Hl, Hfile, Hstep |- *.
    apply (IH listed1 w1 listed' w'); [exact Hn' | | exact Hrun].
    destruct Hstep as [->|(text & metadata & Hsuf & Hmeta & Hp & ->)];
      [exact Hl|].
    apply Forall_app. split; [exact Hl|].
    constructor; [|constructor].
    now exists file, text, metadata.
Qed.

Lemma surfaced_before (k : Kind) (w : World)
    (entry : list (string * Json.t)) :
  let hd := holdingDir userData k in
  surfaced JSON_parse k hd (disk (afterHoldingDir hd w)) entry →
  surfaced JSON_parse k hd (disk w) entry.
Proof.
  intros hd (file & text & metadata & Hc & Hsuf & Hm & Hp & He).
  exists file, text, metadata.
  rewrite HoldingFacts.afterHoldingDir_below in Hc, Hm.
  now repeat split.
Qed.

Lemma listHolding_surfaced (k : Kind) (w : World)
    (entry : list (string * Json.t)) :
  In entry (fst (orEmpty (listHolding userData JSON_parse k) w)) →
  surfaced JSON_parse k (holdingDir userData k) (disk w) entry.
Proof.
  unfold orEmpty, listHolding.
  rewrite HoldingFacts.bind_run, HoldingFacts.getHoldingDir_run. cbv zeta.
  set (hd := holdingDir userData k). set (w1 := afterHoldingDir hd w).
  destruct (blocked (disk w) hd); [contradiction|].
  rewrite HoldingFacts.bind_run.
  run_prims. cbn.
  destruct (disk w1 !! hd) as [[c|]|] eqn:E; cbn; try contradiction.
  destruct (foldM _ _ _ _) as [[listed|e] w2] eqn:Hrun; cbn; [|contradiction].
  intros Hin. apply (surfaced_before k w).
  apply foldM_listStep_inv in Hrun.
  - rewrite Forall_forall in Hrun. apply Hrun. now apply list_elem_of_In.
  - apply Forall_forall. intros n Hn. cbn.
    now apply readdir_names_exist.
  - constructor.
Qed.

(** C8.  Whatever the disk holds, an entry of the listing of the
    quarantine or of the vault stands for a stored file that is in the
    holding directory together with its side record; a stored file whose
    side record is missing has no entry. *)
Theorem listing_pairs_only (k : Kind) (w : World) :
  let hd := holdingDir userData k in
  let listing := fst (orEmpty (listHolding userData JSON_parse k) w) in
  (∀ entry, In entry listing → surfaced JSON_parse k hd (disk w) entry)
  ∧ (∀ file,
       disk w !! Path.join hd (file ++ ".meta.json") = None →
       ∀ entry, In entry listing →
         Json.assoc (storedPathKey k) entry
         ≠ Some (Json.JString (Path.join hd file))).
Proof.
  intros hd listing. split.
  - intros entry. apply listHolding_surfaced.
  - intros file Horphan entry Hin Hkey.
    apply listHolding_surfaced in Hin
      as (file' & text & metadata & _ & _ & Hm & _ & ->).
    rewrite assoc_setField in Hkey. injection Hkey as Hkey.
    apply PathFacts.join_inj in Hkey as ->.
    fold hd in Hm. congruence.
Qed.

End Listing.

Lemma listing_pairs_only_witness :
  let listing := fst (fs_list_vault Sample.userData Sample.parse Sample.world1) in
  let kept := Json.setField "vaultedPath"
                (Json.JString (Sample.vaultDir ++ "/1700000000000_taxes.xlsx.vault"))
                (Json.spread Sample.taxesRecord) in
  In kept listing
  ∧ surfaced Sample.parse Vault Sample.vaultDir (disk Sample.world1) kept
  ∧ disk Sample.world1
      !! Path.join Sample.vaultDir ("1700000000500_orphan.txt.vault" ++ ".meta.json")
    = None
  ∧ ∀ entry, In entry listing →
      Json.assoc "vaultedPath" entry
      ≠ Some (Json.JString
                (Path.join Sample.vaultDir "1700000000500_orphan.txt.vault")).
Proof.
  intros listing kept.
  assert (Hin : In kept listing) by (vm_compute; left; reflexivity).
  assert (Horphan : disk Sample.world1
      !! Path.join Sample.vaultDir ("1700000000500_orphan.txt.vault" ++ ".meta.json")
    = None) by (vm_compute; reflexivity).
  destruct (listing_pairs_only Sample.userData Sample.parse Vault Sample.world1)
    as [Hpairs Horphans].
  split; [exact Hin|]. split; [exact (Hpairs kept Hin)|].
  split; [exact Horphan|].
  exact (Horphans "1700000000500_orphan.txt.vault" Horphan).
Defined.

End ListingFacts.

(** * Properties of the deep scan *)

Module ForensicFacts.

Import Main Spec.

Lemma lastIndexFrom_skip (needle pre rest : list byte) :
  ∀ i found, ∃ found',
    lastIndexFrom needle (pre ++ rest) i found
    = lastIndexFrom needle rest (i + Z.of_nat (length pre)) found'.
Proof.
  induction pre as [|b pre IH]; intros i found.
  - exists found. simpl. now rewrite Z.add_0_r.
  - simpl app. cbn [lastIndexFrom].
    destruct (IH (i + 1)%Z
                (if startsWithBytes needle (b :: pre ++ rest) then i else found))
      as (found' & ->).
    exists found'. f_equal. simpl length. lia.
Qed.

Lemma lastIndexFrom_absent (needle buffer : list byte) :
  includesBytes buffer needle = false →
  ∀ i found, lastIndexFrom needle buffer i found = found.
Proof.
  induction buffer as [|b buffer IH]; simpl; intros H i found.
  - rewrite orb_false_r in H. now rewrite H.
  - apply orb_false_elim in H as [H1 H2]. rewrite H1. now apply IH.
Qed.

(** An end marker with no end marker after it is the one [lastIndexOf]
    finds. *)
Lemma lastIndexOf_last_marker (pre tail : list byte) :
  includesBytes tail [xff; xd9] = false →
  lastIndexOf (pre ++ [xff; xd9] ++ tail) [xff; xd9] = Z.of_nat (length pre).
Proof.
  intros Habsent. unfold lastIndexOf.
  destruct (lastIndexFrom_skip [xff; xd9] pre ([xff; xd9] ++ tail) 0 (-1))
    as (found & ->).
  simpl app. cbn [lastIndexFrom startsWithBytes Byte.eqb]. simpl.
  now rewrite lastIndexFrom_absent.
Qed.

Lemma entropyStep_zero (log2 : float → float) (len : Z) (counts : list Z) :
  Forall (λ c, c = 0%Z) counts →
  ∀ acc, foldl (entropyStep log2 len) acc counts = acc.
Proof.
  induction 1 as [|c counts -> _ IH]; intros acc; [reflexivity|].
  simpl. apply IH.
Qed.

Lemma entropyStep_divisors (log2 : float → float) (len : Z) (counts : list Z) :
  ∀ acc, Forall (λ d, d = len) (snd acc) →
         Forall (λ d, d = len) (snd (foldl (entropyStep log2 len) acc counts)).
Proof.
  induction counts as [|c counts IH]; intros acc Hacc; [exact Hacc|].
  simpl. apply IH. unfold entropyStep.
  destruct (0 <? c)%Z; [|exact Hacc].
  simpl. apply Forall_app. split; [exact Hacc | now constructor].
Qed.

Lemma byteCounts_nil : Forall (λ c, c = 0%Z) (byteCounts []).
Proof.
  change (byteCounts []) with (replicate 256 0%Z).
  apply Forall_forall. now intros c [-> _]%elem_of_replicate.
Qed.

Section Forensic.

Variable Math_log2 : float → float.
Variable toFixed2 : float → string.
Variable dirSize : Z.
Variable toISOString : Z → string.

Lemma entropyLoop_nil : entropyLoop Math_log2 [] = (0%float, []).
Proof. unfold entropyLoop. apply entropyStep_zero, byteCounts_nil. Qed.

(** No division of the entropy loop has a zero divisor. *)
Lemma entropyLoop_divisors (buffer : list byte) :
  Forall (λ d, d ≠ 0%Z) (snd (entropyLoop Math_log2 buffer)).
Proof.
  destruct buffer as [|b buffer].
  - rewrite entropyLoop_nil. constructor.
  - unfold entropyLoop.
    eapply Forall_impl.
    + apply entropyStep_divisors. constructor.
    + intros d ->. simpl length. lia.
Qed.

Lemma checkStrings_nil (v : Verdict) : checkStrings [] v = v.
Proof. reflexivity. Qed.

Lemma analyse_nil (ext : string) :
  analyse Math_log2 ext [] = ([], ThreatDetector.safe).
Proof.
  unfold analyse, entropyOf. rewrite entropyLoop_nil. simpl fst.
  unfold checkEntropy, checkJpeg, checkPng.
  cbn [PrimFloat.ltb]. simpl.
  destruct (String.eqb ext ".jpg" || String.eqb ext ".jpeg");
    destruct (String.eqb ext ".png"); reflexivity.
Qed.

(** The scan of a regular file within the size cap. *)
Lemma deepScan_run (filePath : string) (buffer : list byte) (w : World) :
  fileAt (disk w) filePath = Some buffer →
  (Z.of_nat (length buffer) <= 10 * 1024 * 1024)%Z →
  fs_deep_scan Math_log2 toFixed2 dirSize toISOString filePath w
  = (Success
       {| findings :=
            fst (analyse Math_log2 (JS.toLowerCase (Path.extname filePath)) buffer);
          threatLevel :=
            snd (analyse Math_log2 (JS.toLowerCase (Path.extname filePath)) buffer);
          entropy := toFixed2 (entropyOf Math_log2 buffer);
          timestamp := toISOString (clock w) |},
     logged (logged (logged w (EvExists filePath)) (EvStat filePath))
       (EvReadFile filePath)).
Proof.
  intros Hfile Hsize.
  pose proof (proj1 (HoldingFacts.fileAt_lookup _ _ _) Hfile) as Hlook.
  apply Z.ltb_ge in Hsize.
  unfold fs_deep_scan, deepScan. run_prims.
  repeat first [rewrite Hlook | rewrite Hsize
               | progress cbn -[analyse entropyOf Z.mul Z.ltb]].
  reflexivity.
Qed.

(** C10.  The deep scan of a file of no bytes succeeds: the entropy loop
    carries out no division at all (and on any buffer none by zero), the
    entropy is 0, there is no finding and the threat level is [safe]. *)
Theorem deepScan_empty_file (filePath : string) (w : World) :
  fileAt (disk w) filePath = Some [] →
  entropyLoop Math_log2 [] = (0%float, [])
  ∧ (∀ buffer, Forall (λ d, d ≠ 0%Z) (snd (entropyLoop Math_log2 buffer)))
  ∧ ∃ w',
      fs_deep_scan Math_log2 toFixed2 dirSize toISOString filePath w
      = (Success {| findings := [];
                    threatLevel := ThreatDetector.safe;
                    entropy := toFixed2 0%float;
                    timestamp := toISOString (clock w) |}, w').
Proof.
  intros Hfile.
  split; [apply entropyLoop_nil|]. split; [apply entropyLoop_divisors|].
  eexists. rewrite (deepScan_run filePath [] w Hfile) by (simpl; lia).
  rewrite analyse_nil. unfold entropyOf. rewrite entropyLoop_nil.
  reflexivity.
Qed.

Lemma checkStrings_keeps (buffer : list byte) (finding : string) (v : Verdict) :
  In finding (fst v) → snd v = ThreatDetector.malicious →
  In finding (fst (checkStrings buffer v))
  ∧ snd (checkStrings buffer v) = ThreatDetector.malicious.
Proof.
  unfold checkStrings. generalize suspiciousStrings as ss.
  intros ss. revert v.
  induction ss as [|s ss IH]; intros v Hin Hlvl; simpl; [now split|].
  apply IH; destruct (textIncludes buffer s); try assumption.
  - unfold flag. simpl. apply in_or_app. now left.
  - reflexivity.
Qed.

(** C6, amended.  For every file of at most 10 MiB whose extension is
    [.jpg] or [.jpeg], in any letter case, and whose last JPEG end marker
    is followed by exactly 37 bytes, the deep scan reports the finding that
    names 37 bytes of hidden data and the threat level [malicious]. *)
Theorem deepScan_jpeg_trailer (filePath : string) (pre tail : list byte)
    (w : World) :
  let buffer := (pre ++ [xff; xd9] ++ tail)%list in
  let ext := JS.toLowerCase (Path.extname filePath) in
  fileAt (disk w) filePath = Some buffer →
  (Z.of_nat (length buffer) <= 10 * 1024 * 1024)%Z →
  ext = ".jpg" ∨ ext = ".jpeg" →
  includesBytes tail [xff; xd9] = false →
  length tail = 37%nat →
  ∃ report w',
    fs_deep_scan Math_log2 toFixed2 dirSize toISOString filePath w
    = (Success report, w')
    ∧ In "Steganography Marker: 37 bytes of hidden data found after image end."
        (findings report)
    ∧ threatLevel report = ThreatDetector.malicious.
Proof.
  intros buffer ext Hfile Hsize Hext Hlast Htail.
  eexists _, _. split; [exact (deepScan_run filePath buffer w Hfile Hsize)|].
  cbn [findings threatLevel]. fold ext.
  unfold analyse.
  set (v0 := checkEntropy (entropyOf Math_log2 buffer) ([], ThreatDetector.safe)).
  assert (Hjpeg : checkJpeg ext buffer v0
                  = flag (Spec.stegFinding 37) ThreatDetector.malicious v0).
  { unfold checkJpeg.
    assert (String.eqb ext ".jpg" || String.eqb ext ".jpeg" = true) as ->.
    { destruct Hext as [-> | ->]; reflexivity. }
    unfold buffer. rewrite lastIndexOf_last_marker by exact Hlast.
    assert (Hlen : Z.of_nat (length (pre ++ [xff; xd9] ++ tail))
                   = (Z.of_nat (length pre) + 39)%Z).
    { rewrite !length_app, Htail. simpl length. lia. }
    rewrite Hlen.
    assert (negb (Z.of_nat (length pre) =? -1)%Z
            && (Z.of_nat (length pre) <? Z.of_nat (length pre) + 39 - 2)%Z
            = true) as ->.
    { apply andb_true_intro. split.
      - apply negb_true_iff, Z.eqb_neq. lia.
      - apply Z.ltb_lt. lia. }
    replace (Z.of_nat (length pre) + 39 - Z.of_nat (length pre) - 2)%Z
      with 37%Z by lia.
    reflexivity. }
  assert (Hpng : ∀ v, checkPng ext buffer v = v).
  { intros v. unfold checkPng. now destruct Hext as [-> | ->]. }
  rewrite Hjpeg, Hpng.
  apply checkStrings_keeps; [|reflexivity].
  unfold flag. simpl. apply in_or_app. right. now left.
Qed.

End Forensic.

Lemma deepScan_empty_file_witness :
  fileAt (disk Sample.world0) "/home/ana/empty.log" = Some []
  ∧ fst (fs_deep_scan Sample.log2 Sample.fixed2 Sample.dirSize Sample.isoTime
           "/home/ana/empty.log" Sample.world0)
    = Success {| findings := [];
                 threatLevel := ThreatDetector.safe;
                 entropy := "0.00";
                 timestamp := "t1700000000000" |}.
Proof.
  assert (H : fileAt (disk Sample.world0) "/home/ana/empty.log" = Some [])
    by reflexivity.
  split; [exact H|].
  destruct (deepScan_empty_file Sample.log2 Sample.fixed2 Sample.dirSize
              Sample.isoTime "/home/ana/empty.log" Sample.world0 H)
    as (_ & _ & w' & ->).
  reflexivity.
Defined.

Lemma deepScan_jpeg_trailer_witness :
  fileAt (disk Sample.world2) "/home/ana/Pictures/beach.JPG"
  = Some ([xff; xd8] ++ [xff; xd9] ++ repeat x41 37)%list
  ∧ ∃ report w',
      fs_deep_scan Sample.log2 Sample.fixed2 Sample.dirSize Sample.isoTime
        "/home/ana/Pictures/beach.JPG" Sample.world2 = (Success report, w')
      ∧ In "Steganography Marker: 37 bytes of hidden data found after image end."
          (findings report)
      ∧ threatLevel report = ThreatDetector.malicious.
Proof.
  assert (H : fileAt (disk Sample.world2) "/home/ana/Pictures/beach.JPG"
              = Some ([xff; xd8] ++ [xff; xd9] ++ repeat x41 37)%list)
    by reflexivity.
  split; [exact H|].
  apply (deepScan_jpeg_trailer Sample.log2 Sample.fixed2 Sample.dirSize
           Sample.isoTime "/home/ana/Pictures/beach.JPG" [xff; xd8]
           (repeat x41 37) Sample.world2 H).
  - vm_compute. discriminate.
  - left. vm_compute. reflexivity.
  - vm_compute. reflexivity.
  - reflexivity.
Defined.

(** C6 as it was written fails: here a JPEG end marker is followed by
    exactly 37 bytes, but they end in an end marker themselves, and the
    scan, which goes by the last one, finds nothing behind it. *)
Lemma deepScan_jpeg_marker_in_tail :
  Sample.markerInTail
  = ([xff; xd8] ++ [xff; xd9] ++ (repeat x41 35 ++ [xff; xd9]))%list
  ∧ length (repeat x41 35 ++ [xff; xd9])%list = 37%nat
  ∧ JS.toLowerCase (Path.extname "/home/ana/Pictures/hill.jpg") = ".jpg"
  ∧ ∀ Math_log2 toFixed2, ∃ report w',
      fs_deep_scan Math_log2 toFixed2 Sample.dirSize Sample.isoTime
        "/home/ana/Pictures/hill.jpg" Sample.world2 = (Success report, w')
      ∧ ¬ In "Steganography Marker: 37 bytes of hidden data found after image end."
            (findings report)
      ∧ threatLevel report ≠ ThreatDetector.malicious.
Proof.
  split; [reflexivity|]. split; [reflexivity|].
  split; [vm_compute; reflexivity|].
  intros Math_log2 toFixed2. eexists _, _. split.
  { apply (deepScan_run Math_log2 toFixed2 Sample.dirSize Sample.isoTime
             "/home/ana/Pictures/hill.jpg" Sample.markerInTail Sample.world2).
    - reflexivity.
    - vm_compute. discriminate. }
  cbn [findings threatLevel]. unfold analyse.
  generalize (entropyOf Math_log2 Sample.markerInTail) as e. intros e.
  unfold checkEntropy. destruct (PrimFloat.ltb 7.5 e); vm_compute; split;
    try discriminate; intros H;
    repeat (destruct H as [H|H]; [discriminate H|]); exact H.
Qed.

End ForensicFacts.

(** * Properties of the sentry *)

Module SentryFacts.

Import Sentry Spec.

Lemma find_app_none {A} (f : A → bool) (l1 l2 : list A) :
  Forall (λ x, f x = false) l1 → List.find f (l1 ++ l2) = List.find f l2.
Proof.
  induction 1 as [|x l1 Hx _ IH]; simpl; [reflexivity|].
  now rewrite Hx.
Qed.

Lemma lastThree_app {A} (old news : list A) :
  (length news <= 3)%nat →
  lastThree (old ++ news) = (drop (length old + length news - 3) old ++ news)%list.
Proof.
  intros Hlen. unfold lastThree. rewrite length_app.
  apply drop_app_le. lia.
Qed.

Lemma snoozed_fresh (m : gmap string Z) (ty : string) (now : Z) :
  m !! ty = None → (SNOOZE_DURATION <= now)%Z → snoozed m ty now = false.
Proof.
  intros Hm Hnow. unfold snoozed. rewrite Hm. simpl.
  apply Z.ltb_ge. lia.
Qed.

Lemma snoozed_recent (m : gmap string Z) (ty : string) (t now : Z) :
  (now < t + SNOOZE_DURATION)%Z → snoozed (<[ty := t]> m) ty now = true.
Proof.
  intros Hnow. unfold snoozed. rewrite lookup_insert_eq. simpl.
  now apply Z.ltb_lt.
Qed.

Lemma snoozed_expired (m : gmap string Z) (ty : string) (t now : Z) :
  (t + SNOOZE_DURATION <= now)%Z → snoozed (<[ty := t]> m) ty now = false.
Proof.
  intros Hnow. unfold snoozed. rewrite lookup_insert_eq. simpl.
  now apply Z.ltb_ge.
Qed.

(** What a tick of the enabled sentry emits for the screenshots. *)
Lemma sentryTick_screenshots (settings : AppSettings)
    (files : list ThreatDetector.FileItem) (now : Z) (st : AppState) :
  enableProactiveSentry settings = true →
  length (screenshotsOf files) = 16%nat →
  ofType "SCREENSHOTS" (newNotes (sentryTick settings files now st))
  = if snoozed (snoozeMap st) "SCREENSHOTS" now then []
    else [screenshotNote 16 now].
Proof.
  intros Hon Hcount. unfold sentryTick. rewrite Hon. simpl negb. cbv iota.
  change (List.filter
            (λ f, String.eqb (ThreatDetector.folder f) FolderType.SCREENSHOTS)
            files) with (screenshotsOf files).
  rewrite Hcount.
  change (15 <? Z.of_nat 16)%Z with true.
  destruct (snoozed (snoozeMap st) "SCREENSHOTS" now); simpl;
    destruct (_ && _); reflexivity.
Qed.

(** Dismissing the screenshot notification of a tick, or taking its
    action, at time [t] puts [t] into the snooze map. *)
Lemma handle_after_tick (settings : AppSettings)
    (files : list ThreatDetector.FileItem) (now : Z) (st : AppState)
    (snooze : bool) (t : Z) :
  enableProactiveSentry settings = true →
  length (screenshotsOf files) = 16%nat →
  snoozed (snoozeMap st) "SCREENSHOTS" now = false →
  Forall (λ n, id n ≠ id (screenshotNote 16 now)) (notifications st) →
  snoozeMap (handleNotificationAction (id (screenshotNote 16 now)) snooze t
               (after (sentryTick settings files now st)))
  = <["SCREENSHOTS" := t]> (snoozeMap st).
Proof.
  intros Hon Hcount Hfresh Hids.
  set (ss := screenshotNote 16 now).
  assert (Hafter : ∃ rest,
    (length (ss :: rest) <= 3)%nat
    ∧ after (sentryTick settings files now st)
      = mkAppState (lastThree (notifications st ++ ss :: rest))
          (snoozeMap st) (activePreview st) (sentMessages st)).
  { unfold sentryTick. rewrite Hon. simpl negb. cbv iota.
    change (List.filter
              (λ f, String.eqb (ThreatDetector.folder f) FolderType.SCREENSHOTS)
              files) with (screenshotsOf files).
    rewrite Hcount, Hfresh.
    change (15 <? Z.of_nat 16)%Z with true. simpl andb. cbv iota.
    simpl app. fold ss.
    destruct (_ && _); simpl app.
    - exists [downloadNote now]. split; [simpl; lia | reflexivity].
    - exists []. split; [simpl; lia | reflexivity]. }
  destruct Hafter as (rest & Hlen & ->).
  unfold handleNotificationAction. cbn [notifications snoozeMap].
  rewrite lastThree_app by exact Hlen.
  rewrite find_app_none.
  2:{ apply Forall_drop. eapply Forall_impl; [exact Hids|].
      intros n Hn. simpl. now apply String.eqb_neq. }
  cbn [List.find]. rewrite String.eqb_refl.
  destruct snooze; reflexivity.
Qed.

(** C2, amended.  A tick of the enabled sentry that sees 16 screenshot
    files while the snooze map has no SCREENSHOTS entry emits exactly one
    SCREENSHOTS notification.  After that notification was dismissed or its
    action was taken at time [t], a later tick emits none exactly while
    less than 30 minutes have passed since [t], and emits one again from
    30 minutes on; when it was neither dismissed nor acted on, the later
    tick emits a SCREENSHOTS notification again.  (The clock is past the
    first 30 minutes of 1970, and the notification the handler is called
    for is the only one on show with its id.) *)
Theorem sentry_screenshots_throttle (settings : AppSettings)
    (files : list ThreatDetector.FileItem) (now : Z) (st : AppState) :
  enableProactiveSentry settings = true →
  length (screenshotsOf files) = 16%nat →
  snoozeMap st !! "SCREENSHOTS" = None →
  (SNOOZE_DURATION <= now)%Z →
  let first := sentryTick settings files now st in
  ofType "SCREENSHOTS" (newNotes first) = [screenshotNote 16 now]
  ∧ (∀ snooze t later,
       Forall (λ n, id n ≠ id (screenshotNote 16 now)) (notifications st) →
       let handled := handleNotificationAction (id (screenshotNote 16 now))
                        snooze t (after first) in
       ((later < t + SNOOZE_DURATION)%Z →
        ofType "SCREENSHOTS"
          (newNotes (sentryTick settings files later handled))
        = [])
       ∧ ((t + SNOOZE_DURATION <= later)%Z →
          ofType "SCREENSHOTS"
            (newNotes (sentryTick settings files later handled))
          = [screenshotNote 16 later]))
  ∧ (∀ later,
       (now <= later)%Z →
       ofType "SCREENSHOTS" (newNotes (sentryTick settings files later (after first)))
       = [screenshotNote 16 later]).
Proof.
  intros Hon Hcount Hnone Hnow first.
  pose proof (snoozed_fresh _ _ _ Hnone Hnow) as Hfresh.
  split; [|split].
  - subst first. rewrite sentryTick_screenshots by assumption.
    now rewrite Hfresh.
  - intros snooze t later Hids handled. subst handled.
    rewrite !sentryTick_screenshots by assumption.
    subst first. rewrite handle_after_tick by assumption.
    split; intros Hlater.
    + now rewrite snoozed_recent.
    + now rewrite snoozed_expired.
  - intros later Hlater.
    rewrite sentryTick_screenshots by assumption.
    assert (Hmap : snoozeMap (after first) = snoozeMap st).
    { subst first. unfold sentryTick. rewrite Hon. simpl negb. cbv iota.
      now destruct (0 <? _)%Z. }
    rewrite Hmap, snoozed_fresh; [reflexivity | exact Hnone | lia].
Qed.

Lemma sentry_screenshots_throttle_witness :
  let first := sentryTick Sample.settings Sample.sixteenScreenshots
                 1700000000000 Sample.idle in
  let handled := handleNotificationAction "ss-1700000000000" true
                   1700000030000 (after first) in
  ofType "SCREENSHOTS" (newNotes first) = [screenshotNote 16 1700000000000]
  ∧ ofType "SCREENSHOTS"
      (newNotes (sentryTick Sample.settings Sample.sixteenScreenshots
                   1700000060000 handled))
    = []
  ∧ ofType "SCREENSHOTS"
      (newNotes (sentryTick Sample.settings Sample.sixteenScreenshots
                   1700001830000 handled))
    = [screenshotNote 16 1700001830000].
Proof.
  intros first handled.
  destruct (sentry_screenshots_throttle Sample.settings
              Sample.sixteenScreenshots 1700000000000 Sample.idle)
    as (Hone & Hsnoozed & _).
  - reflexivity.
  - reflexivity.
  - reflexivity.
  - vm_compute. discriminate.
  - split; [exact Hone|]. split.
    + apply (Hsnoozed true 1700000030000 1700000060000).
      * constructor.
      * vm_compute. reflexivity.
    + apply (Hsnoozed true 1700000030000 1700001830000).
      * constructor.
      * vm_compute. discriminate.
Defined.

(** C2 as it was written fails on its second half: the tick does not touch
    the snooze map, so with no dismissal and no action in between a tick one
    minute later emits a SCREENSHOTS notification again. *)
Lemma sentry_second_tick_emits_again :
  let first := sentryTick Sample.settings Sample.sixteenScreenshots
                 1700000000000 Sample.idle in
  let second := sentryTick Sample.settings Sample.sixteenScreenshots
                  1700000060000 (after first) in
  length (screenshotsOf Sample.sixteenScreenshots) = 16%nat
  ∧ snoozeMap Sample.idle !! "SCREENSHOTS" = None
  ∧ ofType "SCREENSHOTS" (newNotes first) = [screenshotNote 16 1700000000000]
  ∧ (1700000060000 - 1700000000000 < SNOOZE_DURATION)%Z
  ∧ ofType "SCREENSHOTS" (newNotes second) = [screenshotNote 16 1700000060000]
  ∧ ofType "SCREENSHOTS" (newNotes second) ≠ [].
Proof.
  cbv zeta. repeat split; try (vm_compute; reflexivity).
  vm_compute. discriminate.
Qed.

End SentryFacts.

(** * Further properties of the threat detection service *)

Module ClassifierFacts.

Import ThreatDetector Notions.

(** X2.  The threat level is [malicious] exactly when the threat type is
    the malware label: the two cascades agree on what malware is. *)
Theorem malicious_iff_malware_label (file : FileItem) :
  analyzeThreatLevel file = malicious
  ↔ getThreatType file = Some "Malware:Generic/Suspicious".
Proof.
  unfold analyzeThreatLevel, getThreatType.
  destruct (anyTest MALICIOUS_PATTERNS (name file)); [easy|].
  split; intros H.
  - repeat match type of H with
           | (if ?c then _ else _) = _ => destruct c
           end; discriminate H.
  - repeat match type of H with
           | (if ?c then _ else _) = _ => destruct c
           end; discriminate H.
Qed.

Lemma analyzeFile_idempotent (f : FileItem) :
  analyzeFile (analyzeFile f) = analyzeFile f.
Proof. reflexivity. Qed.

(** X3.  Analysing files that were analysed already changes nothing. *)
Theorem analyzeFiles_idempotent (files : list FileItem) :
  analyzeFiles (analyzeFiles files) = analyzeFiles files.
Proof.
  unfold analyzeFiles. rewrite map_map.
  apply map_ext. intros f. apply analyzeFile_idempotent.
Qed.

Lemma filterLength_app (p : FileItem → bool) (l1 l2 : list FileItem) :
  filterLength p (l1 ++ l2) = (filterLength p l1 + filterLength p l2)%Z.
Proof.
  unfold filterLength. rewrite List.filter_app, length_app. lia.
Qed.

Lemma filterLength_nonneg (p : FileItem → bool) (l : list FileItem) :
  (0 <= filterLength p l)%Z.
Proof. unfold filterLength. lia. Qed.

(** X4.  The integrity score of a summary lies between 0 and 100, and more
    files never raise it. *)
Theorem integrityScore_bounds_monotone (files more : list FileItem) :
  (0 <= integrityScore (getSecuritySummary files) <= 100)%Z
  ∧ (integrityScore (getSecuritySummary (files ++ more))
     <= integrityScore (getSecuritySummary files))%Z.
Proof.
  unfold getSecuritySummary. cbn [integrityScore].
  rewrite !filterLength_app.
  pose proof (filterLength_nonneg
    (λ f, bool_decide (threatLevel f = Some malicious)) more).
  pose proof (filterLength_nonneg
    (λ f, bool_decide (threatLevel f = Some suspicious)) more).
  pose proof (filterLength_nonneg
    (λ f, bool_decide (privacyLevel f = Some critical)) more).
  pose proof (filterLength_nonneg
    (λ f, bool_decide (privacyLevel f = Some sensitive)) more).
  lia.
Qed.

Lemma countWhere_nonneg {A} (p : A → bool) (l : list A) :
  (0 <= Spec.countWhere p l)%Z.
Proof. induction l as [|x l IH]; simpl; [lia|]. destruct (p x); lia. Qed.

Lemma countWhere_pos {A} (p : A → bool) (l : list A) :
  (0 < Spec.countWhere p l)%Z ↔ Exists (λ x, p x = true) l.
Proof.
  induction l as [|x l IH]; simpl.
  - split; [lia | intros H; inversion H].
  - pose proof (countWhere_nonneg p l). rewrite Exists_cons.
    destruct (p x) eqn:E; split; intros H'.
    + now left.
    + lia.
    + right. apply IH. lia.
    + destruct H' as [H'|H']; [congruence|]. apply IH in H'. lia.
Qed.

Lemma countWhere_decide_pos {A} (P : A → Prop) `{∀ x, Decision (P x)}
    (l : list A) :
  (0 < Spec.countWhere (λ x, bool_decide (P x)) l)%Z ↔ Exists P l.
Proof.
  rewrite countWhere_pos, !Exists_exists.
  split; intros (x & Hin & Hx); exists x; split; try assumption.
  - now apply bool_decide_eq_true in Hx.
  - now apply bool_decide_eq_true.
Qed.

(** Counting a level among the analysed files is counting the files the
    analysis gives that level. *)
Lemma filterLength_analyzeFiles (lvl : ThreatLevel) (files : list FileItem) :
  filterLength (λ g, bool_decide (threatLevel g = Some lvl)) (analyzeFiles files)
  = Spec.countWhere (λ f, bool_decide (analyzeThreatLevel f = lvl)) files.
Proof.
  rewrite ThreatDetectorFacts.filterLength_countWhere.
  induction files as [|f files IH]; [reflexivity|].
  simpl. rewrite IH. f_equal.
  cbn [threatLevel analyzeFile].
  destruct (decide (analyzeThreatLevel f = lvl)) as [E|E].
  - rewrite !bool_decide_eq_true_2 by congruence. reflexivity.
  - rewrite !bool_decide_eq_false_2 by congruence. reflexivity.
Qed.

(** X5.  For the summary of analysed files the status is [alert] exactly
    when the analysis finds some file malicious, and [protected] exactly
    when it finds every file safe. *)
Theorem status_after_analysis (files : list FileItem) :
  let s := getSecuritySummary (analyzeFiles files) in
  (status s = alert ↔ Exists (λ f, analyzeThreatLevel f = malicious) files)
  ∧ (status s = protected ↔ Forall (λ f, analyzeThreatLevel f = safe) files).
Proof.
  cbv zeta. unfold getSecuritySummary. cbn [status].
  rewrite !filterLength_analyzeFiles.
  set (m := Spec.countWhere _ files).
  set (su := Spec.countWhere (λ f, bool_decide (analyzeThreatLevel f = suspicious)) files).
  assert (Hm : (0 < m)%Z ↔ Exists (λ f, analyzeThreatLevel f = malicious) files)
    by apply countWhere_decide_pos.
  assert (Hs : (0 < su)%Z ↔ Exists (λ f, analyzeThreatLevel f = suspicious) files)
    by apply countWhere_decide_pos.
  split.
  - rewrite <- Hm. destruct (Z.ltb_spec 0 m) as [H|H].
    + split; [intros _; exact H | reflexivity].
    + split; [|lia]. destruct (0 <? su)%Z; discriminate.
  - destruct (Z.ltb_spec 0 m) as [H|H].
    + split; [discriminate|]. intros Hall. apply Hm in H.
      apply Exists_exists in H as (f & Hin & Hf).
      rewrite Forall_forall in Hall.
      specialize (Hall f Hin). congruence.
    + destruct (Z.ltb_spec 0 su) as [H'|H'].
      * split; [discriminate|]. intros Hall. apply Hs in H'.
        apply Exists_exists in H' as (f & Hin & Hf).
        rewrite Forall_forall in Hall.
        specialize (Hall f Hin). congruence.
      * split; [intros _|reflexivity].
        apply Forall_forall. intros f Hin.
        destruct (analyzeThreatLevel f) eqn:E; [reflexivity| |].
        -- assert (0 < su)%Z; [|lia]. apply Hs, Exists_exists.
           exists f. split; [exact Hin | exact E].
        -- assert (0 < m)%Z; [|lia]. apply Hm, Exists_exists.
           exists f. split; [exact Hin | exact E].
Qed.

Lemma In_pushIf (x : string) (c : bool) (t : string) (ts : list string) :
  In x (pushIf c t ts) ↔ In x ts ∨ (c = true ∧ x = t).
Proof.
  unfold pushIf. destruct c.
  - rewrite in_app_iff. simpl. intuition congruence.
  - intuition congruence.
Qed.

Lemma pushIf_sublist (c : bool) (t : string) (ts all : list string) :
  ts `sublist_of` all → pushIf c t ts `sublist_of` (all ++ [t])%list.
Proof.
  intros H. unfold pushIf. destruct c.
  - now apply sublist_app.
  - now apply sublist_inserts_r.
Qed.

(** Peel the pushes off a membership in the tags, newest first. *)
Ltac peel_tags H :=
  repeat (apply In_pushIf in H as [H|[? H]]; [|try discriminate H]);
  try (exact (False_ind _ H)).

(** X6.  The tags of a file are distinct, they come from the ten tags of
    the service in its order, and a file tagged [Very Large] is tagged
    [Large File] too. *)
Theorem generateFileTags_distinct (file : FileItem) :
  NoDup (generateFileTags file)
  ∧ generateFileTags file `sublist_of` allTags
  ∧ (In "Very Large" (generateFileTags file)
     → In "Large File" (generateFileTags file)).
Proof.
  assert (Hsub : generateFileTags file `sublist_of` allTags).
  { unfold generateFileTags. cbv zeta.
    change allTags with ((((((((((([] : list string)
      ++ ["Large File"]) ++ ["Very Large"]) ++ ["Contains Credentials"])
      ++ ["Financial Data"]) ++ ["Screenshot"]) ++ ["Backup File"])
      ++ ["Executable"]) ++ ["Archive"]) ++ ["Potential Piracy Tool"])
      ++ ["Double Extension"])%list.
    repeat apply pushIf_sublist. apply sublist_nil_l. }
  split; [|split; [exact Hsub|]].
  - eapply sublist_NoDup; [|exact Hsub].
    apply (bool_decide_unpack _). vm_compute. exact I.
  - unfold generateFileTags. cbv zeta. intros H.
    peel_tags H. rename H0 into Hbig.
    do 9 (apply In_pushIf; left).
    apply In_pushIf. right. split; [|reflexivity].
    apply Z.ltb_lt. apply Z.ltb_lt in Hbig. lia.
Qed.

(** X7.  A file that gets the tag [Potential Piracy Tool] is never
    classified [safe]. *)
Theorem piracy_tag_not_safe (file : FileItem) :
  In "Potential Piracy Tool" (generateFileTags file) →
  analyzeThreatLevel file ≠ safe.
Proof.
  unfold generateFileTags. cbv zeta. intros H.
  peel_tags H. rename H0 into Hmatch.
  assert (Hsusp : anyTest SUSPICIOUS_PATTERNS (name file) = true).
  { unfold anyTest, SUSPICIOUS_PATTERNS. cbn [existsb].
    apply orb_true_intro. left.
    revert Hmatch. unfold Regex.test, Regex.words. cbn [map existsb].
    intros Hm. repeat (apply orb_prop in Hm as [Hm|Hm]; [rewrite Hm|]);
      rewrite ?orb_true_r; try reflexivity; discriminate Hm. }
  unfold analyzeThreatLevel.
  destruct (anyTest MALICIOUS_PATTERNS (name file)); [discriminate|].
  destruct (_ && _); [discriminate|].
  rewrite Hsusp. discriminate.
Qed.

Lemma piracy_tag_not_safe_witness :
  In "Potential Piracy Tool" (generateFileTags Sample.setupCrack)
  ∧ analyzeThreatLevel Sample.setupCrack ≠ safe.
Proof.
  assert (H : In "Potential Piracy Tool" (generateFileTags Sample.setupCrack))
    by (vm_compute; tauto).
  split; [exact H | exact (piracy_tag_not_safe Sample.setupCrack H)].
Defined.

Lemma asciiFold_idem (c : ascii) :
  Regex.asciiFold (Regex.asciiFold c) = Regex.asciiFold c.
Proof. destruct c as [[] [] [] [] [] [] [] []]; reflexivity. Qed.

Lemma isLineTerminator_fold (c : ascii) :
  Regex.isLineTerminator (Regex.asciiFold c) = Regex.isLineTerminator c.
Proof. destruct c as [[] [] [] [] [] [] [] []]; reflexivity. Qed.

Lemma lowerChar_fold (c : ascii) :
  JS.lowerChar (Regex.asciiFold c) = JS.lowerChar c.
Proof. destruct c as [[] [] [] [] [] [] [] []]; reflexivity. Qed.

Lemma deriv_fold (c : ascii) (r : Regex.re) :
  Regex.deriv (Regex.asciiFold c) r = Regex.deriv c r.
Proof.
  induction r as [| |a| | |r1 IH1 r2 IH2|r1 IH1 r2 IH2|r IH]; simpl;
    rewrite ?asciiFold_idem, ?isLineTerminator_fold, ?IH1, ?IH2, ?IH;
    reflexivity.
Qed.

Lemma fullMatch_fold (s : string) :
  ∀ r, Regex.fullMatch r (asciiLower s) = Regex.fullMatch r s.
Proof.
  induction s as [|c s IH]; intros r; [reflexivity|].
  simpl. now rewrite deriv_fold, IH.
Qed.

Lemma test_fold (p : Regex.pattern) (s : string) :
  Regex.test p (asciiLower s) = Regex.test p s.
Proof.
  unfold Regex.test. induction p as [|a p IH]; [reflexivity|].
  simpl. unfold Regex.testAlt at 1 3. now rewrite fullMatch_fold, IH.
Qed.

Lemma anyTest_fold (ps : list Regex.pattern) (s : string) :
  anyTest ps (asciiLower s) = anyTest ps s.
Proof.
  unfold anyTest. induction ps as [|p ps IH]; [reflexivity|].
  simpl. now rewrite test_fold, IH.
Qed.

Lemma toLowerCase_fold (s : string) :
  JS.toLowerCase (asciiLower s) = JS.toLowerCase s.
Proof.
  induction s as [|c s IH]; [reflexivity|].
  simpl. now rewrite lowerChar_fold, IH.
Qed.

(** The tests the two cascades make on a name see it only up to the case
    of its ASCII letters. *)
Lemma name_tests_fold (n1 n2 : string) :
  asciiLower n1 = asciiLower n2 →
  (∀ ps, anyTest ps n1 = anyTest ps n2)
  ∧ JS.toLowerCase n1 = JS.toLowerCase n2.
Proof.
  intros H. split.
  - intros ps. now rewrite <- (anyTest_fold ps n1), H, anyTest_fold.
  - now rewrite <- (toLowerCase_fold n1), H, toLowerCase_fold.
Qed.

(** X8.  Two files with the same path and extension whose names differ
    only in the case of ASCII letters get the same threat level and the
    same privacy level. *)
Theorem levels_ignore_name_case (f g : FileItem) :
  path f = path g → extension f = extension g →
  asciiLower (name f) = asciiLower (name g) →
  analyzeThreatLevel f = analyzeThreatLevel g
  ∧ analyzePrivacyLevel f = analyzePrivacyLevel g.
Proof.
  intros Hp He Hn.
  destruct (name_tests_fold _ _ Hn) as [Htests Hlower].
  unfold analyzeThreatLevel, analyzePrivacyLevel. cbv zeta.
  now rewrite !Htests, Hlower, Hp, He.
Qed.

Lemma levels_ignore_name_case_witness :
  name Sample.wannacry ≠ name More.shouting
  ∧ analyzeThreatLevel Sample.wannacry = analyzeThreatLevel More.shouting
  ∧ analyzePrivacyLevel Sample.wannacry = analyzePrivacyLevel More.shouting.
Proof.
  split; [discriminate|].
  apply levels_ignore_name_case; reflexivity.
Defined.

End ClassifierFacts.

(** * Further properties of quarantine, vault, restore and shred *)

Module DispositionFacts.

Import Main Spec Notions2.

(** ** Moving a directory *)

Lemma startsWith_cancel (p a b : string) :
  JS.startsWith (p ++ a) (p ++ b) = JS.startsWith a b.
Proof.
  induction p as [|c p IH]; [reflexivity|].
  rewrite !PathFacts.append_cons. cbn [JS.startsWith].
  now rewrite Ascii.eqb_refl.
Qed.

Lemma append_cancel_nil (s r : string) : s = s ++ r → r = "".
Proof.
  intros H. apply (f_equal String.length) in H.
  rewrite PathFacts.length_append in H. destruct r; [reflexivity|].
  simpl in H. lia.
Qed.

(** What has moved with the directory [from] lies at [to] or below it. *)
Lemma moved_within (from to : string) (d : gmap string Node) (k : string) :
  k ∈ (moved from to d).*1 → within to k = true.
Proof.
  intros ([k' v] & -> & Hin)%list_elem_of_fmap.
  apply list_elem_of_omap in Hin as ([k0 v0] & _ & Hk). cbn [fst snd] in Hk.
  destruct (within from k0) eqn:Hw; [|discriminate].
  destruct (dropPrefix from k0) as [rest|] eqn:Hd; [|discriminate].
  injection Hk as <- <-. apply ListingFacts.dropPrefix_Some in Hd as ->.
  unfold within, under in *. cbn [fst].
  apply orb_true_iff in Hw as [Hw|Hw].
  - apply String.eqb_eq in Hw. symmetry in Hw.
    apply append_cancel_nil in Hw as ->.
    rewrite HoldingFacts.append_nil_r, String.eqb_refl. reflexivity.
  - rewrite startsWith_cancel in *. rewrite Hw. apply orb_true_r.
Qed.

(** What lies neither in the directory that moves nor where it moves to
    stays as it is. *)
Lemma moveTree_keeps (from to : string) (d : gmap string Node) (k : string)
    (v : Node) :
  d !! k = Some v → within from k = false → within to k = false →
  moveTree from to d !! k = Some v.
Proof.
  intros Hk Hfrom Hto. unfold moveTree. rewrite lookup_union_r.
  - apply map_lookup_filter_Some. now split.
  - apply not_elem_of_list_to_map_1. intros Hin%moved_within. congruence.
Qed.

(** A side record lies neither at nor below the stored entry. *)
Lemma metadataPath_outside (sp : string) : within sp (metadataPathOf sp) = false.
Proof.
  unfold within, under, metadataPathOf. apply orb_false_intro.
  - apply String.eqb_neq, HoldingFacts.metadataPath_neq.
  - now rewrite startsWith_cancel.
Qed.

Lemma nothing_under (to : string) (d : gmap string Node) (k : string) :
  existsb (under to) ((map_to_list d).*1) = false →
  is_Some (d !! k) → under to k = false.
Proof.
  intros Hnone [v Hk]. destruct (under to k) eqn:E; [|reflexivity].
  rewrite <- Hnone. symmetry. apply existsb_exists. exists k.
  split; [|exact E]. apply list_elem_of_In, list_elem_of_fmap.
  exists (k, v). split; [reflexivity|]. now apply elem_of_map_to_list.
Qed.

Section Restore.

Variable JSON_parse : list byte → option Json.t.

(** X9.  A restore that reports failure has changed nothing on the disk:
    whatever makes it fail, fails before the stored file is moved. *)
Theorem failed_restore_changes_nothing (storedPath : string) (w : World)
    (e : Error) (w' : World) :
  fs_restore JSON_parse storedPath w = (Failure e, w') → disk w' = disk w.
Proof.
  unfold fs_restore, tryCatch, restoreFrom, parseJSON, originalPathOf.
  run_prims. cbn.
  fold (metadataPathOf storedPath). set (mp := metadataPathOf storedPath).
  destruct (disk w !! mp) as [[text|]|] eqn:Emp;
    cbn; try (intros [= <- <-]; reflexivity).
  destruct (JSON_parse text) as [metadata|]; cbn;
    try (intros [= <- <-]; reflexivity).
  destruct metadata as [| | | | |fields]; cbn;
    try (intros [= <- <-]; reflexivity).
  destruct (Json.assoc "originalPath" fields) as [[| | |op| |]|]; cbn;
    try (intros [= <- <-]; reflexivity).
  destruct (disk w !! storedPath) as [node|] eqn:Esp; cbn;
    try (intros [= <- <-]; reflexivity).
  destruct (parentError (disk w) storedPath); cbn;
    try (intros [= <- <-]; reflexivity).
  destruct (parentError (disk w) op); cbn;
    try (intros [= <- <-]; reflexivity).
  destruct node as [content|].
  - destruct (isDir (disk w) op); cbn; try (intros [= <- <-]; reflexivity).
    assert (Hmp : ∃ c, (<[op := File content]> (delete storedPath (disk w)))
                         !! mp = Some (File c)).
    { destruct (decide (op = mp)) as [->|Hne].
      - exists content. apply lookup_insert_eq.
      - exists text. rewrite lookup_insert_ne by exact Hne.
        rewrite lookup_delete_ne; [exact Emp|].
        intros Heq. symmetry in Heq.
        exact (HoldingFacts.metadataPath_neq storedPath Heq). }
    destruct Hmp as (c & ->). cbn. discriminate.
  - destruct (String.eqb storedPath op); cbn.
    { rewrite Emp. cbn. discriminate. }
    destruct (isFile (disk w) op) eqn:Efile; cbn;
      try (intros [= <- <-]; reflexivity).
    destruct (under storedPath op); cbn;
      try (intros [= <- <-]; reflexivity).
    destruct (existsb (under op) _) eqn:Eempty; cbn;
      try (intros [= <- <-]; reflexivity).
    rewrite (moveTree_keeps storedPath op (disk w) mp (File text) Emp).
    + cbn. discriminate.
    + apply metadataPath_outside.
    + unfold within. apply orb_false_intro.
      * apply String.eqb_neq. intros <-. unfold isFile in Efile.
        now rewrite Emp in Efile.
      * apply (nothing_under op (disk w) mp Eempty). now exists (File text).
Qed.

(** X10.  A restore puts the stored file at the original path its side
    record names even when another file lies there by now: that file is
    replaced without a word.  The stored file and the original path have
    to lie in directories that are there. *)
Theorem restore_replaces_original (storedPath originalPath : string)
    (content text : list byte) (fields : list (string * Json.t)) (w : World) :
  disk w !! metadataPathOf storedPath = Some (File text) →
  JSON_parse text = Some (Json.JObject fields) →
  Json.assoc "originalPath" fields = Some (Json.JString originalPath) →
  disk w !! storedPath = Some (File content) →
  parentError (disk w) storedPath = None →
  parentError (disk w) originalPath = None →
  isDir (disk w) originalPath = false →
  originalPath ≠ metadataPathOf storedPath →
  ∃ w',
    fs_restore JSON_parse storedPath w = (Success originalPath, w')
    ∧ fileAt (disk w') originalPath = Some content
    ∧ disk w' !! metadataPathOf storedPath = None
    ∧ (originalPath ≠ storedPath → disk w' !! storedPath = None).
Proof.
  intros Hmp Hparse Hop Hsp Hps Hpo Hnodir Hne.
  pose proof (HoldingFacts.metadataPath_neq storedPath) as Hne'.
  unfold metadataPathOf in *.
  eexists. split.
  { unfold fs_restore, tryCatch, restoreFrom, parseJSON, originalPathOf.
    run_prims. cbn. rewrite Hmp. cbn. rewrite Hparse. cbn. rewrite Hop. cbn.
    rewrite Hsp, Hps, Hpo, Hnodir. cbn.
    rewrite lookup_insert_ne by congruence.
    rewrite lookup_delete_ne by congruence.
    rewrite Hmp. cbn. reflexivity. }
  cbn. split; [|split].
  - apply HoldingFacts.fileAt_lookup.
    rewrite lookup_delete_ne by congruence. apply lookup_insert_eq.
  - apply lookup_delete_eq.
  - intros Hne2. rewrite lookup_delete_ne by congruence.
    rewrite lookup_insert_ne by congruence. apply lookup_delete_eq.
Qed.

(** A restore whose original path lies in a directory that is missing
    fails and leaves the stored file where it is. *)
Lemma restore_needs_directory (storedPath originalPath : string)
    (content text : list byte) (fields : list (string * Json.t)) (w : World)
    (e : Error) :
  disk w !! metadataPathOf storedPath = Some (File text) →
  JSON_parse text = Some (Json.JObject fields) →
  Json.assoc "originalPath" fields = Some (Json.JString originalPath) →
  disk w !! storedPath = Some (File content) →
  parentError (disk w) storedPath = None →
  parentError (disk w) originalPath = Some e →
  ∃ w', fs_restore JSON_parse storedPath w = (Failure e, w')
        ∧ disk w' = disk w.
Proof.
  intros Hmp Hparse Hop Hsp Hps Hpo. unfold metadataPathOf in *.
  eexists. split.
  - unfold fs_restore, tryCatch, restoreFrom, parseJSON, originalPathOf.
    run_prims. cbn. rewrite Hmp. cbn. rewrite Hparse. cbn. rewrite Hop. cbn.
    rewrite Hsp, Hps, Hpo. reflexivity.
  - reflexivity.
Qed.

End Restore.

Lemma failed_restore_changes_nothing_witness :
  let orphan := Sample.vaultDir ++ "/1700000000500_orphan.txt.vault" in
  let run := fs_unvault Sample.parse orphan Sample.world1 in
  fst run = Failure (ENOENT (orphan ++ ".meta.json"))
  ∧ disk (snd run) = disk Sample.world1.
Proof.
  intros orphan run.
  assert (H : run = (Failure (ENOENT (orphan ++ ".meta.json")), snd run))
    by (vm_compute; reflexivity).
  split; [now rewrite H|].
  exact (failed_restore_changes_nothing Sample.parse orphan Sample.world1
           _ _ H).
Defined.

Lemma restore_replaces_original_witness :
  let stored := Sample.vaultDir ++ "/1700000000000_taxes.xlsx.vault" in
  fileAt (disk More2.world3) "/home/ana/taxes.xlsx"
  = Some (list_byte_of_string "newer sheet")
  ∧ ∃ w', fs_unvault Sample.parse stored More2.world3
          = (Success "/home/ana/taxes.xlsx", w')
          ∧ fileAt (disk w') "/home/ana/taxes.xlsx"
            = Some (list_byte_of_string "PK taxes").
Proof.
  intros stored. split; [vm_compute; reflexivity|].
  destruct (restore_replaces_original Sample.parse stored
              "/home/ana/taxes.xlsx" (list_byte_of_string "PK taxes")
              (Sample.stringify Sample.taxesRecord)
              [("originalPath", Json.JString "/home/ana/taxes.xlsx");
               ("originalName", Json.JString "taxes.xlsx");
               ("vaultedAt", Json.JString "t1700000000000");
               ("reason", Json.JString "tax documents");
               ("sha256", Json.JString (Sample.digest (list_byte_of_string "PK taxes")))]
              More2.world3)
    as (w' & Hrun & Hfile & _).
  - vm_compute. reflexivity.
  - apply (HoldingFacts.sample_parse_stringify Vault).
  - reflexivity.
  - vm_compute. reflexivity.
  - vm_compute. reflexivity.
  - vm_compute. reflexivity.
  - vm_compute. reflexivity.
  - discriminate.
  - exists w'. split; assumption.
Defined.

Section Place.

Variable userData : string.
Variable sha256 : list byte → string.
Variable toISOString : Z → string.
Variable JSON_stringify : Json.t → list byte.

(** X11.  Whether it succeeds or fails, [fs:quarantine] or [fs:vault]
    leaves every path alone that is not the file, its stored copy, the side
    record of that copy, the holding directory or a directory above the
    holding directory. *)
Theorem place_touches_only_its_paths (k : Kind) (filePath : string)
    (reason : option string) (w : World) (p : string) :
  let sp := storedPathFor userData k (clock w) filePath in
  p ≠ filePath → p ≠ sp → p ≠ metadataPathOf sp →
  ¬ In p (lineage (holdingDir userData k)) →
  disk (snd (tryCatch
               (place userData sha256 toISOString JSON_stringify k filePath
                  reason) w)) !! p
  = disk w !! p.
Proof.
  intros sp Hfile Hsp Hmp Hhd. unfold tryCatch.
  rewrite HoldingFacts.place_run. cbv zeta. fold sp.
  pose proof (HoldingFacts.afterHoldingDir_lookup (holdingDir userData k) p w
                Hhd) as Hw1.
  destruct (blocked _ _); [exact Hw1|].
  destruct (disk (afterHoldingDir _ w) !! filePath) as [[c|]|]; cbn;
    try exact Hw1.
  destruct (parentError _ filePath); [exact Hw1|].
  destruct (parentError _ sp); [exact Hw1|].
  destruct (isDir _ sp); cbn; [exact Hw1|].
  destruct (isDir _ (metadataPathOf sp)); cbn.
  - rewrite lookup_insert_ne, lookup_delete_ne by congruence. exact Hw1.
  - rewrite !lookup_insert_ne, lookup_delete_ne by congruence. exact Hw1.
Qed.

(** X12.  Through the renderer's service the reason given for a quarantine
    reaches the side record, the reason given for a vault never does: the
    bridge hands the vault handler the path alone. *)
Theorem vault_reason_is_dropped (window : Service.Window)
    (filePath reason : string) (w : World) :
  (∀ w', Service.quarantineFile userData sha256 toISOString JSON_stringify
           window filePath reason w = (true, w') →
         ∃ content,
           fileAt (disk w) filePath = Some content
           ∧ fileAt (disk w')
               (metadataPathOf (storedPathFor userData Quarantine (clock w) filePath))
             = Some (JSON_stringify
                       (metadataObject Quarantine filePath
                          (Path.basename filePath) (toISOString (clock w))
                          (Some reason) (sha256 content))))
  ∧ (∀ w', Service.vaultFile userData sha256 toISOString JSON_stringify
             window filePath reason w = (true, w') →
           ∃ content,
             fileAt (disk w) filePath = Some content
             ∧ fileAt (disk w')
                 (metadataPathOf (storedPathFor userData Vault (clock w) filePath))
               = Some (JSON_stringify
                         (metadataObject Vault filePath
                            (Path.basename filePath) (toISOString (clock w))
                            None (sha256 content)))).
Proof.
  split; intros w';
    unfold Service.quarantineFile, Service.vaultFile,
      Service.bridge_quarantine, Service.bridge_vault, fs_quarantine,
      fs_vault, tryCatch;
    destruct (negb _ || negb _); try discriminate;
    match goal with
    | |- context [place ?u ?h ?t ?j ?k ?f ?r w] =>
        destruct (place u h t j k f r w) as [[sp|e] w1] eqn:Hplace
    end; cbn; try discriminate;
    intros [= <-];
    destruct (HoldingFacts.place_success _ _ _ _ _ _ _ _ _ _ Hplace)
      as (c & d & Hc & -> & Hdisk & _);
    exists c; (split; [exact Hc|]);
    apply HoldingFacts.fileAt_lookup; rewrite Hdisk; apply lookup_insert_eq.
Qed.

End Place.

Lemma place_touches_only_its_paths_witness :
  let run := fs_quarantine Sample.userData Sample.digest Sample.isoTime
               Sample.stringify "/home/ana/report.pdf" (Some "flagged")
               Sample.world0 in
  disk (snd run) !! "/home/ana/report.pdf" = None
  ∧ disk (snd run) !! "/home/ana/empty.log"
    = disk Sample.world0 !! "/home/ana/empty.log".
Proof.
  intros run. split; [vm_compute; reflexivity|].
  apply (place_touches_only_its_paths Sample.userData Sample.digest
           Sample.isoTime Sample.stringify Quarantine "/home/ana/report.pdf"
           (Some "flagged") Sample.world0 "/home/ana/empty.log");
    try (vm_compute; discriminate).
  vm_compute. intros H.
  repeat (destruct H as [H|H]; [discriminate H|]). exact H.
Defined.

Lemma vault_reason_is_dropped_witness :
  let run := Service.vaultFile Sample.userData Sample.digest Sample.isoTime
               Sample.stringify More2.desktop "/home/ana/report.pdf"
               "keep this safe" Sample.world0 in
  fst run = true
  ∧ fileAt (disk (snd run))
      (metadataPathOf (storedPathFor Sample.userData Vault
                         (clock Sample.world0) "/home/ana/report.pdf"))
    = Some (Sample.stringify
              (metadataObject Vault "/home/ana/report.pdf" "report.pdf"
                 "t1700000000000" None
                 (Sample.digest (list_byte_of_string "%PDF-1.7 report")))).
Proof.
  intros run.
  assert (H : run = (true, snd run)) by (vm_compute; reflexivity).
  split; [now rewrite H|].
  destruct (vault_reason_is_dropped Sample.userData Sample.digest
              Sample.isoTime Sample.stringify More2.desktop
              "/home/ana/report.pdf" "keep this safe" Sample.world0)
    as [_ Hvault].
  destruct (Hvault (snd run) H) as (content & Hc & Hrec).
  assert (content = list_byte_of_string "%PDF-1.7 report") as ->.
  { assert (E : fileAt (disk Sample.world0) "/home/ana/report.pdf"
                 = Some (list_byte_of_string "%PDF-1.7 report"))
      by (vm_compute; reflexivity).
    rewrite E in Hc. now injection Hc. }
  exact Hrec.
Defined.

Section Shredding.

Variable randomSource : nat → byte.
Variable dirSize : Z.

(** X13.  Shredding a path that holds no regular file, one that is missing
    or a directory, fails and leaves the disk as it was. *)
Theorem shred_needs_regular_file (filePath : string) (w : World) :
  fileAt (disk w) filePath = None →
  ∃ e w', fs_shred randomSource dirSize filePath w = (Failure e, w')
          ∧ disk w' = disk w.
Proof.
  unfold fileAt. intros Hnone.
  unfold fs_shred, tryCatch, shred, forEach. run_prims. unfold isDir. cbn.
  destruct (disk w !! filePath) as [[c|]|] eqn:E; [discriminate| |].
  - cbn. destruct ((dirSize <? 0)%Z || (2 ^ 31 - 1 <? dirSize)%Z); cbn.
    + eexists _, _. split; reflexivity.
    + rewrite E. cbn. eexists _, _. split; reflexivity.
  - cbn. eexists _, _. split; reflexivity.
Qed.

End Shredding.

Lemma shred_needs_regular_file_witness :
  fileAt (disk Sample.world0) "/home/ana" = None
  ∧ ∃ e w', fs_shred Sample.randomSource Sample.dirSize "/home/ana"
              Sample.world0 = (Failure e, w')
            ∧ disk w' = disk Sample.world0.
Proof.
  assert (H : fileAt (disk Sample.world0) "/home/ana" = None) by reflexivity.
  split; [exact H|].
  exact (shred_needs_regular_file Sample.randomSource Sample.dirSize
           "/home/ana" Sample.world0 H).
Defined.

Lemma endsWith_lastChar (s suf : string) :
  JS.endsWith s suf = true → suf = "" ∨ lastChar s = lastChar suf.
Proof.
  induction s as [|c s IH]; cbn [JS.endsWith].
  - rewrite orb_false_r. intros <-%String.eqb_eq. now left.
  - intros [H|H]%orb_true_iff.
    + apply String.eqb_eq in H as <-. now right.
    + destruct (IH H) as [->|E]; [now left|].
      destruct s; [|now right].
      cbn [JS.endsWith] in H. rewrite orb_false_r in H.
      apply String.eqb_eq in H as <-. now left.
Qed.

(** The name of a stored file is not the name of a side record. *)
Lemma stored_not_record (k : Kind) (file : string) :
  JS.endsWith file (storedSuffix k) = true →
  JS.endsWith file ".meta.json" = false.
Proof.
  intros Hs. destruct (JS.endsWith file ".meta.json") eqn:Hm; [|reflexivity].
  apply endsWith_lastChar in Hs as [Hs|Hs]; [now destruct k|].
  apply endsWith_lastChar in Hm as [Hm|Hm]; [discriminate|].
  rewrite Hs in Hm. now destruct k.
Qed.

Lemma dropPrefix_app (pre r : string) : dropPrefix pre (pre ++ r) = Some r.
Proof.
  induction pre as [|a pre IH]; [reflexivity|].
  rewrite PathFacts.append_cons. simpl. now rewrite Ascii.eqb_refl.
Qed.

Lemma entryName_join (hd n : string) :
  isSegment n → entryName hd (Path.join hd n) = Some n.
Proof.
  intros [Hne Hslash]. unfold entryName, Path.join.
  rewrite <- PathFacts.append_assoc, dropPrefix_app.
  destruct n; [now destruct Hne|]. now rewrite Hslash.
Qed.

(** [fs.readdirSync] returns the name of everything right under the
    directory. *)
Lemma readdir_lists (hd : string) (d : gmap string Node) (n : string) :
  isSegment n → is_Some (d !! Path.join hd n) →
  n ∈ omap (entryName hd) ((map_to_list d).*1).
Proof.
  intros Hseg [node Hnode]. apply list_elem_of_omap.
  exists (Path.join hd n). split; [|now apply entryName_join].
  apply list_elem_of_fmap. exists (Path.join hd n, node). split; [reflexivity|].
  now apply elem_of_map_to_list.
Qed.

Lemma record_neq_dir (hd n : string) : Path.join hd n ≠ hd.
Proof. unfold Path.join. apply PathFacts.append_neq_self. discriminate. Qed.

Lemma startsWith_append (pre r : string) : JS.startsWith (pre ++ r) pre = true.
Proof.
  induction pre as [|a pre IH]; [now destruct r|].
  rewrite PathFacts.append_cons. simpl. now rewrite Ascii.eqb_refl.
Qed.

Lemma endsWith_append (s suf : string) : JS.endsWith (s ++ suf) suf = true.
Proof.
  induction s as [|a s IH].
  - change (JS.endsWith suf suf = true).
    destruct suf; cbn [JS.endsWith]; now rewrite String.eqb_refl.
  - rewrite PathFacts.append_cons. cbn [JS.endsWith]. rewrite IH.
    apply orb_true_r.
Qed.

Section Listings.

Variable userData : string.
Variable JSON_parse : list byte → option Json.t.

Lemma sideRecordsSound_readable (hd : string) (d : gmap string Node) :
  sideRecordsSound JSON_parse hd d = true → recordsReadable JSON_parse hd d.
Proof.
  unfold sideRecordsSound. rewrite forallb_forall. intros Hall n.
  destruct (d !! Path.join hd (n ++ ".meta.json")) as [node|] eqn:E;
    [|exact I].
  apply elem_of_map_to_list, list_elem_of_In, Hall in E.
  unfold recordSound in E. cbn [fst snd] in E.
  assert (Hpre : JS.startsWith (Path.join hd (n ++ ".meta.json")) (hd ++ "/")
                 = true).
  { unfold Path.join. rewrite <- PathFacts.append_assoc.
    apply startsWith_append. }
  assert (Hsuf : JS.endsWith (Path.join hd (n ++ ".meta.json")) ".meta.json"
                 = true).
  { unfold Path.join. rewrite <- !PathFacts.append_assoc.
    apply endsWith_append. }
  rewrite Hpre, Hsuf in E. cbn [andb] in E.
  destruct node as [text|]; [|discriminate].
  now apply bool_decide_eq_true in E.
Qed.

Lemma listStep_corrupt (k : Kind) (hd : string)
    (listed : list (list (string * Json.t))) (file : string) (text : list byte)
    (w : World) :
  JS.endsWith file (storedSuffix k) = true →
  disk w !! Path.join hd (file ++ ".meta.json") = Some (File text) →
  JSON_parse text = None →
  ∃ e w', listStep JSON_parse k hd listed file w = (Throw e, w').
Proof.
  intros Hs Hm Hp. unfold listStep.
  rewrite (stored_not_record k file Hs), Hs. simpl.
  unfold parseJSON. run_prims. cbn. rewrite Hm. cbn. rewrite Hm, Hp. cbn.
  now eexists _, _.
Qed.

Lemma foldM_corrupt (k : Kind) (hd file : string) (text : list byte)
    (names : list string) :
  JS.endsWith file (storedSuffix k) = true →
  JSON_parse text = None →
  file ∈ names →
  ∀ listed w,
    disk w !! Path.join hd (file ++ ".meta.json") = Some (File text) →
    ∃ e w', foldM (listStep JSON_parse k hd) listed names w = (Throw e, w').
Proof.
  intros Hs Hp. induction names as [|x names IH]; intros Hin listed w Hm.
  - now apply elem_of_nil in Hin.
  - simpl. rewrite HoldingFacts.bind_run.
    destruct (listStep _ _ _ _ x w) as [[listed1|e] w1] eqn:Hstep;
      [|now eexists _, _].
    apply elem_of_cons in Hin as [<-|Hin].
    + destruct (listStep_corrupt k hd listed file text w Hs Hm Hp)
        as (e & w' & Hthrow).
      congruence.
    + apply ListingFacts.listStep_inv in Hstep as [Hdisk _].
      apply IH; [exact Hin | now rewrite Hdisk].
Qed.

(** X14.  One stored file whose side record is there but is not JSON
    empties the whole listing of the quarantine or of the vault: the
    failure of [JSON.parse] leaves the loop and the handler answers with
    an empty array. *)
Theorem corrupt_record_empties_listing (k : Kind) (w : World)
    (file : string) (text : list byte) :
  let hd := holdingDir userData k in
  isSegment file →
  JS.endsWith file (storedSuffix k) = true →
  is_Some (disk w !! Path.join hd file) →
  disk w !! Path.join hd (file ++ ".meta.json") = Some (File text) →
  JSON_parse text = None →
  fst (orEmpty (listHolding userData JSON_parse k) w) = [].
Proof.
  intros hd Hseg Hs Hfile Hm Hp. unfold orEmpty, listHolding.
  rewrite HoldingFacts.bind_run, HoldingFacts.getHoldingDir_run. cbv zeta.
  fold hd. set (w1 := afterHoldingDir hd w).
  destruct (blocked (disk w) hd); [reflexivity|].
  assert (Hfile1 : is_Some (disk w1 !! Path.join hd file)).
  { unfold w1. rewrite HoldingFacts.afterHoldingDir_below. exact Hfile. }
  assert (Hm1 : disk w1 !! Path.join hd (file ++ ".meta.json")
                = Some (File text)).
  { unfold w1. rewrite HoldingFacts.afterHoldingDir_below. exact Hm. }
  rewrite HoldingFacts.bind_run. run_prims. cbn.
  destruct (disk w1 !! hd) as [[c|]|] eqn:E; cbn; try reflexivity.
  destruct (foldM_corrupt k hd file text
              (omap (entryName hd) ((map_to_list (disk w1)).*1)) Hs Hp
              (readdir_lists hd (disk w1) file Hseg Hfile1) []
              (logged w1 (EvReaddir hd)) Hm1) as (e & w' & ->).
  reflexivity.
Qed.

Lemma listStep_sound (k : Kind) (hd : string)
    (listed : list (list (string * Json.t))) (file : string) (w : World) :
  recordsReadable JSON_parse hd (disk w) →
  ∃ listed' w',
    listStep JSON_parse k hd listed file w = (Ok listed', w')
    ∧ disk w' = disk w
    ∧ (∀ entry, In entry listed → In entry listed')
    ∧ (∀ text metadata,
         JS.endsWith file (storedSuffix k) = true →
         disk w !! Path.join hd (file ++ ".meta.json") = Some (File text) →
         JSON_parse text = Some metadata →
         In (entryFor k hd file metadata) listed').
Proof.
  intros Hsound. unfold listStep.
  destruct (JS.endsWith file (storedSuffix k)) eqn:Hs.
  2:{ destruct (JS.endsWith file ".meta.json"); simpl;
        (eexists _, _; split; [reflexivity|]);
        (split; [reflexivity|]); (split; [now intros|]); discriminate. }
  rewrite (stored_not_record k file Hs). simpl.
  unfold parseJSON. run_prims. cbn.
  specialize (Hsound file).
  destruct (disk w !! Path.join hd (file ++ ".meta.json"))
    as [[text|]|] eqn:E; cbn; [|contradiction|].
  - rewrite E. destruct Hsound as [metadata Hp]. rewrite Hp. cbn.
    eexists _, _. split; [reflexivity|]. split; [reflexivity|]. split.
    + intros entry Hin. apply in_or_app. now left.
    + intros text' metadata' _ [= <-] Hp'. apply in_or_app. right. left.
      unfold entryFor. congruence.
  - eexists _, _. split; [reflexivity|]. split; [reflexivity|].
    split; [now intros|]. discriminate.
Qed.

Lemma foldM_sound (k : Kind) (hd : string) (names : list string) :
  ∀ listed w,
    recordsReadable JSON_parse hd (disk w) →
    ∃ listed' w',
      foldM (listStep JSON_parse k hd) listed names w = (Ok listed', w')
      ∧ (∀ entry, In entry listed → In entry listed')
      ∧ (∀ file text metadata,
           file ∈ names →
           JS.endsWith file (storedSuffix k) = true →
           disk w !! Path.join hd (file ++ ".meta.json") = Some (File text) →
           JSON_parse text = Some metadata →
           In (entryFor k hd file metadata) listed').
Proof.
  induction names as [|x names IH]; intros listed w Hsound.
  - exists listed, w. split; [reflexivity|]. split; [now intros|].
    intros file text metadata Hin. now apply elem_of_nil in Hin.
  - simpl. rewrite HoldingFacts.bind_run.
    destruct (listStep_sound k hd listed x w Hsound)
      as (listed1 & w1 & -> & Hdisk & Hkeep & Hadd).
    rewrite <- Hdisk in Hsound.
    destruct (IH listed1 w1 Hsound) as (listed' & w' & -> & Hkeep' & Hadd').
    exists listed', w'. split; [reflexivity|]. split; [now auto|].
    intros file text metadata Hin Hs Hm Hp.
    apply elem_of_cons in Hin as [->|Hin].
    + apply Hkeep'. now apply (Hadd text).
    + apply (Hadd' file text); try assumption. now rewrite Hdisk.
Qed.

(** X15.  When the holding directory is not a regular file, no regular
    file above it keeps it from being made, and every side record in it is
    a regular file that parses, the listing names every stored file that
    has a side record, with the fields of that record. *)
Theorem listing_complete (k : Kind) (w : World) (file : string)
    (text : list byte) (metadata : Json.t) :
  let hd := holdingDir userData k in
  fileAt (disk w) hd = None →
  blocked (disk w) hd = false →
  sideRecordsSound JSON_parse hd (disk w) = true →
  isSegment file →
  JS.endsWith file (storedSuffix k) = true →
  is_Some (disk w !! Path.join hd file) →
  disk w !! Path.join hd (file ++ ".meta.json") = Some (File text) →
  JSON_parse text = Some metadata →
  In (entryFor k hd file metadata)
    (fst (orEmpty (listHolding userData JSON_parse k) w)).
Proof.
  intros hd Hdir Hfree Hsound%sideRecordsSound_readable Hseg Hs Hfile Hm Hp.
  unfold orEmpty, listHolding.
  rewrite HoldingFacts.bind_run, HoldingFacts.getHoldingDir_run. cbv zeta.
  fold hd. set (w1 := afterHoldingDir hd w). rewrite Hfree.
  assert (Hsame : ∀ n, disk w1 !! Path.join hd n = disk w !! Path.join hd n).
  { intros n. unfold w1. apply HoldingFacts.afterHoldingDir_below. }
  assert (Hhd : disk w1 !! hd = Some Directory).
  { pose proof (HoldingFacts.afterHoldingDir_fileAt hd w hd) as Hf.
    destruct (HoldingFacts.afterHoldingDir_there hd w Hfree) as [node Hnode].
    fold w1 in Hf, Hnode. unfold fileAt in Hf, Hdir.
    rewrite Hnode in *. destruct node as [c|]; [|reflexivity].
    rewrite Hdir in Hf. discriminate. }
  rewrite HoldingFacts.bind_run. run_prims. cbn. rewrite Hhd. cbn.
  destruct (foldM_sound k hd
              (omap (entryName hd) ((map_to_list (disk w1)).*1)) []
              (logged w1 (EvReaddir hd))) as (listed' & w' & -> & _ & Hadd).
  { intros n. cbn. rewrite Hsame. apply Hsound. }
  cbn. apply (Hadd file text); try assumption.
  - apply readdir_lists; [exact Hseg|]. now rewrite Hsame.
  - cbn. now rewrite Hsame.
Qed.

End Listings.

Lemma listing_complete_witness :
  In (entryFor Vault Sample.vaultDir "1700000000000_taxes.xlsx.vault"
        Sample.taxesRecord)
    (fst (fs_list_vault Sample.userData Sample.parse More2.world5)).
Proof.
  apply (listing_complete Sample.userData Sample.parse Vault More2.world5
           "1700000000000_taxes.xlsx.vault" (Sample.stringify Sample.taxesRecord)
           Sample.taxesRecord).
  - vm_compute. reflexivity.
  - vm_compute. reflexivity.
  - vm_compute. reflexivity.
  - split; [discriminate | reflexivity].
  - reflexivity.
  - vm_compute. eexists. reflexivity.
  - vm_compute. reflexivity.
  - vm_compute. reflexivity.
Defined.

Lemma corrupt_record_empties_listing_witness :
  fst (fs_list_vault Sample.userData Sample.parse Sample.world1) ≠ []
  ∧ fst (fs_list_vault Sample.userData Sample.parse More2.world4) = [].
Proof.
  split; [vm_compute; discriminate|].
  apply (corrupt_record_empties_listing Sample.userData Sample.parse Vault
           More2.world4 "1700000000700_notes.txt.vault"
           (list_byte_of_string "{ not json")).
  - split; [discriminate | reflexivity].
  - reflexivity.
  - vm_compute. eexists. reflexivity.
  - vm_compute. reflexivity.
  - vm_compute. reflexivity.
Defined.

End DispositionFacts.


(** * More properties of the deep scan *)

Module ScanFacts.

Import Main Spec ForensicNotions.

Lemma inStep_flag (finding : string) (level : ThreatDetector.ThreatLevel)
    (v : Verdict) :
  level ≠ ThreatDetector.safe → inStep (flag finding level v).
Proof.
  intros Hlevel. unfold inStep, flag. cbn [fst snd]. split; [now intros|].
  intros H. now destruct (fst v).
Qed.

Lemma inStep_checkStrings (buffer : list byte) (v : Verdict) :
  inStep v → inStep (checkStrings buffer v).
Proof.
  unfold checkStrings. generalize suspiciousStrings as ss. intros ss. revert v.
  induction ss as [|s ss IH]; intros v Hv; [exact Hv|].
  simpl. apply IH. destruct (textIncludes buffer s); [|exact Hv].
  now apply inStep_flag.
Qed.

Lemma foldl_marker (buffer : list byte) (s : string) (ss : list string) :
  ∀ v,
    (In s ss ∧ textIncludes buffer s = true)
    ∨ (In (markerFinding s) (fst v) ∧ snd v = ThreatDetector.malicious) →
    let v' := foldl (λ v s,
                if textIncludes buffer s
                then flag ("Malicious Marker: Suspicious string " ++ dquote
                           ++ s ++ dquote ++ " found in binary.")
                       ThreatDetector.malicious v
                else v) v ss in
    In (markerFinding s) (fst v') ∧ snd v' = ThreatDetector.malicious.
Proof.
  induction ss as [|x ss IH]; intros v H; cbn [foldl].
  - destruct H as [[[] _]|H]. exact H.
  - apply IH. destruct H as [[[->|Hin] Hs]|[Hin Hlvl]].
    + right. rewrite Hs. unfold flag. cbn [fst snd]. split; [|reflexivity].
      apply in_or_app. right. now left.
    + left. now split.
    + right. destruct (textIncludes buffer x); [|now split].
      unfold flag. cbn [fst snd]. split; [|reflexivity].
      apply in_or_app. now left.
Qed.

(** A finding made before the search for strings is still there after it,
    and so is the level [malicious]. *)
Lemma flagged_stays (buffer : list byte) (finding : string) (v : Verdict) :
  In finding (fst v) → snd v = ThreatDetector.malicious →
  In finding (fst (checkStrings buffer v))
  ∧ snd (checkStrings buffer v) = ThreatDetector.malicious.
Proof.
  unfold checkStrings. generalize suspiciousStrings as ss. intros ss. revert v.
  induction ss as [|x ss IH]; intros v Hin Hlvl; simpl; [now split|].
  apply IH; destruct (textIncludes buffer x); try assumption.
  - unfold flag. simpl. apply in_or_app. now left.
  - reflexivity.
Qed.

Lemma checkStrings_findings (buffer : list byte) (f : string) (v : Verdict) :
  In f (fst (checkStrings buffer v)) → In f (fst v) ∨ ∃ s, f = markerFinding s.
Proof.
  unfold checkStrings. generalize suspiciousStrings as ss. intros ss. revert v.
  induction ss as [|s ss IH]; intros v Hin; [now left|].
  simpl in Hin. apply IH in Hin as [Hin|Hin]; [|now right].
  destruct (textIncludes buffer s); [|now left].
  unfold flag in Hin. cbn [fst] in Hin.
  apply in_app_or in Hin as [Hin|[<-|[]]]; [now left|].
  right. now exists s.
Qed.

Lemma checkEntropy_findings (e : float) (f : string) :
  In f (fst (checkEntropy e ([], ThreatDetector.safe))) → f = entropyFinding.
Proof.
  unfold checkEntropy. destruct (PrimFloat.ltb 7.5 e); [|intros []].
  now intros [<-|[]].
Qed.

Lemma stegFinding_neq_entropy (n : Z) : stegFinding n ≠ entropyFinding.
Proof. unfold stegFinding. rewrite PathFacts.append_cons. discriminate. Qed.

Lemma stegFinding_neq_marker (n : Z) (s : string) :
  stegFinding n ≠ markerFinding s.
Proof.
  unfold stegFinding, markerFinding. rewrite !PathFacts.append_cons.
  discriminate.
Qed.

Lemma pngFinding_neq_marker (s : string) : pngFinding ≠ markerFinding s.
Proof.
  unfold markerFinding. rewrite !PathFacts.append_cons. discriminate.
Qed.

(** An IEND tag with no IEND tag after it is the one [lastIndexOf] finds. *)
Lemma lastIndexOf_last_iend (pre tail : list byte) :
  includesBytes tail IEND = false →
  lastIndexOf (pre ++ IEND ++ tail) IEND = Z.of_nat (length pre).
Proof.
  intros Habsent. unfold lastIndexOf.
  destruct (ForensicFacts.lastIndexFrom_skip IEND pre (IEND ++ tail) 0 (-1))
    as (found & ->).
  unfold IEND in *. simpl app.
  cbn [lastIndexFrom startsWithBytes Byte.eqb]. simpl.
  now rewrite ForensicFacts.lastIndexFrom_absent.
Qed.

(** Run the scan on after a lookup of the disk has been settled by [E]. *)
Ltac scan_steps E :=
  repeat first [rewrite E | progress cbn -[analyse entropyOf Z.mul Z.ltb]].

Section Scan.

Variable Math_log2 : float → float.
Variable toFixed2 : float → string.
Variable dirSize : Z.
Variable toISOString : Z → string.

Lemma inStep_analyse (ext : string) (buffer : list byte) :
  inStep (analyse Math_log2 ext buffer).
Proof.
  unfold analyse. apply inStep_checkStrings.
  assert (H0 : inStep (checkEntropy (entropyOf Math_log2 buffer)
                         ([], ThreatDetector.safe))).
  { unfold checkEntropy. destruct (PrimFloat.ltb _ _).
    - now apply inStep_flag.
    - unfold inStep. now split. }
  assert (H1 : inStep (checkJpeg ext buffer
                         (checkEntropy (entropyOf Math_log2 buffer)
                            ([], ThreatDetector.safe)))).
  { unfold checkJpeg. destruct (_ || _); [|exact H0].
    destruct (_ && _); [|exact H0]. now apply inStep_flag. }
  unfold checkPng. destruct (String.eqb ext ".png"); [|exact H1].
  destruct (_ && _); [|exact H1]. now apply inStep_flag.
Qed.

(** A scan that succeeds has read a regular file within the cap and
    reports what [analyse] made of it. *)
Lemma deepScan_success (filePath : string) (w : World) (report : ScanReport)
    (w' : World) :
  fs_deep_scan Math_log2 toFixed2 dirSize toISOString filePath w
  = (Success report, w') →
  ∃ buffer,
    fileAt (disk w) filePath = Some buffer
    ∧ (Z.of_nat (length buffer) <= sizeCap)%Z
    ∧ findings report
      = fst (analyse Math_log2 (JS.toLowerCase (Path.extname filePath)) buffer)
    ∧ threatLevel report
      = snd (analyse Math_log2 (JS.toLowerCase (Path.extname filePath)) buffer).
Proof.
  unfold fs_deep_scan, deepScan, fileAt, sizeCap. run_prims.
  destruct (disk w !! filePath) as [[c|]|] eqn:E; scan_steps E;
    try discriminate.
  - destruct (10 * 1024 * 1024 <? Z.of_nat (length c))%Z eqn:Hsize;
      scan_steps E; [discriminate|].
    intros [= <- _]. exists c. apply Z.ltb_ge in Hsize. now repeat split.
  - destruct (10 * 1024 * 1024 <? dirSize)%Z; scan_steps E; discriminate.
Qed.

(** X16.  Whatever it is asked to scan and whatever it answers, the deep
    scan leaves the disk as it was: the only calls it makes are
    [existsSync], [statSync] and [readFileSync]. *)
Theorem deepScan_read_only (filePath : string) (w : World) :
  let w' := snd (fs_deep_scan Math_log2 toFixed2 dirSize toISOString
                   filePath w) in
  disk w' = disk w
  ∧ ∃ calls, log w' = (log w ++ calls)%list ∧ forallb isLook calls = true.
Proof.
  unfold fs_deep_scan, deepScan. run_prims.
  destruct (disk w !! filePath) as [[c|]|] eqn:E; scan_steps E.
  - destruct (10 * 1024 * 1024 <? Z.of_nat (length c))%Z; scan_steps E;
      (split; [reflexivity|]); rewrite <- ?app_assoc;
      eexists; (split; [reflexivity|]); reflexivity.
  - destruct (10 * 1024 * 1024 <? dirSize)%Z; scan_steps E;
      (split; [reflexivity|]); rewrite <- ?app_assoc;
      eexists; (split; [reflexivity|]); reflexivity.
  - split; [reflexivity|]. eexists. split; reflexivity.
Qed.

(** X17.  The size cap of the deep scan: a regular file of at most 10 MiB
    is read and reported on, a larger one is refused after [statSync] and
    never read. *)
Theorem deepScan_size_cap (filePath : string) (buffer : list byte)
    (w : World) :
  fileAt (disk w) filePath = Some buffer →
  ((Z.of_nat (length buffer) <= sizeCap)%Z →
   ∃ report,
     fs_deep_scan Math_log2 toFixed2 dirSize toISOString filePath w
     = (Success report,
        logged (logged (logged w (EvExists filePath)) (EvStat filePath))
          (EvReadFile filePath)))
  ∧ ((sizeCap < Z.of_nat (length buffer))%Z →
     fs_deep_scan Math_log2 toFixed2 dirSize toISOString filePath w
     = (Failure (Message "File too large for deep scan"),
        logged (logged w (EvExists filePath)) (EvStat filePath))).
Proof.
  intros Hfile. split; intros Hsize.
  - eexists.
    exact (ForensicFacts.deepScan_run _ _ _ _ filePath buffer w Hfile Hsize).
  - pose proof (proj1 (HoldingFacts.fileAt_lookup _ _ _) Hfile) as Hlook.
    apply Z.ltb_lt in Hsize. unfold sizeCap in Hsize.
    unfold fs_deep_scan, deepScan. run_prims.
    repeat first [rewrite Hlook | rewrite Hsize
                 | progress cbn -[analyse entropyOf Z.mul Z.ltb]].
    reflexivity.
Qed.

(** X18.  The deep scan of a path that holds no regular file fails, and
    for a path that is not there at all the answer is [File not found]. *)
Theorem deepScan_needs_regular_file (filePath : string) (w : World) :
  fileAt (disk w) filePath = None →
  ∃ e w',
    fs_deep_scan Math_log2 toFixed2 dirSize toISOString filePath w
    = (Failure e, w')
    ∧ (disk w !! filePath = None → e = Message "File not found").
Proof.
  unfold fileAt, fs_deep_scan, deepScan. run_prims.
  destruct (disk w !! filePath) as [[c|]|] eqn:E; scan_steps E;
    [discriminate| |].
  - intros _. destruct (10 * 1024 * 1024 <? dirSize)%Z; scan_steps E;
      eexists _, _; (split; [reflexivity | discriminate]).
  - intros _. eexists _, _. split; reflexivity.
Qed.

(** X19.  In every report of a successful deep scan the threat level is
    [safe] exactly when there are no findings. *)
Theorem deepScan_safe_iff_no_findings (filePath : string) (w : World)
    (report : ScanReport) (w' : World) :
  fs_deep_scan Math_log2 toFixed2 dirSize toISOString filePath w
  = (Success report, w') →
  threatLevel report = ThreatDetector.safe ↔ findings report = [].
Proof.
  intros (buffer & _ & _ & -> & ->)%deepScan_success.
  apply inStep_analyse.
Qed.

(** X20.  Whatever the extension and the entropy, a file within the cap
    that contains one of the seven suspicious strings is reported as
    [malicious], with the finding that names the string. *)
Theorem deepScan_suspicious_string (filePath : string) (buffer : list byte)
    (s : string) (w : World) :
  fileAt (disk w) filePath = Some buffer →
  (Z.of_nat (length buffer) <= sizeCap)%Z →
  In s suspiciousStrings →
  textIncludes buffer s = true →
  ∃ report w',
    fs_deep_scan Math_log2 toFixed2 dirSize toISOString filePath w
    = (Success report, w')
    ∧ In (markerFinding s) (findings report)
    ∧ threatLevel report = ThreatDetector.malicious.
Proof.
  intros Hfile Hsize Hin Hs.
  eexists _, _. split; [exact (ForensicFacts.deepScan_run _ _ _ _ filePath buffer w Hfile Hsize)|].
  cbn [findings threatLevel]. unfold analyse, checkStrings.
  apply foldl_marker. left. now split.
Qed.

(** X21.  A JPEG within the cap whose last end marker is followed by
    [tail]: when [tail] is not empty the scan reports its length as hidden
    data and the level [malicious]; when the file ends with the marker no
    finding speaks of hidden data. *)
Theorem deepScan_jpeg_tail (filePath : string) (pre tail : list byte)
    (w : World) :
  let buffer := (pre ++ [xff; xd9] ++ tail)%list in
  let ext := JS.toLowerCase (Path.extname filePath) in
  fileAt (disk w) filePath = Some buffer →
  (Z.of_nat (length buffer) <= sizeCap)%Z →
  ext = ".jpg" ∨ ext = ".jpeg" →
  includesBytes tail [xff; xd9] = false →
  ∃ report w',
    fs_deep_scan Math_log2 toFixed2 dirSize toISOString filePath w
    = (Success report, w')
    ∧ (tail ≠ [] →
       In (stegFinding (Z.of_nat (length tail))) (findings report)
       ∧ threatLevel report = ThreatDetector.malicious)
    ∧ (tail = [] → ∀ n, ¬ In (stegFinding n) (findings report)).
Proof.
  intros buffer ext Hfile Hsize Hext Hlast.
  eexists _, _. split; [exact (ForensicFacts.deepScan_run _ _ _ _ filePath buffer w Hfile Hsize)|].
  cbn [findings threatLevel]. fold ext. unfold analyse.
  set (v0 := checkEntropy (entropyOf Math_log2 buffer) ([], ThreatDetector.safe)).
  assert (Hpng : ∀ v, checkPng ext buffer v = v).
  { intros v. unfold checkPng. now destruct Hext as [-> | ->]. }
  assert (Hlen : Z.of_nat (length buffer)
                 = (Z.of_nat (length pre) + 2 + Z.of_nat (length tail))%Z).
  { unfold buffer. rewrite !length_app. simpl length. lia. }
  assert (Hjpeg : checkJpeg ext buffer v0
                  = if bool_decide (tail = [])
                    then v0
                    else flag (stegFinding (Z.of_nat (length tail)))
                           ThreatDetector.malicious v0).
  { unfold checkJpeg.
    assert (String.eqb ext ".jpg" || String.eqb ext ".jpeg" = true) as ->.
    { destruct Hext as [-> | ->]; reflexivity. }
    rewrite Hlen. unfold buffer.
    rewrite ForensicFacts.lastIndexOf_last_marker by exact Hlast.
    case_bool_decide as Htail.
    - subst tail. cbn [length].
      assert (negb (Z.of_nat (length pre) =? -1)%Z
              && (Z.of_nat (length pre)
                  <? Z.of_nat (length pre) + 2 + Z.of_nat 0 - 2)%Z
              = false) as ->; [|reflexivity].
      apply andb_false_intro2, Z.ltb_ge. lia.
    - assert (0 < length tail)%nat by (destruct tail; [easy | simpl; lia]).
      assert (negb (Z.of_nat (length pre) =? -1)%Z
              && (Z.of_nat (length pre)
                  <? Z.of_nat (length pre) + 2 + Z.of_nat (length tail) - 2)%Z
              = true) as ->.
      { apply andb_true_intro. split.
        - apply negb_true_iff, Z.eqb_neq. lia.
        - apply Z.ltb_lt. lia. }
      replace (Z.of_nat (length pre) + 2 + Z.of_nat (length tail)
               - Z.of_nat (length pre) - 2)%Z
        with (Z.of_nat (length tail)) by lia.
      reflexivity. }
  rewrite Hpng, Hjpeg. split.
  - intros Htail. rewrite bool_decide_eq_false_2 by exact Htail.
    apply flagged_stays; [|reflexivity].
    unfold flag. cbn [fst]. apply in_or_app. right. now left.
  - intros Htail n Hin. rewrite bool_decide_eq_true_2 in Hin by exact Htail.
    apply checkStrings_findings in Hin as [Hin|[s Hin]].
    + apply checkEntropy_findings in Hin. now apply stegFinding_neq_entropy in Hin.
    + now apply stegFinding_neq_marker in Hin.
Qed.

(** X22.  A PNG within the cap whose last IEND tag is followed by [tail]:
    more than the four bytes of the checksum make the scan report data
    after the IEND chunk and the level [malicious]; four bytes or fewer
    never do. *)
Theorem deepScan_png_tail (filePath : string) (pre tail : list byte)
    (w : World) :
  let buffer := (pre ++ IEND ++ tail)%list in
  fileAt (disk w) filePath = Some buffer →
  (Z.of_nat (length buffer) <= sizeCap)%Z →
  JS.toLowerCase (Path.extname filePath) = ".png" →
  includesBytes tail IEND = false →
  ∃ report w',
    fs_deep_scan Math_log2 toFixed2 dirSize toISOString filePath w
    = (Success report, w')
    ∧ ((4 < length tail)%nat →
       In pngFinding (findings report)
       ∧ threatLevel report = ThreatDetector.malicious)
    ∧ ((length tail <= 4)%nat → ¬ In pngFinding (findings report)).
Proof.
  intros buffer Hfile Hsize Hext Hlast.
  eexists _, _. split; [exact (ForensicFacts.deepScan_run _ _ _ _ filePath buffer w Hfile Hsize)|].
  cbn [findings threatLevel]. rewrite Hext. unfold analyse.
  set (v0 := checkEntropy (entropyOf Math_log2 buffer) ([], ThreatDetector.safe)).
  change (checkJpeg ".png" buffer v0) with v0.
  assert (Hlen : Z.of_nat (length buffer)
                 = (Z.of_nat (length pre) + 4 + Z.of_nat (length tail))%Z).
  { unfold buffer. rewrite !length_app. simpl length. lia. }
  assert (Hpng : checkPng ".png" buffer v0
                 = if (4 <? length tail)%nat
                   then flag pngFinding ThreatDetector.malicious v0
                   else v0).
  { unfold checkPng. cbn [String.eqb Ascii.eqb Bool.eqb].
    change (list_byte_of_string "IEND") with IEND.
    rewrite Hlen. unfold buffer. rewrite lastIndexOf_last_iend by exact Hlast.
    destruct (Nat.ltb_spec 4 (length tail)) as [Hlt|Hge].
    - assert (negb (Z.of_nat (length pre) =? -1)%Z
              && (Z.of_nat (length pre)
                  <? Z.of_nat (length pre) + 4 + Z.of_nat (length tail) - 8)%Z
              = true) as ->; [|reflexivity].
      apply andb_true_intro. split.
      + apply negb_true_iff, Z.eqb_neq. lia.
      + apply Z.ltb_lt. lia.
    - assert (negb (Z.of_nat (length pre) =? -1)%Z
              && (Z.of_nat (length pre)
                  <? Z.of_nat (length pre) + 4 + Z.of_nat (length tail) - 8)%Z
              = false) as ->; [|reflexivity].
      apply andb_false_intro2, Z.ltb_ge. lia. }
  rewrite Hpng. split.
  - intros Htail. apply Nat.ltb_lt in Htail. rewrite Htail.
    apply flagged_stays; [|reflexivity].
    unfold flag. cbn [fst]. apply in_or_app. right. now left.
  - intros Htail Hin. apply Nat.ltb_ge in Htail. rewrite Htail in Hin.
    apply checkStrings_findings in Hin as [Hin|[s Hin]].
    + apply checkEntropy_findings in Hin. discriminate.
    + now apply pngFinding_neq_marker in Hin.
Qed.

End Scan.

Lemma deepScan_size_cap_witness :
  fileAt (disk Sample.world0) "/home/ana/report.pdf"
  = Some (list_byte_of_string "%PDF-1.7 report")
  ∧ ∃ report,
      fs_deep_scan Sample.log2 Sample.fixed2 Sample.dirSize Sample.isoTime
        "/home/ana/report.pdf" Sample.world0
      = (Success report,
         logged (logged (logged Sample.world0 (EvExists "/home/ana/report.pdf"))
                   (EvStat "/home/ana/report.pdf"))
           (EvReadFile "/home/ana/report.pdf")).
Proof.
  assert (H : fileAt (disk Sample.world0) "/home/ana/report.pdf"
              = Some (list_byte_of_string "%PDF-1.7 report"))
    by (vm_compute; reflexivity).
  split; [exact H|].
  apply (deepScan_size_cap Sample.log2 Sample.fixed2 Sample.dirSize
           Sample.isoTime "/home/ana/report.pdf"
           (list_byte_of_string "%PDF-1.7 report") Sample.world0 H).
  vm_compute. discriminate.
Defined.

Lemma deepScan_needs_regular_file_witness :
  fileAt (disk Sample.world0) "/home/ana/gone.bin" = None
  ∧ ∃ e w',
      fs_deep_scan Sample.log2 Sample.fixed2 Sample.dirSize Sample.isoTime
        "/home/ana/gone.bin" Sample.world0 = (Failure e, w')
      ∧ (disk Sample.world0 !! "/home/ana/gone.bin" = None
         → e = Message "File not found").
Proof.
  assert (H : fileAt (disk Sample.world0) "/home/ana/gone.bin" = None)
    by (vm_compute; reflexivity).
  split; [exact H|].
  exact (deepScan_needs_regular_file Sample.log2 Sample.fixed2 Sample.dirSize
           Sample.isoTime "/home/ana/gone.bin" Sample.world0 H).
Defined.

Lemma deepScan_safe_iff_no_findings_witness :
  ∃ report w',
    fs_deep_scan Sample.log2 Sample.fixed2 Sample.dirSize Sample.isoTime
      "/home/ana/note.txt" More3.world6 = (Success report, w')
    ∧ (threatLevel report = ThreatDetector.safe ↔ findings report = []).
Proof.
  destruct (fs_deep_scan Sample.log2 Sample.fixed2 Sample.dirSize
              Sample.isoTime "/home/ana/note.txt" More3.world6)
    as [[report|e] w'] eqn:H.
  - exists report, w'. split; [reflexivity|].
    exact (deepScan_safe_iff_no_findings Sample.log2 Sample.fixed2
             Sample.dirSize Sample.isoTime "/home/ana/note.txt" More3.world6
             report w' H).
  - vm_compute in H. discriminate H.
Defined.

Lemma deepScan_suspicious_string_witness :
  textIncludes More3.note "powershell" = true
  ∧ ∃ report w',
      fs_deep_scan Sample.log2 Sample.fixed2 Sample.dirSize Sample.isoTime
        "/home/ana/note.txt" More3.world6 = (Success report, w')
      ∧ In (markerFinding "powershell") (findings report)
      ∧ threatLevel report = ThreatDetector.malicious.
Proof.
  assert (H : textIncludes More3.note "powershell" = true)
    by (vm_compute; reflexivity).
  split; [exact H|].
  apply (deepScan_suspicious_string Sample.log2 Sample.fixed2 Sample.dirSize
           Sample.isoTime "/home/ana/note.txt" More3.note "powershell"
           More3.world6).
  - vm_compute. reflexivity.
  - vm_compute. discriminate.
  - left. reflexivity.
  - exact H.
Defined.

Lemma deepScan_jpeg_tail_witness :
  ∃ report w',
    fs_deep_scan Sample.log2 Sample.fixed2 Sample.dirSize Sample.isoTime
      "/home/ana/Pictures/clean.jpeg" More3.world6 = (Success report, w')
    ∧ ∀ n, ¬ In (stegFinding n) (findings report).
Proof.
  destruct (deepScan_jpeg_tail Sample.log2 Sample.fixed2 Sample.dirSize
              Sample.isoTime "/home/ana/Pictures/clean.jpeg"
              [xff; xd8; x00; x10] [] More3.world6)
    as (report & w' & Hrun & _ & Hclean).
  - vm_compute. reflexivity.
  - vm_compute. discriminate.
  - right. vm_compute. reflexivity.
  - reflexivity.
  - exists report, w'. split; [exact Hrun|]. now apply Hclean.
Defined.

Lemma deepScan_png_tail_witness :
  ∃ report w',
    fs_deep_scan Sample.log2 Sample.fixed2 Sample.dirSize Sample.isoTime
      "/home/ana/Pictures/stuffed.PNG" More3.world6 = (Success report, w')
    ∧ In pngFinding (findings report)
    ∧ threatLevel report = ThreatDetector.malicious.
Proof.
  destruct (deepScan_png_tail Sample.log2 Sample.fixed2 Sample.dirSize
              Sample.isoTime "/home/ana/Pictures/stuffed.PNG"
              (list_byte_of_string "PNG....IDAT....")
              ([xae; x42; x60; x82] ++ list_byte_of_string "hidden")%list
              More3.world6)
    as (report & w' & Hrun & Hstuffed & _).
  - vm_compute. reflexivity.
  - vm_compute. discriminate.
  - vm_compute. reflexivity.
  - vm_compute. reflexivity.
  - exists report, w'. split; [exact Hrun|]. apply Hstuffed.
    vm_compute. lia.
Defined.

End ScanFacts.


(** * More properties of the sentry and of the dashboard *)

Module AppFacts.

Import Sentry Spec.

Lemma lastThree_length {A} (l : list A) : (length (lastThree l) <= 3)%nat.
Proof. unfold lastThree. rewrite length_drop. lia. Qed.

(** X23.  One run of the sentry makes at most two notifications.  When it
    makes none, nothing changes and nothing is sent to the system; when it
    makes some, at most three notifications stay on show, the new ones
    among them behind what is kept of the old ones.  It never touches the
    snoozes, the preview or the prompts. *)
Theorem sentryTick_outbox (settings : AppSettings)
    (files : list ThreatDetector.FileItem) (now : Z) (st : AppState) :
  let t := sentryTick settings files now st in
  (length (newNotes t) <= 2)%nat
  ∧ (newNotes t = [] → after t = st ∧ nativeCalls t = [])
  ∧ (length (notifications (after t))
     <= Nat.max 3 (length (notifications st)))%nat
  ∧ (newNotes t ≠ [] →
     (length (notifications (after t)) <= 3)%nat
     ∧ ∃ k, notifications (after t)
            = (drop k (notifications st) ++ newNotes t)%list)
  ∧ snoozeMap (after t) = snoozeMap st
  ∧ activePreview (after t) = activePreview st
  ∧ sentMessages (after t) = sentMessages st.
Proof.
  unfold sentryTick.
  destruct (enableProactiveSentry settings); simpl negb; cbv iota.
  2:{ cbn. repeat split; try lia; try easy. }
  set (ss := (15 <? _)%Z && negb _). set (dl := (10 <? _)%Z && negb _).
  destruct ss, dl; cbn [app length];
    change (0 <? Z.of_nat 2)%Z with true;
    change (0 <? Z.of_nat 1)%Z with true;
    change (0 <? Z.of_nat 0)%Z with false; cbv iota;
    cbn [newNotes after nativeCalls notifications snoozeMap activePreview
           sentMessages length];
    repeat match goal with
           | |- _ ∧ _ => split
           | |- _ → _ => intros ?
           end;
    try reflexivity; try lia; try easy;
    try (etransitivity; [apply lastThree_length | lia]);
    try apply lastThree_length;
    try (rewrite SentryFacts.lastThree_app by (simpl; lia); eexists;
         reflexivity).
Qed.

(** What a run of the enabled sentry says about the downloads. *)
Lemma sentryTick_storage (settings : AppSettings)
    (files : list ThreatDetector.FileItem) (now : Z) (st : AppState) :
  ofType "STORAGE" (newNotes (sentryTick settings files now st))
  = if enableProactiveSentry settings
       && (10 <? Z.of_nat (length (List.filter
                   (λ f, String.eqb (ThreatDetector.folder f)
                           FolderType.DOWNLOADS) files)))%Z
       && negb (snoozed (snoozeMap st) "STORAGE" now)
    then [downloadNote now] else [].
Proof.
  unfold sentryTick.
  destruct (enableProactiveSentry settings); simpl negb; cbv iota;
    [|reflexivity].
  set (ss := (15 <? _)%Z && negb _).
  destruct (10 <? _)%Z; destruct (snoozed (snoozeMap st) "STORAGE" now);
    destruct ss; reflexivity.
Qed.

Lemma handle_snoozeMap (noteId : string) (snooze : bool) (now : Z)
    (st : AppState) (ty : string) :
  (∀ note, List.find (λ n, String.eqb (id n) noteId) (notifications st)
           = Some note → type note ≠ ty) →
  snoozeMap (handleNotificationAction noteId snooze now st) !! ty
  = snoozeMap st !! ty.
Proof.
  intros Hty. unfold handleNotificationAction.
  destruct (List.find _ _) as [note|]; [|reflexivity].
  specialize (Hty note eq_refl).
  destruct snooze; cbn; [now rewrite lookup_insert_ne|].
  destruct (actionPrompt note) as [[|c prompt]|]; cbn; try reflexivity.
  now rewrite lookup_insert_ne.
Qed.

(** X24.  Acting on a notification or dismissing it snoozes its own type
    only: what the next run of the sentry says about the downloads is the
    same as if a notification of any other type had not been handled. *)
Theorem handling_snoozes_own_type (settings : AppSettings)
    (files : list ThreatDetector.FileItem) (noteId : string) (snooze : bool)
    (t now : Z) (st : AppState) :
  (∀ note, List.find (λ n, String.eqb (id n) noteId) (notifications st)
           = Some note → type note ≠ "STORAGE") →
  ofType "STORAGE"
    (newNotes (sentryTick settings files now
                 (handleNotificationAction noteId snooze t st)))
  = ofType "STORAGE" (newNotes (sentryTick settings files now st)).
Proof.
  intros Hty. rewrite !sentryTick_storage. unfold snoozed.
  now rewrite (handle_snoozeMap noteId snooze t st "STORAGE" Hty).
Qed.

Lemma filter_all {A} (p : A → bool) (l : list A) :
  Forall (λ x, p x = true) l → List.filter p l = l.
Proof.
  induction 1 as [|x l Hx _ IH]; simpl; [reflexivity|].
  now rewrite Hx, IH.
Qed.

Lemma find_none_all {A} (p : A → bool) (l : list A) :
  Forall (λ x, p x = false) l → List.find p l = None.
Proof.
  induction 1 as [|x l Hx _ IH]; simpl; [reflexivity|]. now rewrite Hx.
Qed.

(** X25.  [handleNotificationAction] takes every notification with the
    given id off show and keeps the others; a dismissal sends no prompt
    and leaves the preview alone; and for an id that is not on show, as
    after a click on a stale system notification, nothing changes. *)
Theorem handle_removes_only_its_note (noteId : string) (snooze : bool)
    (now : Z) (st : AppState) :
  let st' := handleNotificationAction noteId snooze now st in
  notifications st'
  = List.filter (λ n, negb (String.eqb (id n) noteId)) (notifications st)
  ∧ (snooze = true →
     sentMessages st' = sentMessages st ∧ activePreview st' = activePreview st)
  ∧ (Forall (λ n, id n ≠ noteId) (notifications st) → st' = st).
Proof.
  unfold handleNotificationAction. split; [|split].
  - destruct (List.find _ _) as [note|]; [|reflexivity].
    destruct snooze; [reflexivity|].
    now destruct (actionPrompt note) as [[|c prompt]|].
  - intros ->. now destruct (List.find _ _).
  - intros Hfresh.
    rewrite find_none_all.
    + rewrite filter_all; [now destruct st|].
      eapply Forall_impl; [exact Hfresh|].
      intros n Hn. cbv beta. apply negb_true_iff. now apply String.eqb_neq.
    + eapply Forall_impl; [exact Hfresh|].
      intros n Hn. cbv beta. now apply String.eqb_neq.
Qed.

Lemma handling_snoozes_own_type_witness :
  let handled := handleNotificationAction "ss-1800000" true 1830000
                   More4.told in
  ofType "SCREENSHOTS"
    (newNotes (sentryTick Sample.settings More4.cluttered 1860000 handled))
  = []
  ∧ ofType "STORAGE"
      (newNotes (sentryTick Sample.settings More4.cluttered 1860000 handled))
    = ofType "STORAGE"
        (newNotes (sentryTick Sample.settings More4.cluttered 1860000
                     More4.told))
  ∧ ofType "STORAGE"
      (newNotes (sentryTick Sample.settings More4.cluttered 1860000
                   More4.told))
    = [downloadNote 1860000].
Proof.
  intros handled. split; [vm_compute; reflexivity|].
  split; [|vm_compute; reflexivity].
  apply (handling_snoozes_own_type Sample.settings More4.cluttered
           "ss-1800000" true 1830000 1860000 More4.told).
  intros note. vm_compute. intros [= <-]. discriminate.
Defined.

Import ThreatDetector Dashboard.

Lemma scoreStep_le (score : Z) (f : FileItem) : (scoreStep score f <= score)%Z.
Proof. unfold scoreStep. repeat case_bool_decide; lia. Qed.

Lemma scoreStep_mono (a b : Z) (f : FileItem) :
  (a <= b)%Z → (scoreStep a f <= scoreStep b f)%Z.
Proof. unfold scoreStep. repeat case_bool_decide; lia. Qed.

Lemma scoreStep_costly (score : Z) (f : FileItem) :
  (if costly f then scoreStep score f <= score - 5
   else scoreStep score f = score)%Z.
Proof.
  unfold costly, scoreStep.
  destruct (threatLevel f) as [[]|]; destruct (privacyLevel f) as [[]|];
    repeat case_bool_decide; simpl; try congruence; lia.
Qed.

Lemma foldl_scoreStep_le (files : list FileItem) :
  ∀ score, (foldl scoreStep score files <= score)%Z.
Proof.
  induction files as [|f files IH]; intros score; simpl; [lia|].
  specialize (IH (scoreStep score f)). pose proof (scoreStep_le score f). lia.
Qed.

Lemma foldl_scoreStep_clean (files : list FileItem) :
  ∀ score, existsb costly files = false → foldl scoreStep score files = score.
Proof.
  induction files as [|f files IH]; intros score H; simpl; [reflexivity|].
  simpl in H. apply orb_false_elim in H as [Hf Hfiles].
  pose proof (scoreStep_costly score f) as Hs. rewrite Hf in Hs.
  rewrite Hs. now apply IH.
Qed.

Lemma foldl_scoreStep_costly (files : list FileItem) :
  ∀ score, existsb costly files = true →
           (foldl scoreStep score files <= score - 5)%Z.
Proof.
  induction files as [|f files IH]; intros score H; simpl; [discriminate|].
  simpl in H. pose proof (scoreStep_costly score f) as Hs.
  destruct (costly f).
  - pose proof (foldl_scoreStep_le files (scoreStep score f)). lia.
  - rewrite Hs. now apply IH.
Qed.

(** X26.  The integrity score of the dashboard lies between 0 and 98; it
    is 98 exactly when no file is malicious, suspicious or critical for
    privacy; and more files never raise it. *)
Theorem dashboard_score (files more : list FileItem) :
  (0 <= Dashboard.integrityScore files <= 98)%Z
  ∧ (Dashboard.integrityScore files = 98 ↔ existsb costly files = false)
  ∧ (Dashboard.integrityScore (files ++ more)
     <= Dashboard.integrityScore files)%Z.
Proof.
  unfold Dashboard.integrityScore.
  pose proof (foldl_scoreStep_le files 98) as Hle.
  split; [lia|]. split.
  - split.
    + intros H. destruct (existsb costly files) eqn:E; [|reflexivity].
      pose proof (foldl_scoreStep_costly files 98 E). lia.
    + intros H. rewrite foldl_scoreStep_clean by exact H. reflexivity.
  - rewrite foldl_app.
    pose proof (foldl_scoreStep_le more (foldl scoreStep 98 files)). lia.
Qed.

End AppFacts.


(** * Properties of the scanner *)

Module ScannerFacts.

Import Main Scanner Notions2.

Lemma orSkip_ok {A} (m : M A) (otherwise a : A) (w w' : World) :
  m w = (Ok a, w') → orSkip m otherwise w = (Ok a, w').
Proof. unfold orSkip. now intros ->. Qed.

Lemma places_no_dir (d : gmap string Node) (levels : nat) (dir : string) :
  d !! dir ≠ Some Directory → places d levels dir = [].
Proof.
  intros Hdir. destruct levels as [|below]; [reflexivity|]. simpl.
  destruct (d !! dir) as [[c|]|]; try reflexivity. now destruct Hdir.
Qed.

Lemma foldl_join_cons (root sub : string) (rest : list string) :
  foldl Path.join root (sub :: rest) = foldl Path.join (Path.join root sub) rest.
Proof. reflexivity. Qed.

(** What a scan comes by is a regular file that is not hidden, fewer
    directories down than the scan has levels. *)
Lemma places_sound (d : gmap string Node) (levels : nat) :
  ∀ root dir name,
    In (dir, name) (places d levels root) →
    ∃ subdirs content,
      (length subdirs < levels)%nat
      ∧ dir = foldl Path.join root subdirs
      ∧ d !! Path.join dir name = Some (File content)
      ∧ hidden name = false.
Proof.
  induction levels as [|below IH]; intros root dir name Hin; [destruct Hin|].
  cbn [places] in Hin.
  destruct (d !! root) as [[c|]|]; [destruct Hin| |destruct Hin].
  apply in_flat_map in Hin as (n & _ & Hin). unfold placesOf in Hin.
  destruct (hidden n) eqn:Hhid; [destruct Hin|].
  destruct (d !! Path.join root n) as [[content|]|] eqn:E; [| |destruct Hin].
  - destruct Hin as [[= <- <-]|[]]. exists [], content.
    repeat split; [simpl; lia | exact E | exact Hhid].
  - destruct (1 <=? below)%nat; [|destruct Hin].
    apply IH in Hin as (subdirs & content & Hlen & -> & Hfile & Hname).
    exists (n :: subdirs), content.
    repeat split; [simpl; lia | exact Hfile | exact Hname].
Qed.

(** A scan comes by every regular file that is not hidden and that
    directories which are not hidden lead down to, as far as its levels
    go. *)
Lemma places_complete (d : gmap string Node) (subdirs : list string) :
  ∀ levels root name content,
    reachable d root subdirs →
    (length subdirs < levels)%nat →
    isSegment name → hidden name = false →
    d !! Path.join (foldl Path.join root subdirs) name = Some (File content) →
    In (foldl Path.join root subdirs, name) (places d levels root).
Proof.
  induction subdirs as [|sub rest IH];
    intros levels root name content Hreach Hlen Hseg Hhid Hfile;
    (destruct levels as [|below]; [simpl in Hlen; lia|]);
    destruct Hreach as [Hroot Hrest]; simpl places; rewrite Hroot;
    apply in_flat_map.
  - exists name. split.
    + apply list_elem_of_In, DispositionFacts.readdir_lists; [exact Hseg|].
      simpl in Hfile. now rewrite Hfile.
    + unfold placesOf. simpl in Hfile. rewrite Hhid, Hfile. now left.
  - destruct Hrest as (Hsub & Hsubhid & Hrest).
    pose proof Hrest as Hdir. destruct rest; destruct Hdir as [Hdir _];
      (exists sub; split;
       [ apply list_elem_of_In, DispositionFacts.readdir_lists;
         [exact Hsub | now rewrite Hdir]
       | unfold placesOf; rewrite Hsubhid, Hdir;
         simpl in Hlen;
         destruct (Nat.leb_spec 1 below) as [_|Hlt]; [|lia];
         rewrite foldl_join_cons;
         apply (IH below (Path.join root sub) name content);
         [exact Hrest | simpl; lia | exact Hseg | exact Hhid | exact Hfile] ]).
Qed.

Lemma getFolderType_names (dirPath : string) :
  In (getFolderType dirPath) folderNames.
Proof.
  unfold getFolderType, folderNames.
  repeat match goal with
         | |- context [if ?b then _ else _] => destruct b
         end; simpl; tauto.
Qed.

Lemma lowerChar_idem (c : ascii) :
  JS.lowerChar (JS.lowerChar c) = JS.lowerChar c.
Proof. destruct c as [[] [] [] [] [] [] [] []]; vm_compute; reflexivity. Qed.

Lemma toLowerCase_idem (s : string) :
  JS.toLowerCase (JS.toLowerCase s) = JS.toLowerCase s.
Proof.
  induction s as [|c s IH]; simpl; [reflexivity|].
  now rewrite lowerChar_idem, IH.
Qed.

Lemma archive_tag (file : ThreatDetector.FileItem) :
  In "Archive" (ThreatDetector.generateFileTags file)
  ↔ JS.arrayIncludes [".zip"; ".rar"; ".7z"; ".tar"; ".gz"]
      (JS.toLowerCase (ThreatDetector.extension file)) = true.
Proof.
  unfold ThreatDetector.generateFileTags. cbv zeta. split.
  - intros H. ClassifierFacts.peel_tags H. assumption.
  - intros H. do 2 (apply ClassifierFacts.In_pushIf; left).
    apply ClassifierFacts.In_pushIf. right. now split.
Qed.

Lemma executable_tag (file : ThreatDetector.FileItem) :
  In "Executable" (ThreatDetector.generateFileTags file)
  ↔ JS.arrayIncludes [".exe"; ".msi"]
      (JS.toLowerCase (ThreatDetector.extension file)) = true.
Proof.
  unfold ThreatDetector.generateFileTags. cbv zeta. split.
  - intros H. ClassifierFacts.peel_tags H. assumption.
  - intros H. do 3 (apply ClassifierFacts.In_pushIf; left).
    apply ClassifierFacts.In_pushIf. right. now split.
Qed.

(** Go through the keys of [typeMap] one by one. *)
Ltac by_typeMap ext :=
  unfold getFileType, typeMap, JS.arrayIncludes;
  cbn [List.find existsb fst snd];
  repeat match goal with
         | |- context [String.eqb ?k ext] =>
             destruct (String.eqb_spec k ext) as [<-|?];
             [vm_compute; split; intros; first [reflexivity | discriminate]|]
         end.

Lemma getFileType_archive (ext : string) :
  getFileType ext = "Archive"
  ↔ JS.arrayIncludes [".zip"; ".rar"; ".7z"; ".tar"; ".gz"] ext = true.
Proof.
  by_typeMap ext.
  repeat match goal with
         | |- context [String.eqb ext ?k] =>
             destruct (String.eqb_spec ext k) as [->|?]; [congruence|]
         end.
  cbn. split; discriminate.
Qed.

Lemma getFileType_executable (ext : string) :
  JS.arrayIncludes [".exe"; ".msi"] ext = true
  → getFileType ext = "Executable".
Proof.
  unfold JS.arrayIncludes. cbn [existsb]. rewrite orb_false_r.
  intros [H|H]%orb_true_iff; apply String.eqb_eq in H as ->; reflexivity.
Qed.

(** X1.  The scanner and the detector agree on archives and executables:
    an object of the scan gets the tag [Archive] exactly when the scanner
    typed it [Archive], and one that gets the tag [Executable] was typed
    [Executable], though a script typed [Executable] goes without the
    tag. *)
Theorem scanned_tags_match_type (mtimeISO : string → string)
    (dirPath name : string) (size : Z) (uuid : string) :
  let f := item mtimeISO dirPath name size uuid in
  (In "Archive" (ThreatDetector.generateFileTags f)
   ↔ ThreatDetector.type f = "Archive")
  ∧ (In "Executable" (ThreatDetector.generateFileTags f)
     → ThreatDetector.type f = "Executable")
  ∧ (ThreatDetector.extension f = ".sh"
     → ThreatDetector.type f = "Executable"
       ∧ ¬ In "Executable" (ThreatDetector.generateFileTags f)).
Proof.
  intros f. rewrite archive_tag, executable_tag.
  unfold f, item. cbn [ThreatDetector.extension ThreatDetector.type].
  rewrite toLowerCase_idem.
  split; [symmetry; apply getFileType_archive|].
  split; [apply getFileType_executable|].
  intros ->. split; [reflexivity | discriminate].
Qed.

Section Scan.

Variable home : string.
Variable platform : string.
Variable randomSource : nat → byte.
Variable formatUUID : list byte → string.
Variable dirSize : Z.
Variable mtimeISO : string → string.

(** What the scan of [levels] levels from any directory does: it returns,
    it leaves the disk alone, and its objects stand one by one for the
    files it comes by. *)
Lemma scanEntry_run (below : nat) (dir : string)
    (files : list ThreatDetector.FileItem) (name : string) (w : World) :
  (∀ p w0, ∃ found w1,
      scanLevels randomSource formatUUID dirSize mtimeISO below p w0
      = (Ok found, w1)
      ∧ disk w1 = disk w0
      ∧ Forall2 (standsFor dirSize mtimeISO (disk w0)) found
          (places (disk w0) below p)) →
  ∃ found w',
    scanEntry randomSource formatUUID dirSize mtimeISO
      (scanLevels randomSource formatUUID dirSize mtimeISO below) below dir
      files (dirent (disk w) dir name) w
    = (Ok (files ++ found)%list, w')
    ∧ disk w' = disk w
    ∧ Forall2 (standsFor dirSize mtimeISO (disk w)) found
        (placesOf (disk w) (places (disk w) below) below dir name).
Proof.
  intros IH. unfold scanEntry, placesOf, dirent. cbn [fst snd].
  destruct (hidden name).
  { exists [], w. rewrite app_nil_r. repeat split. constructor. }
  destruct (disk w !! Path.join dir name) as [[content|]|] eqn:E.
  - unfold orSkip, randomUUID. run_prims. cbn. rewrite E. cbn.
    eexists [_], _. split; [reflexivity|]. split; [reflexivity|].
    constructor; [|constructor]. eexists. unfold itemAt, sizeAt. cbn [fst snd].
    rewrite E. reflexivity.
  - cbn [negb andb]. destruct (1 <=? below)%nat.
    + destruct (IH (Path.join dir name) w) as (found & w1 & Hrun & Hdisk & Hfor).
      exists found, w1. split; [|now split].
      apply orSkip_ok. rewrite HoldingFacts.bind_run, Hrun. reflexivity.
    + exists [], w. rewrite app_nil_r. repeat split. constructor.
  - cbn [negb andb]. destruct (1 <=? below)%nat.
    + destruct (IH (Path.join dir name) w) as (found & w1 & Hrun & Hdisk & Hfor).
      rewrite places_no_dir in Hfor by congruence.
      apply Forall2_nil_inv_r in Hfor as ->.
      exists [], w1. split; [|split; [exact Hdisk | constructor]].
      apply orSkip_ok. rewrite HoldingFacts.bind_run, Hrun. reflexivity.
    + exists [], w. rewrite app_nil_r. repeat split. constructor.
Qed.

Lemma scanEntries_run (below : nat) (dir : string) :
  (∀ p w0, ∃ found w1,
      scanLevels randomSource formatUUID dirSize mtimeISO below p w0
      = (Ok found, w1)
      ∧ disk w1 = disk w0
      ∧ Forall2 (standsFor dirSize mtimeISO (disk w0)) found
          (places (disk w0) below p)) →
  ∀ names files w,
    ∃ found w',
      foldM (scanEntry randomSource formatUUID dirSize mtimeISO
               (scanLevels randomSource formatUUID dirSize mtimeISO below)
               below dir)
        files (map (dirent (disk w) dir) names) w
      = (Ok (files ++ found)%list, w')
      ∧ disk w' = disk w
      ∧ Forall2 (standsFor dirSize mtimeISO (disk w)) found
          (flat_map (placesOf (disk w) (places (disk w) below) below dir)
             names).
Proof.
  intros IH. induction names as [|name names IHn]; intros files w.
  - exists [], w. rewrite app_nil_r. repeat split. constructor.
  - destruct (scanEntry_run below dir files name w IH)
      as (found1 & w1 & Hrun1 & Hdisk1 & Hfor1).
    destruct (IHn (files ++ found1)%list w1)
      as (found2 & w2 & Hrun2 & Hdisk2 & Hfor2).
    rewrite Hdisk1 in Hrun2, Hdisk2, Hfor2.
    exists (found1 ++ found2)%list, w2.
    split; [|split; [exact Hdisk2 | now apply Forall2_app]].
    cbn [map foldM]. rewrite HoldingFacts.bind_run, Hrun1, Hrun2.
    now rewrite app_assoc.
Qed.

Lemma scanLevels_run (levels : nat) :
  ∀ dir w, ∃ found w',
    scanLevels randomSource formatUUID dirSize mtimeISO levels dir w
    = (Ok found, w')
    ∧ disk w' = disk w
    ∧ Forall2 (standsFor dirSize mtimeISO (disk w)) found
        (places (disk w) levels dir).
Proof.
  induction levels as [|below IH]; intros dir w.
  - exists [], w. repeat split. constructor.
  - cbn [scanLevels places]. unfold readdirTyped.
    destruct (disk w !! dir) as [[content|]|] eqn:E.
    + exists [], (logged (logged w (EvExists dir)) (EvReaddir dir)).
      split; [|split; [reflexivity | constructor]].
      unfold orSkip. run_prims.
      repeat first [rewrite E | progress cbn]. reflexivity.
    + destruct (scanEntries_run below dir IH
                  (omap (entryName dir) ((map_to_list (disk w)).*1)) []
                  (logged (logged w (EvExists dir)) (EvReaddir dir)))
        as (found & w' & Hrun & Hdisk & Hfor).
      exists found, w'. split; [|now split].
      apply orSkip_ok. run_prims.
      repeat first [rewrite E | progress cbn -[foldM scanEntry]].
      exact Hrun.
    + exists [], (logged w (EvExists dir)).
      split; [|split; [reflexivity | constructor]].
      unfold orSkip. run_prims.
      repeat first [rewrite E | progress cbn]. reflexivity.
Qed.

Lemma standsFor_scanned (d : gmap string Node) (levels : nat) (root : string)
    (f : ThreatDetector.FileItem) (place : string * string) :
  In place (places d levels root) →
  standsFor dirSize mtimeISO d f place →
  scanned d root (levels - 1) f.
Proof.
  destruct place as [dir name]. intros Hin [uuid ->].
  apply places_sound in Hin as (subdirs & content & Hlen & -> & Hfile & Hhid).
  exists subdirs, content. unfold itemAt, sizeAt. cbn. rewrite Hfile.
  repeat split; try assumption; try reflexivity. lia.
Qed.

(** X27.  A scan of a directory always returns and leaves the disk as it
    was, and each object it returns stands for a regular file that is on
    the disk, is not hidden and lies fewer than [maxDepth] directories
    down; the object has the file's name, path and size, the extension in
    lower case, the type and folder worked out from them, and the levels
    [safe] and [public] with no tags. *)
Theorem scanDirectory_sound (dirPath : string) (maxDepth : Z) (w : World) :
  ∃ files w',
    scanDirectory randomSource formatUUID dirSize mtimeISO dirPath maxDepth 0 w
    = (Ok files, w')
    ∧ disk w' = disk w
    ∧ Forall (scanned (disk w) dirPath (Z.to_nat maxDepth - 1)) files.
Proof.
  unfold scanDirectory. rewrite Z.sub_0_r.
  destruct (scanLevels_run (Z.to_nat maxDepth) dirPath w)
    as (files & w' & Hrun & Hdisk & Hfor).
  exists files, w'. split; [exact Hrun|]. split; [exact Hdisk|].
  apply Forall_lookup. intros i f Hf.
  destruct (Forall2_lookup_l _ _ _ _ _ Hfor Hf) as (place & Hplace & Hstands).
  apply (standsFor_scanned _ _ _ _ place); [|exact Hstands].
  apply list_elem_of_In. now apply list_elem_of_lookup_2 in Hplace.
Qed.

(** X28.  A scan of a directory reports every regular file that is not
    hidden and that directories which are not hidden lead down to, when
    these are fewer than [maxDepth]; the object has the file's path and
    size. *)
Theorem scanDirectory_complete (dirPath : string) (maxDepth : Z) (w : World)
    (subdirs : list string) (name : string) (content : list byte) :
  let dir := foldl Path.join dirPath subdirs in
  reachable (disk w) dirPath subdirs →
  (Z.of_nat (length subdirs) < maxDepth)%Z →
  isSegment name → hidden name = false →
  disk w !! Path.join dir name = Some (File content) →
  ∃ files w' f,
    scanDirectory randomSource formatUUID dirSize mtimeISO dirPath maxDepth 0 w
    = (Ok files, w')
    ∧ In f files
    ∧ ThreatDetector.path f = Path.join dir name
    ∧ ThreatDetector.size f = Z.of_nat (length content).
Proof.
  intros dir Hreach Hdepth Hseg Hhid Hfile.
  unfold scanDirectory. rewrite Z.sub_0_r.
  destruct (scanLevels_run (Z.to_nat maxDepth) dirPath w)
    as (files & w' & Hrun & Hdisk & Hfor).
  assert (Hin : (dir, name) ∈ places (disk w) (Z.to_nat maxDepth) dirPath).
  { apply list_elem_of_In, (places_complete _ _ _ _ _ content);
      try assumption. lia. }
  apply list_elem_of_lookup_1 in Hin as [i Hi].
  destruct (Forall2_lookup_r _ _ _ _ _ Hfor Hi) as (f & Hf & [uuid ->]).
  exists files, w', (itemAt dirSize mtimeISO (disk w) (dir, name) uuid).
  split; [exact Hrun|].
  split; [apply list_elem_of_In; exact (list_elem_of_lookup_2 _ _ _ Hf)|].
  unfold itemAt, sizeAt. cbn. fold dir. now rewrite Hfile.
Qed.

(** The handler of [fs:scan-all] scans the five directories one after the
    other. *)
Lemma fs_scan_all_run (w : World) :
  ∃ files w',
    fs_scan_all home platform randomSource formatUUID dirSize mtimeISO w
    = (Ok files, w')
    ∧ disk w' = disk w
    ∧ Forall2 (standsFor dirSize mtimeISO (disk w)) files
        (flat_map (λ entry, places (disk w) 2 entry.2)
           (getUserDirectories home platform)).
Proof.
  unfold fs_scan_all. generalize (getUserDirectories home platform) as dirs.
  intros dirs.
  enough (H : ∀ allFiles w, ∃ found w',
             foldM (λ allFiles entry,
                      files ← scanDirectory randomSource formatUUID dirSize
                                mtimeISO entry.2 2 0;
                      mret (allFiles ++ files)%list) allFiles dirs w
             = (Ok (allFiles ++ found)%list, w')
             ∧ disk w' = disk w
             ∧ Forall2 (standsFor dirSize mtimeISO (disk w)) found
                 (flat_map (λ entry, places (disk w) 2 entry.2) dirs)).
  { destruct (H [] w) as (found & w' & Hrun & Hrest). now exists found, w'. }
  induction dirs as [|entry dirs IH]; intros allFiles w0.
  - exists [], w0. rewrite app_nil_r. repeat split. constructor.
  - destruct (scanLevels_run 2 entry.2 w0) as (found1 & w1 & Hrun1 & Hdisk1 & Hfor1).
    destruct (IH (allFiles ++ found1)%list w1)
      as (found2 & w2 & Hrun2 & Hdisk2 & Hfor2).
    rewrite Hdisk1 in Hdisk2, Hfor2.
    exists (found1 ++ found2)%list, w2.
    split; [|split; [exact Hdisk2 | now apply Forall2_app]].
    cbn [foldM]. rewrite HoldingFacts.bind_run.
    unfold scanDirectory at 1.
    change (Z.to_nat (2 - 0)) with 2%nat.
    rewrite HoldingFacts.bind_run, Hrun1. cbn [mret M_ret].
    rewrite Hrun2. now rewrite app_assoc.
Qed.

Lemma lookup_twice {A} (l1 l2 l3 : list A) (x : A) :
  x ∈ l2 → x ∈ l3 →
  ∃ i j, (i < j)%nat ∧ (l1 ++ l2 ++ l3)%list !! i = Some x
         ∧ (l1 ++ l2 ++ l3)%list !! j = Some x.
Proof.
  intros [i Hi]%list_elem_of_lookup_1 [j Hj]%list_elem_of_lookup_1.
  pose proof (lookup_lt_Some _ _ _ Hi) as Hlt.
  exists (length l1 + i)%nat, (length l1 + (length l2 + j))%nat.
  split; [lia|]. split.
  - rewrite lookup_app_r by lia.
    replace (length l1 + i - length l1)%nat with i by lia.
    now rewrite lookup_app_l.
  - rewrite lookup_app_r by lia.
    replace (length l1 + (length l2 + j) - length l1)%nat
      with (length l2 + j)%nat by lia.
    rewrite lookup_app_r by lia.
    replace (length l2 + j - length l2)%nat with j by lia. exact Hj.
Qed.

(** X29.  On every platform [fs:scan-all] reports each regular file of the
    screenshots directory that is not hidden twice: that directory is
    Pictures itself or lies right under it, and Pictures is scanned two
    levels deep before the screenshots directory is scanned again. *)
Theorem screenshots_scanned_twice (w : World) (name : string)
    (content : list byte) :
  let pictures := Path.join home "Pictures" in
  let screenshots :=
    if String.eqb platform "win32" || String.eqb platform "darwin"
    then Path.join pictures "Screenshots" else pictures in
  disk w !! pictures = Some Directory →
  disk w !! screenshots = Some Directory →
  isSegment name → hidden name = false →
  disk w !! Path.join screenshots name = Some (File content) →
  ∃ files w' i j,
    fs_scan_all home platform randomSource formatUUID dirSize mtimeISO w
    = (Ok files, w')
    ∧ (i < j)%nat
    ∧ ThreatDetector.path <$> files !! i = Some (Path.join screenshots name)
    ∧ ThreatDetector.path <$> files !! j = Some (Path.join screenshots name).
Proof.
  intros pictures screenshots Hpic Hshots Hseg Hhid Hfile.
  destruct (fs_scan_all_run w) as (files & w' & Hrun & _ & Hfor).
  assert (Hfifth : (getUserDirectories home platform)
                   = [("downloads", Path.join home "Downloads");
                      ("documents", Path.join home "Documents");
                      ("desktop", Path.join home "Desktop");
                      ("pictures", pictures);
                      ("screenshots", screenshots)]).
  { unfold getUserDirectories, screenshots, pictures.
    now destruct (String.eqb platform "win32"),
          (String.eqb platform "darwin"). }
  rewrite Hfifth in Hfor. cbn [flat_map snd] in Hfor.
  rewrite app_nil_r, !app_assoc, <- app_assoc in Hfor.
  assert (Hin5 : (screenshots, name) ∈ places (disk w) 2 screenshots).
  { apply list_elem_of_In.
    apply (places_complete (disk w) [] 2 screenshots name content);
      [now split | simpl; lia | exact Hseg | exact Hhid | exact Hfile]. }
  assert (Hin4 : (screenshots, name) ∈ places (disk w) 2 pictures).
  { unfold screenshots in *.
    destruct (String.eqb platform "win32" || String.eqb platform "darwin").
    - apply list_elem_of_In.
      apply (places_complete (disk w) ["Screenshots"] 2 pictures name content);
        [|simpl; lia | exact Hseg | exact Hhid | exact Hfile].
      split; [exact Hpic|]. split; [now split|]. split; [reflexivity|].
      now split.
    - exact Hin5. }
  destruct (lookup_twice
              ((places (disk w) 2 (Path.join home "Downloads")
                ++ places (disk w) 2 (Path.join home "Documents"))
               ++ places (disk w) 2 (Path.join home "Desktop"))%list
              _ _ _ Hin4 Hin5) as (i & j & Hij & Hi & Hj).
  destruct (Forall2_lookup_r _ _ _ _ _ Hfor Hi) as (fi & Hfi & [ui ->]).
  destruct (Forall2_lookup_r _ _ _ _ _ Hfor Hj) as (fj & Hfj & [uj ->]).
  exists files, w', i, j. split; [exact Hrun|]. split; [exact Hij|].
  now rewrite Hfi, Hfj.
Qed.

(** X30.  Whatever is on the disk, the files [scanUserDirectories] hands to
    the application are filed under one of the seven names of
    [getFolderType], never under Recycle Bin, so the junk figure of the
    dashboard is 0 for them. *)
Theorem scanned_junk_is_zero (window : Service.Window) (w : World) :
  let files := fst (scanUserDirectories home platform randomSource formatUUID
                      dirSize mtimeISO window w) in
  Forall (λ f, In (ThreatDetector.folder f) folderNames) files
  ∧ Dashboard.junk files = 0%Z.
Proof.
  intros files.
  assert (Hfolders : Forall (λ f, In (ThreatDetector.folder f) folderNames)
                       files).
  { unfold files, scanUserDirectories.
    destruct (negb _ || negb _); [constructor|].
    destruct (fs_scan_all_run w) as (found & w' & -> & _ & Hfor).
    cbn [fst]. unfold ThreatDetector.analyzeFiles.
    apply Forall_forall. intros f Hf.
    apply list_elem_of_In, in_map_iff in Hf as (g & <- & Hg).
    apply list_elem_of_In, list_elem_of_lookup_1 in Hg as [i Hi].
    destruct (Forall2_lookup_l _ _ _ _ _ Hfor Hi) as (place & _ & [uuid ->]).
    cbn. apply getFolderType_names. }
  split; [exact Hfolders|].
  unfold Dashboard.junk, Dashboard.totalSize.
  replace (List.filter _ files) with (@nil ThreatDetector.FileItem);
    [reflexivity|].
  symmetry. induction Hfolders as [|f rest Hf _ IH]; [reflexivity|].
  simpl. rewrite <- IH.
  assert (String.eqb (ThreatDetector.folder f) Sentry.FolderType.RECYCLE_BIN
          = false) as ->; [|reflexivity].
  apply String.eqb_neq. intros Heq. rewrite Heq in Hf.
  unfold folderNames in Hf. simpl in Hf.
  repeat (destruct Hf as [Hf|Hf]; [discriminate Hf|]). exact Hf.
Qed.

End Scan.

Lemma scanDirectory_complete_witness :
  ∃ files w' f,
    scanDirectory Sample.randomSource More5.uuidOf Sample.dirSize More5.mtime
      "/home/ana/Pictures" 2 0 More5.world7 = (Ok files, w')
    ∧ In f files
    ∧ ThreatDetector.path f = "/home/ana/Pictures/Screenshots/shot1.png"
    ∧ ThreatDetector.size f = 4%Z.
Proof.
  apply (scanDirectory_complete Sample.randomSource More5.uuidOf
           Sample.dirSize More5.mtime "/home/ana/Pictures" 2 More5.world7
           ["Screenshots"] "shot1.png" (list_byte_of_string "PNG1")).
  - split; [vm_compute; reflexivity|].
    split; [split; [discriminate | reflexivity]|].
    split; [reflexivity|]. split; [vm_compute; reflexivity | exact I].
  - simpl. lia.
  - split; [discriminate | reflexivity].
  - reflexivity.
  - vm_compute. reflexivity.
Defined.

Lemma screenshots_scanned_twice_witness :
  ∃ files w' i j,
    fs_scan_all "/home/ana" "win32" Sample.randomSource More5.uuidOf
      Sample.dirSize More5.mtime More5.world7 = (Ok files, w')
    ∧ (i < j)%nat
    ∧ ThreatDetector.path <$> files !! i
      = Some "/home/ana/Pictures/Screenshots/shot1.png"
    ∧ ThreatDetector.path <$> files !! j
      = Some "/home/ana/Pictures/Screenshots/shot1.png".
Proof.
  apply (screenshots_scanned_twice "/home/ana" "win32" Sample.randomSource
           More5.uuidOf Sample.dirSize More5.mtime More5.world7 "shot1.png"
           (list_byte_of_string "PNG1")).
  - vm_compute. reflexivity.
  - vm_compute. reflexivity.
  - split; [discriminate | reflexivity].
  - reflexivity.
  - vm_compute. reflexivity.
Defined.

End ScannerFacts.
